(** * MythicBot: warning ledger, guild configuration store, duration parser
      and moderation eligibility checks

    A shallow embedding of
      - [utils/duration_parser.py]  ([parse_duration]),
      - [utils/config_manager.py]   ([get_config], [save_config],
                                     [get_guild_lock]),
      - [cogs/moderation.py]        ([_check_moderation_permissions], [warn],
                                     [clearwarns], [warnings], the three
                                     [warnconfig] setters, [timeout],
                                     [lock], [unlock], [slowmode],
                                     [_create_mod_log_embed]),
      - [cogs/logging.py]           ([log_event], [_set_channel_helper],
                                     [_set_message_helper]),
      - [cogs/verification.py]      ([set_verified_role])
    together with the properties the specification states about them and
    further properties read off the code.

    Conventions.  A Python [str] is a [string] whose characters are read as
    the code points U+0000..U+00FF; every statement about text is about text
    within that range.  (Beyond it the interpreter's [\d], [int] and
    [str.lower] also know the decimal digits and the letters of other
    scripts, which are not modelled.)  A [dict] used as a map is a [gmap].  An
    exception that the code lets escape is the [Raise] case of [result]; a
    [None] return value is [Ok None]. *)

From Stdlib Require Import ZArith NArith Lia Ascii String DecimalString Sorted.
From stdpp Require Import base option list gmap strings.

Local Open Scope string_scope.
Local Open Scope list_scope.
Local Open Scope Z_scope.

(** ** Python primitives the source files rely on *)

Module Py.

(** Exceptions that occur in the modelled code. *)
Inductive exn : Type :=
| OverflowError
| FileNotFoundError
| JSONDecodeError
| UnicodeDecodeError
| PermissionError.

Inductive result (A : Type) : Type :=
| Ok (a : A)
| Raise (e : exn).
Arguments Ok {A} a.
Arguments Raise {A} e.

Definition bind {A B} (r : result A) (k : A -> result B) : result B :=
  match r with
  | Ok a => k a
  | Raise e => Raise e
  end.

Definition code (c : ascii) : N := N_of_ascii c.

Definition LF : ascii := ascii_of_N 10.

(** [\d] of module [re] on a [str] pattern, for code points below U+0100:
    the only decimal digits there are [0-9]. *)
Definition is_decimal (c : ascii) : bool :=
  ((48 <=? code c) && (code c <=? 57))%N.

Definition digit_value (c : ascii) : Z := Z.of_N (code c) - 48.

(** [str.lower] on one code point below U+0100: [A-Z] and the Latin-1
    capitals U+00C0..U+00DE (U+00D7 excepted) move up by 32. *)
Definition lower_char (c : ascii) : ascii :=
  let n := code c in
  if (((65 <=? n) && (n <=? 90))
      || ((192 <=? n) && (n <=? 222) && negb (n =? 215)))%N
  then ascii_of_N (n + 32)
  else c.

Fixpoint lower (s : string) : string :=
  match s with
  | EmptyString => EmptyString
  | String c r => String (lower_char c) (lower r)
  end.

(** White space as [int] skips it around a literal, below U+0100: the
    ASCII white space (tab, line feed, vertical tab, form feed, carriage
    return, space) and U+0085 and U+00A0, which [int] first turns into a
    space.  The separators U+001C..U+001F are white space for [str.strip]
    but not here: [int] raises [ValueError] on them. *)
Definition is_int_space (c : ascii) : bool :=
  let n := code c in
  (((9 <=? n) && (n <=? 13)) || (n =? 32) || (n =? 133) || (n =? 160))%N.

Fixpoint skip_leading_space (s : string) : string :=
  match s with
  | EmptyString => EmptyString
  | String c r => if is_int_space c then skip_leading_space r else s
  end.

Fixpoint skip_trailing_space (s : string) : string :=
  match s with
  | EmptyString => EmptyString
  | String c r =>
      match skip_trailing_space r with
      | EmptyString =>
          if is_int_space c then EmptyString else String c EmptyString
      | r' => String c r'
      end
  end.

(** The interpreter's cap on the number of digits [int] converts
    ([sys.set_int_max_str_digits]): absent or switched off ([NoLimit]), or
    a value of at least 640, written [640 + extra]. *)
Inductive int_max_str_digits : Type :=
| NoLimit
| Limit (extra : nat).

Definition exceeds (lim : int_max_str_digits) (ndigits : nat) : bool :=
  match lim with
  | NoLimit => false
  | Limit extra => Nat.ltb (640 + extra) ndigits
  end.

(** The digit part of a decimal literal: digits, with single underscores
    between digits.  Returns the value and the number of digits. *)
Fixpoint int_digits (acc : Z) (n : nat) (prev_digit : bool) (s : string)
  : option (Z * nat) :=
  match s with
  | EmptyString => if prev_digit then Some (acc, n) else None
  | String c r =>
      if is_decimal c then int_digits (10 * acc + digit_value c) (S n) true r
      else if Ascii.eqb c "_" && prev_digit then int_digits acc n false r
      else None
  end.

(** [int(s)] on a [str]: white space around the literal is skipped, then
    come an optional sign and the digits.  [None] stands for
    [ValueError]. *)
Definition int (lim : int_max_str_digits) (s : string) : option Z :=
  let t := skip_trailing_space (skip_leading_space s) in
  let '(sign, body) :=
    match t with
    | String "-" r => (-1, r)
    | String "+" r => (1, r)
    | _ => (1, t)
    end in
  match int_digits 0 0 false body with
  | Some (v, n) => if exceeds lim n then None else Some (sign * v)
  | None => None
  end.

(** [datetime.timedelta], in whole seconds.  The constructor raises
    [OverflowError] when the normalised number of days leaves
    [-999999999 .. 999999999]. *)
Record timedelta : Type := Timedelta { total_seconds : Z }.

Definition timedelta_max_days : Z := 999999999.

Definition timedelta_of_seconds (secs : Z) : result timedelta :=
  if Z.abs (secs / 86400) >? timedelta_max_days
  then Raise OverflowError
  else Ok (Timedelta secs).

Definition seconds (v : Z) : result timedelta := timedelta_of_seconds v.
Definition minutes (v : Z) : result timedelta := timedelta_of_seconds (60 * v).
Definition hours (v : Z) : result timedelta := timedelta_of_seconds (3600 * v).
Definition days (v : Z) : result timedelta := timedelta_of_seconds (86400 * v).

Definition td_gt (a b : timedelta) : bool := total_seconds a >? total_seconds b.
Definition td_le (a b : timedelta) : bool := total_seconds a <=? total_seconds b.

(** Truth value of a [timedelta]: false exactly for the zero duration. *)
Definition td_truthy (a : timedelta) : bool := negb (total_seconds a =? 0).

Definition days28 : timedelta := Timedelta (28 * 86400).

End Py.

Notation "'let*' x ':=' r 'in' k" := (Py.bind r (fun x => k))
  (at level 10, x name, r at level 100, k at level 200).

(** ** utils/duration_parser.py *)

Module DurationParser.
Import Py.

(** Longest prefix of [\d] characters, and the rest. *)
Fixpoint span_digits (s : string) : string * string :=
  match s with
  | EmptyString => (EmptyString, EmptyString)
  | String c r =>
      if is_decimal c
      then let '(ds, rest) := span_digits r in (String c ds, rest)
      else (EmptyString, s)
  end.

(** [[smhd]] *)
Definition is_unit (c : ascii) : bool :=
  Ascii.eqb c "s" || Ascii.eqb c "m" || Ascii.eqb c "h" || Ascii.eqb c "d".

(** [$] without [re.MULTILINE]: the end of the string, or the position just
    before a line feed that ends the string. *)
Definition at_dollar (s : string) : bool :=
  match s with
  | EmptyString => true
  | String c EmptyString => Ascii.eqb c LF
  | _ => false
  end.

(** [re.match(r"(\d+)([smhd])$", s)] on text below U+0100: the two groups
    on success.  [\d] and [[smhd]] are disjoint, so the greedy run of
    digits is the only candidate for group 1. *)
Definition re_match (s : string) : option (string * ascii) :=
  match span_digits s with
  | (String d ds, String u rest) =>
      if is_unit u && at_dollar rest then Some (String d ds, u) else None
  | _ => None
  end.

Section Parser.
Variable lim : int_max_str_digits.

Definition parse_duration (duration_str : string) : result (option timedelta) :=
  match re_match (lower duration_str) with
  | None => Ok None
  | Some (g1, unit) =>
      match int lim g1 with
      | None => Ok None
      | Some value =>
          if value <=? 0 then Ok None
          else
            let* delta :=
              (if Ascii.eqb unit "s" then seconds value
               else if Ascii.eqb unit "m" then minutes value
               else if Ascii.eqb unit "h" then hours value
               else days value) in
            if td_gt delta days28 then Ok None else Ok (Some delta)
      end
  end.
End Parser.

End DurationParser.

(** ** utils/config_manager.py *)

Module ConfigManager.
Import Py.

(** One entry of a user's warning list.  A field is [None] when its key is
    missing from the JSON object ([warn] writes all four). *)
Record warning : Type := Warning {
  w_moderator_id : option Z;
  w_reason : option string;
  w_timestamp : option Z;
  w_id : option Z
}.

(** A guild's configuration document.  [None] is a missing key (or, for
    the channel and role settings, a JSON null); [warnings] is [None] when
    the key is missing. *)
Record config : Type := Config {
  log_channel : option Z;
  welcome_channel : option Z;
  leave_channel : option Z;
  verified_role : option Z;
  mod_log_channel : option Z;
  welcome_message : option string;
  leave_message : option string;
  warnings : option (gmap string (list warning));
  warn_threshold : option Z;
  warn_action : option string;
  warn_timeout_duration : option string
}.

Definition set_warnings (c : config) (ws : option (gmap string (list warning)))
  : config :=
  Config (log_channel c) (welcome_channel c) (leave_channel c)
         (verified_role c) (mod_log_channel c) (welcome_message c)
         (leave_message c) ws (warn_threshold c) (warn_action c)
         (warn_timeout_duration c).

(** What [config/<guild_id>.json] holds, by what [open] and [json.load]
    make of it.  Only documents of the shape above are considered. *)
Inductive file : Type :=
| Json (c : config)      (* text that [json.load] turns into [c] *)
| Malformed              (* text that is not JSON: [JSONDecodeError] *)
| NotUtf8                (* bytes that do not decode: [UnicodeDecodeError] *)
| Unreadable.            (* [open] is refused: [PermissionError] *)

(** The directory [CONFIG_DIR], keyed by guild id. *)
Abbreviation store := (gmap Z file).

Definition default_config : config := {|
  log_channel := None;
  welcome_channel := None;
  leave_channel := None;
  verified_role := None;
  mod_log_channel := None;
  welcome_message := Some "Welcome {user.mention} to {server.name}!";
  leave_message := Some "{user.name} has left {server.name}.";
  warnings := Some ∅;
  warn_threshold := Some 3;
  warn_action := Some "timeout";
  warn_timeout_duration := Some "1h"
|}.

(** [with open(filepath) as f: json.load(f)] *)
Definition load (fs : store) (guild_id : Z) : result config :=
  match fs !! guild_id with
  | None => Raise FileNotFoundError
  | Some (Json c) => Ok c
  | Some Malformed => Raise JSONDecodeError
  | Some NotUtf8 => Raise UnicodeDecodeError
  | Some Unreadable => Raise PermissionError
  end.

Definition get_config (fs : store) (guild_id : Z) : result config :=
  match load fs guild_id with
  | Ok c => Ok c
  | Raise FileNotFoundError => Ok default_config
  | Raise JSONDecodeError => Ok default_config
  | Raise e => Raise e
  end.

(** How the write inside [save_config] goes: it succeeds, [open] fails and
    the file stays as it was, or [json.dump] fails after [open] has
    truncated the file.  Both failures are caught and printed. *)
Inductive write_outcome : Type :=
| Written
| OpenFailed
| DumpFailed.

Definition save_config (io : write_outcome) (fs : store) (guild_id : Z)
    (data : config) : store :=
  match io with
  | Written => <[guild_id := Json data]> fs
  | OpenFailed => fs
  | DumpFailed => <[guild_id := Malformed]> fs
  end.

End ConfigManager.

(** ** cogs/moderation.py *)

Module Moderation.
Import Py ConfigManager DurationParser.

(** [guild_permissions] of a member, as far as [warn] consults them. *)
Record permissions : Type := Permissions {
  moderate_members : bool;
  kick_members : bool;
  ban_members : bool
}.

(** Why [_check_moderation_permissions] refuses; each has its own message. *)
Inductive rejection : Type :=
| SelfModeration         (* "You cannot moderate yourself." *)
| BotOwner               (* "You cannot moderate the bot owner." *)
| NoBotMember            (* "Internal check failed: ..." *)
| BotHierarchy           (* "I cannot moderate ... higher than or equal to mine" *)
| ModeratorHierarchy.    (* "You cannot moderate ... higher than or equal to yours" *)

(** The text of each refusal, after its leading symbol: [mention] is the
    mention of the member, [their_role] the name of the member's top role
    and [other_role] the name of the bot's or of the author's top role. *)
Definition rejection_text (r : rejection)
    (mention their_role other_role : string) : string :=
  match r with
  | SelfModeration => "You cannot moderate yourself."
  | BotOwner => "You cannot moderate the bot owner."
  | NoBotMember => "Internal check failed: Could not determine my own roles."
  | BotHierarchy =>
      "I cannot moderate " +:+ mention
      +:+ " because their highest role (`" +:+ their_role
      +:+ "`) is higher than or equal to mine (`" +:+ other_role +:+ "`)."
  | ModeratorHierarchy =>
      "You cannot moderate " +:+ mention
      +:+ " because their role (`" +:+ their_role
      +:+ "`) is higher than or equal to yours (`" +:+ other_role +:+ "`)."
  end.

Inductive action_desc : Type :=
| ClearedAll (cleared_count : nat)      (* "Cleared all N warnings" *)
| ClearedId (target_id : Z).            (* "Cleared warning with ID `N`" *)

(** Messages sent to the invoking channel. *)
Inductive reply : Type :=
| ProvideReason
| Rejected (r : rejection)
| Warned (warnings_count : nat)
| AutoActionDone (warnings_count : nat)
| NoWarningsToClear
| WarningIdNotFound (target_id : Z)
| InvalidInput (warning_ref : string)
| Cleared (d : action_desc).

(** What a command does to the outside, in order.  [MemberTimeout],
    [MemberKick] and [MemberBan] are the calls made to the chat library,
    taken to succeed. *)
Inductive event : Type :=
| Send (r : reply)
| SaveConfig (guild_id : Z) (data : config)
| MemberTimeout (user_id : Z) (duration : timedelta)
| MemberKick (user_id : Z)
| MemberBan (user_id : Z)
| PrintTriggering (warnings_count : nat) (threshold : Z) (action : string)
| LogConfigError (duration_str : string)
| LogCleared (d : action_desc).

(** Commands run over the configuration directory and a trace of events;
    an exception the command does not catch ends it. *)
Record world : Type := World { fs : store; trace : list event }.

Definition cmd (A : Type) : Type := world -> world * result A.

Definition ret {A} (a : A) : cmd A := fun w => (w, Ok a).

Definition seq {A B} (m : cmd A) (k : A -> cmd B) : cmd B :=
  fun w =>
    match m w with
    | (w', Ok a) => k a w'
    | (w', Raise e) => (w', Raise e)
    end.

Definition emit (e : event) : cmd unit :=
  fun w => (World (fs w) (trace w ++ [e]), Ok tt).

Definition lift {A} (r : result A) : cmd A := fun w => (w, r).

Definition await_get_config (guild_id : Z) : cmd config :=
  fun w => (w, get_config (fs w) guild_id).

Definition await_save_config (io : write_outcome) (guild_id : Z)
    (data : config) : cmd unit :=
  fun w =>
    (World (save_config io (fs w) guild_id data)
           (trace w ++ [SaveConfig guild_id data]), Ok tt).

Declare Scope cmd_scope.
Delimit Scope cmd_scope with cmd.
Notation "x <- m ;; k" := (seq m (fun x => k))
  (at level 100, m at next level, right associativity) : cmd_scope.
Notation "m ;; k" := (seq m (fun _ => k))
  (at level 100, right associativity) : cmd_scope.

(** [str(n)] for an integer. *)
Definition str (n : Z) : string := NilZero.string_of_int (Z.to_int n).

(** [w.get('id', w.get('timestamp', 0))] *)
Definition warning_key (w : warning) : Z :=
  match w_id w with
  | Some i => i
  | None => default 0 (w_timestamp w)
  end.

Section Commands.
(** Roles and their order come from the chat library: [role_le a b] is
    [a <= b] on [discord.Role]. *)
Context {role : Type}.
Variable role_le : role -> role -> bool.
Variable lim : int_max_str_digits.

Record member : Type := Member {
  member_id : Z;
  top_role : role;
  guild_permissions : permissions
}.

(** [==] on members compares ids. *)
Definition member_eqb (a b : member) : bool := member_id a =? member_id b.

Record context : Type := Context {
  author : member;
  guild_id : Z;
  guild_owner : option member;     (* [ctx.guild.owner] *)
  guild_me : option member;        (* [ctx.guild.me] *)
  bot_owner_ids : list Z           (* what [bot.is_owner] answers from *)
}.

Definition is_owner (ctx : context) (m : member) : bool :=
  bool_decide (member_id m ∈ bot_owner_ids ctx).

(** [ctx.author != ctx.guild.owner] *)
Definition author_is_not_owner (ctx : context) : bool :=
  match guild_owner ctx with
  | Some o => negb (member_eqb (author ctx) o)
  | None => true
  end.

(** [None] is the [True] return; [Some r] is [False] after sending the
    message of [r]. *)
Definition _check_moderation_permissions (ctx : context) (m : member)
  : option rejection :=
  if member_eqb m (author ctx) then Some SelfModeration
  else if is_owner ctx m then Some BotOwner
  else match guild_me ctx with
       | None => Some NoBotMember
       | Some me =>
           if role_le (top_role me) (top_role m) then Some BotHierarchy
           else if author_is_not_owner ctx
                   && role_le (top_role (author ctx)) (top_role m)
           then Some ModeratorHierarchy
           else None
       end.

(** The condition of the [if] that opens the auto-action block. *)
Definition auto_action_triggers (config : config) (warnings_count : nat)
  : bool :=
  let threshold := default 0 (warn_threshold config) in
  let action := lower (default "none" (warn_action config)) in
  (threshold >? 0) && (Z.of_nat warnings_count >=? threshold)
  && negb (String.eqb action "none").

(** The auto-action block of [warn]; [me] holds the permissions of the bot's
    own member. *)
Definition auto_action (me : permissions) (m : member) (config : config)
    (warnings_count : nat) : cmd unit :=
  let threshold := default 0 (warn_threshold config) in
  let action := lower (default "none" (warn_action config)) in
  let action_duration_str := default "1h" (warn_timeout_duration config) in
  if auto_action_triggers config warnings_count then
    (emit (PrintTriggering warnings_count threshold action) ;;
     if String.eqb action "timeout" && moderate_members me then
       timeout_duration <- lift (parse_duration lim action_duration_str) ;;
       match timeout_duration with
       | Some d =>
           if td_truthy d && td_gt d (Timedelta 0) && td_le d days28 then
             emit (MemberTimeout (member_id m) d) ;;
             emit (Send (AutoActionDone warnings_count))
           else emit (LogConfigError action_duration_str)
       | None => emit (LogConfigError action_duration_str)
       end
     else if String.eqb action "kick" && kick_members me then
       emit (MemberKick (member_id m)) ;;
       emit (Send (AutoActionDone warnings_count))
     else if String.eqb action "ban" && ban_members me then
       emit (MemberBan (member_id m)) ;;
       emit (Send (AutoActionDone warnings_count))
     else ret tt)%cmd
  else ret tt.

(** [ctx.guild.me.guild_permissions]; [warn] reads it only after the
    eligibility check has found [ctx.guild.me]. *)
Definition bot_permissions (ctx : context) : permissions :=
  match guild_me ctx with
  | Some me => guild_permissions me
  | None => Permissions false false false
  end.

(** [warn], from its first line on: [now] is [int(time.time())], [io] how
    the write goes. *)
Definition warn (io : write_outcome) (now : Z) (ctx : context)
    (m : member) (reason : option string) : cmd unit :=
  match reason with
  | None | Some EmptyString => emit (Send ProvideReason)
  | Some reason =>
      match _check_moderation_permissions ctx m with
      | Some r => emit (Send (Rejected r))
      | None =>
          (config <- await_get_config (guild_id ctx) ;;
           let user_id_str := str (member_id m) in
           let warning_id := now in
           let warning_entry :=
             Warning (Some (member_id (author ctx))) (Some reason)
                     (Some warning_id) (Some warning_id) in
           let all_warnings := default ∅ (warnings config) in
           let user_warnings :=
             (default [] (all_warnings !! user_id_str) ++ [warning_entry])%list in
           let config :=
             set_warnings config
               (Some (<[user_id_str := user_warnings]> all_warnings)) in
           await_save_config io (guild_id ctx) config ;;
           let warnings_count := length user_warnings in
           emit (Send (Warned warnings_count)) ;;
           auto_action (bot_permissions ctx) m config warnings_count)%cmd
      end
  end.

(** [clearwarns] *)
Definition clearwarns (io : write_outcome) (ctx : context) (m : member)
    (warning_ref : string) : cmd unit :=
  (config <- await_get_config (guild_id ctx) ;;
   let user_id_str := str (member_id m) in
   let warnings_data := default ∅ (warnings config) in
   let user_warnings := default [] (warnings_data !! user_id_str) in
   match user_warnings with
   | [] => emit (Send NoWarningsToClear)
   | _ :: _ =>
       let finish (cleared_count : nat) (d : action_desc)
                  (config : ConfigManager.config) :=
         if Nat.ltb 0 cleared_count then
           (await_save_config io (guild_id ctx) config ;;
            emit (Send (Cleared d)) ;;
            emit (LogCleared d))
         else ret tt in
       if String.eqb (lower warning_ref) "all" then
         let cleared_count := length user_warnings in
         let config :=
           set_warnings config (Some (delete user_id_str warnings_data)) in
         finish cleared_count (ClearedAll cleared_count) config
       else
         match int lim warning_ref with
         | Some target_id =>
             let initial_len := length user_warnings in
             let new_warnings :=
               filter (fun w => warning_key w ≠ target_id) user_warnings in
             let cleared_count := (initial_len - length new_warnings)%nat in
             if Nat.ltb 0 cleared_count then
               let config :=
                 match new_warnings with
                 | [] =>
                     set_warnings config
                       (Some (delete user_id_str warnings_data))
                 | _ :: _ =>
                     set_warnings config
                       (Some (<[user_id_str := new_warnings]> warnings_data))
                 end in
               finish cleared_count (ClearedId target_id) config
             else emit (Send (WarningIdNotFound target_id))
         | None => emit (Send (InvalidInput warning_ref))
         end
   end)%cmd.

Definition run (c : cmd unit) (files : store) : world * result unit :=
  c (World files []).

End Commands.

End Moderation.

(** ** Vocabulary of the properties *)

Module Props.
Import Py ConfigManager DurationParser Moderation.

(** Every character of [s] is an ASCII digit. *)
Fixpoint all_decimal (s : string) : bool :=
  match s with
  | EmptyString => true
  | String c r => is_decimal c && all_decimal r
  end.

(** The warnings a configuration holds for a user, as [warn], [warnings] and
    [clearwarns] read them. *)
Definition user_warnings (c : config) (user_id_str : string) : list warning :=
  default [] (default ∅ (warnings c) !! user_id_str).

(** The same, read from the guild's file. *)
Definition stored_warnings (files : store) (guild_id : Z)
    (user_id_str : string) : list warning :=
  match files !! guild_id with
  | Some (Json c) => user_warnings c user_id_str
  | _ => []
  end.

(** The entry [warn] builds. *)
Definition new_entry (moderator_id : Z) (reason : string) (now : Z) : warning :=
  Warning (Some moderator_id) (Some reason) (Some now) (Some now).

(** The configuration [warn] saves: [e] appended to the user's list. *)
Definition add_warning (c : config) (user_id_str : string) (e : warning)
  : config :=
  set_warnings c
    (Some (<[user_id_str := user_warnings c user_id_str ++ [e]]>
             (default ∅ (warnings c)))).

(** The configuration [clearwarns] saves: the user's list replaced by [l],
    the key deleted when [l] is empty. *)
Definition put_warnings (c : config) (user_id_str : string) (l : list warning)
  : config :=
  match l with
  | [] => set_warnings c (Some (delete user_id_str (default ∅ (warnings c))))
  | _ :: _ =>
      set_warnings c (Some (<[user_id_str := l]> (default ∅ (warnings c))))
  end.

(** No user is present in [warnings] with an empty list. *)
Definition no_empty_entry (c : config) : Prop :=
  forall (ws : gmap string (list warning)) (u : string) (l : list warning),
    warnings c = Some ws -> ws !! u = Some l -> l <> [].

Definition store_no_empty_entry (files : store) : Prop :=
  forall (g : Z) (c : config), files !! g = Some (Json c) -> no_empty_entry c.

(** The user's key is in the [warnings] map of [c]. *)
Definition has_key (c : config) (user_id_str : string) : Prop :=
  exists (ws : gmap string (list warning)) (l : list warning),
    warnings c = Some ws /\ ws !! user_id_str = Some l.

(** The text quotes a name between backquotes. *)
Fixpoint quotes_a_name (s : string) : bool :=
  match s with
  | EmptyString => false
  | String c r => Ascii.eqb c "`" || quotes_a_name r
  end.

Section Eligibility.
Context {role : Type}.
(** The order on ranks is the chat library's order on roles; a rank is
    strictly greater than another one when it is not less than or equal to
    it. *)
Variable role_le : role -> role -> bool.

Definition rank_gt (a b : role) : bool := negb (role_le a b).

(** The actor holds the owner identity of the guild. *)
Definition actor_owns_guild (ctx : @context role) : bool :=
  match guild_owner ctx with
  | Some o => member_id (author ctx) =? member_id o
  | None => false
  end.

(** The four rejections of the specification, in its order, each with the
    condition the specification gives for it: the target is the actor; the
    target is the owner of the bot; the rank of the bot is not strictly
    greater than the target's; the rank of the actor is not strictly greater
    than the target's and the actor does not own the guild.  [m] is the
    target and [me] the bot's own member. *)
Definition listed_checks (ctx : @context role) (m me : @member role)
  : list (bool * rejection) :=
  [ (member_id m =? member_id (author ctx), SelfModeration);
    (bool_decide (member_id m ∈ bot_owner_ids ctx), BotOwner);
    (negb (rank_gt (top_role me) (top_role m)), BotHierarchy);
    (negb (rank_gt (top_role (author ctx)) (top_role m))
     && negb (actor_owns_guild ctx),
     ModeratorHierarchy) ].

(** The first check of a list that applies wins. *)
Fixpoint first_failing (cs : list (bool * rejection)) : option rejection :=
  match cs with
  | [] => None
  | (b, r) :: cs' => if b then Some r else first_failing cs'
  end.

End Eligibility.

End Props.

(** ** Sample data *)

Module Sample.
Import Py ConfigManager Moderation Props.

Definition all_permissions : permissions := Permissions true true true.

(** The bot's member, a moderator and the member they moderate; a role is
    its position. *)
Definition bot : @member Z := Member 1 100 all_permissions.
Definition moderator : @member Z := Member 2 50 (Permissions false true false).
Definition target : @member Z := Member 3 10 (Permissions false false false).

Definition ctx : @context Z := Context moderator 7 None (Some bot) [99].

(** Two warnings recorded within the same second, and a later one. *)
Definition first_warning : warning := new_entry 2 "spam" 1000.
Definition second_warning : warning := new_entry 2 "more spam" 1000.
Definition third_warning : warning := new_entry 2 "still spam" 1001.

Definition two_warnings : config :=
  add_warning (add_warning default_config "3" first_warning) "3" second_warning.

Definition files_two_warnings : store := <[7 := Json two_warnings]> ∅.

Definition one_warning : config :=
  add_warning default_config "3" third_warning.

Definition files_one_warning : store := <[7 := Json one_warning]> ∅.

End Sample.

(** ** Vocabulary of the duration grammar *)

Module ParserSpec.
Import Py DurationParser.

(** The number a run of ASCII digits denotes, continuing from [acc]. *)
Fixpoint decimal_value (acc : Z) (s : string) : Z :=
  match s with
  | EmptyString => acc
  | String c r => decimal_value (10 * acc + digit_value c) r
  end.

(** Seconds in one unit: [s], [m], [h], and [d] for anything else. *)
Definition unit_seconds (u : ascii) : Z :=
  if Ascii.eqb u "s" then 1
  else if Ascii.eqb u "m" then 60
  else if Ascii.eqb u "h" then 3600
  else 86400.

(** One run of digits, one unit letter, and nothing else but, possibly, one
    final line feed. *)
Definition duration_token (s g1 : string) (u : ascii) : Prop :=
  g1 <> EmptyString /\ Props.all_decimal g1 = true /\ is_unit u = true
  /\ (s = g1 +:+ String u EmptyString
      \/ s = g1 +:+ String u (String LF EmptyString)).

End ParserSpec.

(** ** Vocabulary of the auto-action requests *)

Module Enforcement.
Import Py ConfigManager Moderation.

(** The requests an event list holds are within what the bot may do: a
    timeout needs [moderate_members] and lasts between one second and 28
    days, a kick needs [kick_members], a ban needs [ban_members], and each
    is aimed at the member [uid]. *)
Definition guarded (me : permissions) (uid : Z) (evs : list event) : Prop :=
  forall e, e ∈ evs ->
    match e with
    | MemberTimeout u d =>
        u = uid /\ moderate_members me = true
        /\ 0 < total_seconds d <= 2419200
    | MemberKick u => u = uid /\ kick_members me = true
    | MemberBan u => u = uid /\ ban_members me = true
    | _ => True
    end.

End Enforcement.

(** ** cogs/moderation.py: the [warnconfig] group *)

Module WarnConfig.
Import Py ConfigManager DurationParser.

Definition set_warn_threshold (c : config) (count : Z) : config :=
  Config (log_channel c) (welcome_channel c) (leave_channel c)
         (verified_role c) (mod_log_channel c) (welcome_message c)
         (leave_message c) (warnings c) (Some count) (warn_action c)
         (warn_timeout_duration c).

Definition set_warn_action (c : config) (action : string) : config :=
  Config (log_channel c) (welcome_channel c) (leave_channel c)
         (verified_role c) (mod_log_channel c) (welcome_message c)
         (leave_message c) (warnings c) (warn_threshold c) (Some action)
         (warn_timeout_duration c).

Definition set_warn_timeout_duration (c : config) (duration_str : string)
  : config :=
  Config (log_channel c) (welcome_channel c) (leave_channel c)
         (verified_role c) (mod_log_channel c) (welcome_message c)
         (leave_message c) (warnings c) (warn_threshold c) (warn_action c)
         (Some duration_str).

(** The answers of the three setters. *)
Inductive reply : Type :=
| ThresholdNegative
| ThresholdSet (count : Z)
| InvalidActionType
| ActionSet (action_type_lower : string)
| InvalidDuration (duration_str : string)
| DurationSet (duration_str : string).

Definition valid_actions : list string := ["none"; "timeout"; "kick"; "ban"].

Section Commands.
Variable lim : int_max_str_digits.

(** [warnconfig threshold <count>] *)
Definition warnconfig_threshold (io : write_outcome) (files : store)
    (guild_id : Z) (count : Z) : result (store * list reply) :=
  if count <? 0 then Ok (files, [ThresholdNegative])
  else
    let* config := get_config files guild_id in
    let config := set_warn_threshold config count in
    Ok (save_config io files guild_id config, [ThresholdSet count]).

(** [warnconfig action <action_type>] *)
Definition warnconfig_action (io : write_outcome) (files : store)
    (guild_id : Z) (action_type : string) : result (store * list reply) :=
  let action_type_lower := lower action_type in
  if negb (bool_decide (action_type_lower ∈ valid_actions))
  then Ok (files, [InvalidActionType])
  else
    let* config := get_config files guild_id in
    let config := set_warn_action config action_type_lower in
    Ok (save_config io files guild_id config, [ActionSet action_type_lower]).

(** [warnconfig duration <duration_str>] *)
Definition warnconfig_duration (io : write_outcome) (files : store)
    (guild_id : Z) (duration_str : string) : result (store * list reply) :=
  let* duration := parse_duration lim duration_str in
  match duration with
  | None => Ok (files, [InvalidDuration duration_str])
  | Some d =>
      if td_le d (Timedelta 0) then Ok (files, [InvalidDuration duration_str])
      else
        let* config := get_config files guild_id in
        let config := set_warn_timeout_duration config duration_str in
        Ok (save_config io files guild_id config, [DurationSet duration_str])
  end.

(** The three auto-action settings of a configuration are usable: the
    threshold is not negative, the action is one of the four words, and the
    duration parses. *)
Definition valid_settings (c : config) : Prop :=
  0 <= default 0 (warn_threshold c)
  /\ default "none" (warn_action c) ∈ valid_actions
  /\ exists d, parse_duration lim (default "1h" (warn_timeout_duration c))
               = Ok (Some d).

Definition store_valid_settings (files : store) : Prop :=
  forall (g : Z) (c : config), files !! g = Some (Json c) -> valid_settings c.

End Commands.

End WarnConfig.

(** ** More sample data *)

Module Sample2.
Import Py ConfigManager Moderation Props Sample WarnConfig.

(** A file edited by hand: one warning is enough, and the duration is not
    in the parser's format. *)
Definition edited_by_hand : config :=
  set_warn_timeout_duration (set_warn_threshold default_config 1) "soon".

Definition files_edited_by_hand : store := <[7 := Json edited_by_hand]> ∅.

(** Two warnings of the same second followed by a later one. *)
Definition three_warnings : config :=
  add_warning two_warnings "3" third_warning.

Definition files_three_warnings : store := <[7 := Json three_warnings]> ∅.

(** Two warnings recorded one second apart. *)
Definition spaced_warnings : config :=
  add_warning (add_warning default_config "3" first_warning) "3" third_warning.

Definition files_spaced_warnings : store := <[7 := Json spaced_warnings]> ∅.

(** A guild set to kick at the second warning, with one warning on file. *)
Definition kick_at_two : config :=
  add_warning (set_warn_action (set_warn_threshold default_config 2) "kick")
              "3" first_warning.

Definition files_kick_at_two : store := <[7 := Json kick_at_two]> ∅.

(** A guild set to ban at the first warning. *)
Definition ban_at_one : config :=
  set_warn_action (set_warn_threshold default_config 1) "ban".

Definition files_ban_at_one : store := <[7 := Json ban_at_one]> ∅.

End Sample2.

(** ** cogs/moderation.py: the [warnings] command *)

Module WarningsList.
Import Py ConfigManager.

(** [w.get('timestamp', 0)], the sort key. *)
Definition timestamp_key (w : warning) : Z := default 0 (w_timestamp w).

(** [s[:n]] *)
Fixpoint slice_to (n : nat) (s : string) : string :=
  match n, s with
  | S n', String c r => String c (slice_to n' r)
  | _, _ => EmptyString
  end.

(** [sorted(l, key=timestamp, reverse=True)].  The built-in sort is stable,
    also with [reverse=True]: records with equal keys keep their order.  A
    record is put in front of the first one whose key is not greater. *)
Fixpoint insert_desc (w : warning) (l : list warning) : list warning :=
  match l with
  | [] => [w]
  | y :: r =>
      if timestamp_key y <=? timestamp_key w then w :: l
      else y :: insert_desc w r
  end.

Definition sorted_desc (l : list warning) : list warning :=
  foldr insert_desc [] l.

(** [a] may stand before [b] in the listing: it is not older. *)
Definition newer_first (a b : warning) : Prop :=
  timestamp_key b <= timestamp_key a.

(** [a] was recorded strictly before [b]. *)
Definition older (a b : warning) : Prop :=
  timestamp_key a < timestamp_key b.

Definition max_warnings_display : nat := 10.

(** One field of the embed: the number after [#], the id, the moderator,
    the reason as displayed and the timestamp. *)
Record field : Type := Field {
  number : Z;
  shown_id : Z;
  shown_moderator : option Z;
  shown_reason : string;
  shown_timestamp : Z
}.

Definition display_reason (w : warning) : string :=
  let reason := default "No reason recorded." (w_reason w) in
  if Nat.ltb 150 (String.length reason)
  then slice_to 147 reason +:+ "..."
  else reason.

Definition make_field (total : nat) (i : nat) (w : warning) : field :=
  let timestamp := default 0 (w_timestamp w) in
  Field (Z.of_nat total - Z.of_nat i)
        (default timestamp (w_id w))
        (w_moderator_id w)
        (display_reason w)
        timestamp.

(** The answer: the "no recorded warnings" message, or the total, the
    fields and whether the footer says that only the latest ten are
    shown. *)
Inductive listing : Type :=
| NoRecordedWarnings
| Listing (total : nat) (fields : list field) (shortened : bool).

Definition warnings (files : store) (guild_id : Z) (user_id_str : string)
  : result listing :=
  let* config := get_config files guild_id in
  let user_warnings_data := default ∅ (ConfigManager.warnings config) in
  let user_warnings := default [] (user_warnings_data !! user_id_str) in
  match user_warnings with
  | [] => Ok NoRecordedWarnings
  | _ :: _ =>
      let display_warnings :=
        take max_warnings_display (sorted_desc user_warnings) in
      Ok (Listing (length user_warnings)
                  (imap (make_field (length user_warnings)) display_warnings)
                  (Nat.ltb max_warnings_display (length user_warnings)))
  end.

End WarningsList.

(** ** cogs/logging.py *)

Module LoggingCog.
Import Py ConfigManager.

(** A text channel, by what [permissions_for(guild.me)] says of it. *)
Record channel : Type := Channel {
  send_messages : bool;
  embed_links : bool
}.

(** A guild: its id and what [get_channel] finds. *)
Record guild : Type := Guild {
  id : Z;
  channels : gmap Z channel
}.

(** Truth value of a configured id: [None] and [0] are false. *)
Definition is_set (channel_id : option Z) : bool :=
  match channel_id with
  | Some n => negb (n =? 0)
  | None => false
  end.

(** What [log_event] does with the embed: nothing, a [send] to a channel, or
    the printed warning that the channel lacks the permissions. *)
Inductive log_outcome : Type :=
| NothingSent
| SentTo (channel_id : Z)
| CannotSendTo (channel_id : Z).

(** [log_event(guild, embed, log_type)] *)
Definition log_event (files : store) (g : option guild) (log_type : string)
  : result log_outcome :=
  match g with
  | None => Ok NothingSent
  | Some g =>
      let* config := get_config files (id g) in
      let channel_id :=
        if String.eqb log_type "log" then log_channel config
        else if String.eqb log_type "mod_log" then
          if is_set (mod_log_channel config) then mod_log_channel config
          else log_channel config
        else None in
      match channel_id with
      | Some n =>
          if is_set channel_id then
            match channels g !! n with
            | Some ch =>
                if send_messages ch && embed_links ch then Ok (SentTo n)
                else Ok (CannotSendTo n)
            | None => Ok NothingSent
            end
          else Ok NothingSent
      | None => Ok NothingSent
      end
  end.

(** The first argument of [_set_channel_helper]: "log", "mod_log",
    "welcome" or "leave", as the four subcommands pass it. *)
Inductive channel_type : Type :=
| LogChannel
| ModLogChannel
| WelcomeChannel
| LeaveChannel.

(** [config[f"{channel_type}_channel"] = value] *)
Definition set_channel (c : config) (ty : channel_type) (value : option Z)
  : config :=
  match ty with
  | LogChannel =>
      Config value (welcome_channel c) (leave_channel c) (verified_role c)
             (mod_log_channel c) (welcome_message c) (leave_message c)
             (warnings c) (warn_threshold c) (warn_action c)
             (warn_timeout_duration c)
  | ModLogChannel =>
      Config (log_channel c) (welcome_channel c) (leave_channel c)
             (verified_role c) value (welcome_message c) (leave_message c)
             (warnings c) (warn_threshold c) (warn_action c)
             (warn_timeout_duration c)
  | WelcomeChannel =>
      Config (log_channel c) value (leave_channel c) (verified_role c)
             (mod_log_channel c) (welcome_message c) (leave_message c)
             (warnings c) (warn_threshold c) (warn_action c)
             (warn_timeout_duration c)
  | LeaveChannel =>
      Config (log_channel c) (welcome_channel c) value (verified_role c)
             (mod_log_channel c) (welcome_message c) (leave_message c)
             (warnings c) (warn_threshold c) (warn_action c)
             (warn_timeout_duration c)
  end.

Inductive channel_reply : Type :=
| NeedsPermissions (channel_id : Z)
| ChannelSet (ty : channel_type) (channel_id : Z)
| ChannelCleared (ty : channel_type).

(** [_set_channel_helper(ctx, channel_type, channel)]; a channel is given by
    its id and the bot's permissions in it. *)
Definition _set_channel_helper (io : write_outcome) (files : store)
    (guild_id : Z) (ty : channel_type) (channel : option (Z * channel))
  : result (store * list channel_reply) :=
  let* config := get_config files guild_id in
  match channel with
  | Some (channel_id, ch) =>
      let warning :=
        if negb (send_messages ch) || negb (embed_links ch)
        then [NeedsPermissions channel_id] else [] in
      let config := set_channel config ty (Some channel_id) in
      Ok (save_config io files guild_id config,
          warning ++ [ChannelSet ty channel_id])
  | None =>
      let config := set_channel config ty None in
      Ok (save_config io files guild_id config, [ChannelCleared ty])
  end.

(** The first argument of [_set_message_helper]: "welcome" or "leave". *)
Inductive message_type : Type :=
| Welcome
| Leave.

Definition set_message (c : config) (ty : message_type) (message : string)
  : config :=
  match ty with
  | Welcome =>
      Config (log_channel c) (welcome_channel c) (leave_channel c)
             (verified_role c) (mod_log_channel c) (Some message)
             (leave_message c) (warnings c) (warn_threshold c) (warn_action c)
             (warn_timeout_duration c)
  | Leave =>
      Config (log_channel c) (welcome_channel c) (leave_channel c)
             (verified_role c) (mod_log_channel c) (welcome_message c)
             (Some message) (warnings c) (warn_threshold c) (warn_action c)
             (warn_timeout_duration c)
  end.

Definition stored_message (c : config) (ty : message_type) : option string :=
  match ty with
  | Welcome => welcome_message c
  | Leave => leave_message c
  end.

Definition reset_words : list string := ["none"; "clear"; "reset"].

Definition default_welcome : string := "Welcome {user.mention} to {server.name}!".
Definition default_leave : string := "{user.name} has left {server.name}.".

Definition max_len : nat := 1500.

Inductive message_reply : Type :=
| MessageTooLong (ty : message_type)
| MessageSet (ty : message_type) (message : string)
| MessageReset (ty : message_type) (default_msg : string).

(** [_set_message_helper(ctx, message_type, message=message)]: the helper
    as it runs when [message] is passed by keyword, as its signature asks.
    (The two subcommands of [setmessage] pass it by position, which the
    interpreter refuses before the helper starts.) *)
Definition _set_message_helper (io : write_outcome) (files : store)
    (guild_id : Z) (ty : message_type) (message : option string)
  : result (store * list message_reply) :=
  let* config := get_config files guild_id in
  match message with
  | Some (String a s as text) =>
      if negb (bool_decide (lower text ∈ reset_words)) then
        if Nat.ltb max_len (String.length text)
        then Ok (files, [MessageTooLong ty])
        else
          let config := set_message config ty text in
          Ok (save_config io files guild_id config, [MessageSet ty text])
      else
        let default_msg :=
          match ty with Welcome => default_welcome | Leave => default_leave end in
        let config := set_message config ty default_msg in
        Ok (save_config io files guild_id config, [MessageReset ty default_msg])
  | _ =>
      let default_msg :=
        match ty with Welcome => default_welcome | Leave => default_leave end in
      let config := set_message config ty default_msg in
      Ok (save_config io files guild_id config, [MessageReset ty default_msg])
  end.

(** The two templates of a configuration, when present, fit the limit and
    are not one of the reset words. *)
Definition valid_message (message : string) : Prop :=
  (String.length message <= max_len)%nat /\ lower message ∉ reset_words.

End LoggingCog.

(** ** cogs/moderation.py: log embed, [timeout], [lock], [unlock],
       [slowmode] *)

Module ModerationCommands.
Import Py ConfigManager DurationParser Moderation WarningsList.

(** One field of an embed. *)
Record embed_field : Type := EmbedField {
  name : string;
  value : string;
  inline : bool
}.

(** [v[:1020] + "..."] when [len(v) > 1024]. *)
Definition truncate_value (v : string) : string :=
  if Nat.ltb 1024 (String.length v) then slice_to 1020 v +:+ "..." else v.

(** The fields of [_create_mod_log_embed]; the title, the colour, the
    timestamp and the author line are left out.  [target] and [moderator]
    are the two mentions. *)
Definition _create_mod_log_embed (target moderator reason : string)
    (duration : option string) (additional_fields : list (string * string))
  : list embed_field :=
  let reason_value :=
    match reason with
    | EmptyString => "No reason provided."
    | _ => reason
    end in
  [EmbedField "User" target true; EmbedField "Moderator" moderator true]
  ++ match duration with
     | Some (String a s as d) => [EmbedField "Duration" d true]
     | _ => []
     end
  ++ [EmbedField "Reason" (truncate_value reason_value) false]
  ++ map (fun '(n, v) => EmbedField n (truncate_value v) true)
         additional_fields.

(** What [timeout] does: an answer in the channel, or the call that times
    the member out. *)
Inductive timeout_event : Type :=
| SendRejected (r : rejection)
| SendAdministrator
| SendInvalidDuration (duration_str : string)
| SendTooLong (duration_str : string)
| RequestTimeout (user_id : Z) (duration : timedelta)
| SendTimedOut (duration_str : string).

Section Timeout.
Context {role : Type}.
Variable role_le : role -> role -> bool.
Variable lim : int_max_str_digits.

(** [timeout]; [administrator] is [member.guild_permissions.administrator].
    The notification by direct message and the log entry are left out, and
    the call to the chat library is taken to succeed. *)
Definition timeout (ctx : @context role) (m : @member role)
    (administrator : bool) (duration_str : string)
  : result (list timeout_event) :=
  match _check_moderation_permissions role_le ctx m with
  | Some r => Ok [SendRejected r]
  | None =>
      if administrator then Ok [SendAdministrator]
      else
        let* duration := parse_duration lim duration_str in
        match duration with
        | None => Ok [SendInvalidDuration duration_str]
        | Some d =>
            if td_le d (Timedelta 0) then Ok [SendInvalidDuration duration_str]
            else if td_gt d days28 then Ok [SendTooLong duration_str]
            else Ok [RequestTimeout (member_id m) d; SendTimedOut duration_str]
        end
  end.

End Timeout.

(** The overwrite of a channel for the default role: [send_messages] is
    [None] (inherit), [Some true] or [Some false]; [rest] stands for the
    other permissions it carries. *)
Record overwrite (rest : Type) : Type := Overwrite {
  ow_send_messages : option bool;
  ow_rest : rest
}.
Arguments Overwrite {rest} _ _.
Arguments ow_send_messages {rest} _.
Arguments ow_rest {rest} _.

Inductive lock_reply : Type :=
| AlreadyLocked
| Locked
| NotLocked
| Unlocked
| Forbidden.

Section Lock.
Context {rest : Type}.

(** [lock]: [api_ok] tells whether [set_permissions] goes through.  The
    result is the overwrite of the channel afterwards. *)
Definition lock (api_ok : bool) (ow : overwrite rest)
  : overwrite rest * lock_reply :=
  match ow_send_messages ow with
  | Some false => (ow, AlreadyLocked)
  | _ =>
      if api_ok then (Overwrite (Some false) (ow_rest ow), Locked)
      else (ow, Forbidden)
  end.

(** [unlock] *)
Definition unlock (api_ok : bool) (ow : overwrite rest)
  : overwrite rest * lock_reply :=
  match ow_send_messages ow with
  | Some false =>
      if api_ok then (Overwrite None (ow_rest ow), Unlocked)
      else (ow, Forbidden)
  | _ => (ow, NotLocked)
  end.

End Lock.

Definition max_slowmode : Z := 21600.

(** [divmod(seconds, 60)] and [divmod(m, 60)]: hours, minutes, seconds. *)
Definition hms (seconds : Z) : Z * Z * Z :=
  let m := seconds / 60 in
  let s := seconds mod 60 in
  let h := m / 60 in
  let m := m mod 60 in
  (h, m, s).

Definition slowmode_duration_str (seconds : Z) : string :=
  let '(h, m, s) := hms seconds in
  if negb (h =? 0)
  then str h +:+ "h " +:+ str m +:+ "m " +:+ str s +:+ "s"
  else if negb (m =? 0)
  then str m +:+ "m " +:+ str s +:+ "s"
  else str s +:+ "s".

Inductive slowmode_outcome : Type :=
| OutOfRange
| SlowmodeEnabled (delay : Z) (duration_str : string)
| SlowmodeDisabled
| SlowmodeForbidden.

(** [slowmode]: [api_ok] tells whether [channel.edit] goes through; the
    first component is the delay requested from the chat library. *)
Definition slowmode (api_ok : bool) (seconds : Z)
  : option Z * slowmode_outcome :=
  if negb ((0 <=? seconds) && (seconds <=? max_slowmode))
  then (None, OutOfRange)
  else if api_ok then
    (Some seconds,
     if seconds >? 0
     then SlowmodeEnabled seconds (slowmode_duration_str seconds)
     else SlowmodeDisabled)
  else (Some seconds, SlowmodeForbidden).

End ModerationCommands.

(** ** cogs/verification.py: [set_verified_role] *)

Module VerificationCog.
Import Py ConfigManager.

Definition set_verified_role_id (c : config) (value : option Z) : config :=
  Config (log_channel c) (welcome_channel c) (leave_channel c) value
         (mod_log_channel c) (welcome_message c) (leave_message c)
         (warnings c) (warn_threshold c) (warn_action c)
         (warn_timeout_duration c).

Inductive role_reply : Type :=
| RoleCleared
| RoleTooHigh
| RoleIsEveryone
| RoleSet (role_id : Z).

Section SetRole.
(** Roles come from the chat library: [role_ge a b] is [a >= b] and
    [role_id] the id, which [==] compares. *)
Context {role : Type}.
Variable role_ge : role -> role -> bool.
Variable role_id : role -> Z.

(** [set_verified_role]; [me_top_role] is [ctx.guild.me.top_role].  The
    "Previous Role" line of the answer is left out. *)
Definition set_verified_role (io : write_outcome) (files : store)
    (guild_id : Z) (me_top_role default_role : role) (r : option role)
  : result (store * list role_reply) :=
  let* config := get_config files guild_id in
  match r with
  | None =>
      let config := set_verified_role_id config None in
      Ok (save_config io files guild_id config, [RoleCleared])
  | Some r =>
      if role_ge r me_top_role then Ok (files, [RoleTooHigh])
      else if role_id r =? role_id default_role then Ok (files, [RoleIsEveryone])
      else
        let config := set_verified_role_id config (Some (role_id r)) in
        Ok (save_config io files guild_id config, [RoleSet (role_id r)])
  end.

End SetRole.

End VerificationCog.

(** ** The commands that write configuration, as one transition system *)

Module System.
Import Py ConfigManager Props.

Section Commands.
Context {role : Type}.
Variable role_le : role -> role -> bool.
Variable role_ge : role -> role -> bool.
Variable role_id : role -> Z.
Variable lim : int_max_str_digits.

(** One invocation of a command that may call [save_config], with its
    arguments and the way the write goes. *)
Inductive command : Type :=
| Warn (io : write_outcome) (now : Z) (ctx : @Moderation.context role)
       (m : @Moderation.member role) (reason : option string)
| Clearwarns (io : write_outcome) (ctx : @Moderation.context role)
             (m : @Moderation.member role) (warning_ref : string)
| WarnconfigThreshold (io : write_outcome) (guild_id : Z) (count : Z)
| WarnconfigAction (io : write_outcome) (guild_id : Z) (action_type : string)
| WarnconfigDuration (io : write_outcome) (guild_id : Z) (duration_str : string)
| SetChannel (io : write_outcome) (guild_id : Z) (ty : LoggingCog.channel_type)
             (channel : option (Z * LoggingCog.channel))
| SetMessage (io : write_outcome) (guild_id : Z) (ty : LoggingCog.message_type)
             (message : option string)
| SetVerifiedRole (io : write_outcome) (guild_id : Z)
                  (me_top_role default_role : role) (r : option role).

(** The files after a command that returns them with its answers; a command
    that raises has written nothing. *)
Definition files_after {A : Type} (files : store) (r : result (store * A))
  : store :=
  match r with
  | Ok (files', _) => files'
  | Raise _ => files
  end.

Definition step (files : store) (cmd : command) : store :=
  match cmd with
  | Warn io now ctx m reason =>
      Moderation.fs
        (fst (Moderation.run (Moderation.warn role_le lim io now ctx m reason)
                             files))
  | Clearwarns io ctx m warning_ref =>
      Moderation.fs
        (fst (Moderation.run (Moderation.clearwarns lim io ctx m warning_ref)
                             files))
  | WarnconfigThreshold io g count =>
      files_after files (WarnConfig.warnconfig_threshold io files g count)
  | WarnconfigAction io g action_type =>
      files_after files (WarnConfig.warnconfig_action io files g action_type)
  | WarnconfigDuration io g duration_str =>
      files_after files
        (WarnConfig.warnconfig_duration lim io files g duration_str)
  | SetChannel io g ty channel =>
      files_after files (LoggingCog._set_channel_helper io files g ty channel)
  | SetMessage io g ty message =>
      files_after files (LoggingCog._set_message_helper io files g ty message)
  | SetVerifiedRole io g me_top_role default_role r =>
      files_after files
        (VerificationCog.set_verified_role role_ge role_id io files g
           me_top_role default_role r)
  end.

(** The files after a sequence of commands. *)
Definition steps (files : store) (cmds : list command) : store :=
  foldl step files cmds.

(** A configuration the commands could have produced: nobody is listed with
    an empty sequence of warnings, the auto-action settings are usable, and
    the two templates fit the limit and are not a reset word. *)
Definition well_formed (c : config) : Prop :=
  no_empty_entry c
  /\ WarnConfig.valid_settings lim c
  /\ forall ty message,
       LoggingCog.stored_message c ty = Some message ->
       LoggingCog.valid_message message.

Definition well_formed_store (files : store) : Prop :=
  forall (g : Z) (c : config), files !! g = Some (Json c) -> well_formed c.

End Commands.

End System.

(** ** utils/config_manager.py: the table of per-guild locks *)

Module LockTable.

(** The module-level dictionary [_locks].  A lock is known by the order of
    its creation: [created] counts the [asyncio.Lock()] calls made so far,
    so a new lock differs from every earlier one. *)
Record locks : Type := Locks {
  table : gmap Z nat;
  created : nat
}.

Definition no_locks : locks := Locks ∅ 0.

(** [get_guild_lock(guild_id)]: the table afterwards and the lock returned. *)
Definition get_guild_lock (st : locks) (guild_id : Z) : locks * nat :=
  match table st !! guild_id with
  | Some l => (st, l)
  | None =>
      (Locks (<[guild_id := created st]> (table st)) (S (created st)),
       created st)
  end.

(** The table after a sequence of calls. *)
Definition after_calls (st : locks) (guild_ids : list Z) : locks :=
  foldl (fun st g => fst (get_guild_lock st g)) st guild_ids.

(** Every lock in the table was created, and no two guilds share one. *)
Definition consistent (st : locks) : Prop :=
  (forall g l, table st !! g = Some l -> (l < created st)%nat)
  /\ (forall g g' l, table st !! g = Some l -> table st !! g' = Some l ->
                     g = g').

End LockTable.

(** * Properties *)

(** ** Duration parser *)

Module DurationParserFacts.
Import Py DurationParser.

Lemma timedelta_of_seconds_ok (secs : Z) (d : timedelta) :
  timedelta_of_seconds secs = Ok d -> total_seconds d = secs.
Proof.
  unfold timedelta_of_seconds. destruct (_ >? _); [discriminate|].
  intros [= <-]. reflexivity.
Qed.

(** A duration the parser returns is positive and at most 28 days. *)
Lemma parse_duration_bounded (lim : int_max_str_digits) (s : string) (d : timedelta) :
  parse_duration lim s = Ok (Some d) ->
  0 < total_seconds d <= 2419200.
Proof.
  unfold parse_duration.
  destruct (re_match (lower s)) as [[g1 u]|]; [|discriminate].
  destruct (int lim g1) as [value|]; [|discriminate].
  destruct (value <=? 0) eqn:Hpos; [discriminate|].
  apply Z.leb_gt in Hpos.
  unfold seconds, minutes, hours, days.
  repeat match goal with |- context [if Ascii.eqb ?a ?b then _ else _] => destruct (Ascii.eqb a b) end;
  (match goal with |- context [timedelta_of_seconds ?x] => destruct (timedelta_of_seconds x) as [delta|e] eqn:Hd end;
   simpl; [|discriminate];
   apply timedelta_of_seconds_ok in Hd;
   destruct (td_gt delta days28) eqn:Hgt; [discriminate|];
   intros [= <-]; unfold td_gt, days28 in Hgt; cbn [total_seconds] in Hgt;
   rewrite Z.gtb_ltb in Hgt; apply Z.ltb_ge in Hgt; lia).
Qed.

(** C3.  The pattern is meant to match the whole string, but a line feed
    after the unit letter is let through: "5m" followed by a line feed
    parses as five minutes. *)
Theorem parse_duration_accepts_trailing_newline (lim : int_max_str_digits) :
  parse_duration lim (String "5" (String "m" (String LF EmptyString)))
  = Ok (Some (Timedelta 300)).
Proof. destruct lim; vm_compute; reflexivity. Qed.

(** C5.  A magnitude beyond what [timedelta] can hold is not answered with
    [None]: for one thousand million days the constructor raises
    [OverflowError] and the parser lets it escape. *)
Theorem parse_duration_overflow_raises (lim : int_max_str_digits) :
  parse_duration lim "1000000000d" = Raise OverflowError.
Proof. destruct lim; vm_compute; reflexivity. Qed.

(** The boundary examples of the specification. *)
Lemma parse_duration_boundary_examples (lim : int_max_str_digits) :
  parse_duration lim "28d" = Ok (Some (Timedelta 2419200))
  /\ parse_duration lim "29d" = Ok None
  /\ parse_duration lim "673h" = Ok None
  /\ parse_duration lim "672h" = Ok (Some (Timedelta 2419200))
  /\ parse_duration lim "0m" = Ok None
  /\ parse_duration lim "-5m" = Ok None
  /\ parse_duration lim "5" = Ok None
  /\ parse_duration lim "5x" = Ok None
  /\ parse_duration lim " 5m" = Ok None.
Proof. destruct lim; vm_compute; repeat split; reflexivity. Qed.
End DurationParserFacts.

Module GrammarFacts.
Import Py DurationParser Props.

Lemma span_digits_split (s ds rest : string) :
  span_digits s = (ds, rest) ->
  s = ds +:+ rest /\ all_decimal ds = true
  /\ match rest with
     | EmptyString => True
     | String c _ => is_decimal c = false
     end.
Proof.
  revert ds rest. induction s as [|c r IH]; intros ds rest; simpl.
  - intros [= <- <-]. auto.
  - destruct (is_decimal c) eqn:Hc.
    + destruct (span_digits r) as [ds' rest'].
      intros [= <- <-]. destruct (IH _ _ eq_refl) as (-> & Hds & Hrest).
      simpl. rewrite Hc. auto.
    + intros [= <- <-]. simpl. rewrite Hc. auto.
Qed.

Lemma span_digits_app (ds rest : string) :
  all_decimal ds = true ->
  match rest with
  | EmptyString => True
  | String c _ => is_decimal c = false
  end ->
  span_digits (ds +:+ rest) = (ds, rest).
Proof.
  intros Hds Hrest. induction ds as [|c r IH]; simpl in *.
  - destruct rest as [|c r]; [reflexivity|]. simpl. rewrite Hrest. reflexivity.
  - apply andb_prop in Hds as [Hc Hr]. rewrite Hc, (IH Hr). reflexivity.
Qed.

Lemma is_unit_not_decimal (u : ascii) : is_unit u = true -> is_decimal u = false.
Proof.
  unfold is_unit. intros H.
  repeat (apply orb_prop in H as [H|H]); apply Ascii.eqb_eq in H; subst; reflexivity.
Qed.

Lemma at_dollar_spec (s : string) :
  at_dollar s = true <-> s = EmptyString \/ s = String LF EmptyString.
Proof.
  destruct s as [|c [|c' r]]; simpl.
  - tauto.
  - rewrite Ascii.eqb_eq. split; [intros ->; auto|intros [[=]|[= ->]]; reflexivity].
  - split; [discriminate|intros [[=]|[=]]].
Qed.

(** The strings the pattern of [parse_duration] matches: a non-empty run of
    digits, one unit letter, and then the end of the string or one line feed
    that ends it. *)
Lemma re_match_spec (s g1 : string) (u : ascii) :
  re_match s = Some (g1, u) <->
  g1 <> EmptyString /\ all_decimal g1 = true /\ is_unit u = true
  /\ (s = g1 +:+ String u EmptyString
      \/ s = g1 +:+ String u (String LF EmptyString)).
Proof.
  unfold re_match. split.
  - destruct (span_digits s) as [ds rest] eqn:Hspan.
    apply span_digits_split in Hspan as (-> & Hds & _).
    destruct ds as [|d ds]; [discriminate|].
    destruct rest as [|u' rest]; [discriminate|].
    destruct (is_unit u') eqn:Hu; [|discriminate].
    destruct (at_dollar rest) eqn:Hend; [|discriminate].
    intros [= <- <-]. apply at_dollar_spec in Hend.
    repeat split; [discriminate|assumption|assumption|].
    destruct Hend as [-> | ->]; auto.
  - intros (Hne & Hds & Hu & Hs).
    assert (Hrest : forall tl, span_digits (g1 +:+ String u tl) = (g1, String u tl)).
    { intros tl. apply span_digits_app; [assumption|].
      apply is_unit_not_decimal, Hu. }
    destruct g1 as [|d ds]; [congruence|].
    destruct Hs as [-> | ->]; rewrite Hrest, Hu; reflexivity.
Qed.

End GrammarFacts.

(** ** Moderation eligibility *)

Module EligibilityFacts.
Import Py ConfigManager Moderation Props.

Section Order.
Context {role : Type}.
Variable role_le : role -> role -> bool.

Lemma first_failing_none (cs : list (bool * rejection)) :
  first_failing cs = None <-> Forall (fun c => fst c = false) cs.
Proof.
  induction cs as [|[b r] cs IH]; simpl.
  - split; [constructor|reflexivity].
  - rewrite Forall_cons. simpl. destruct b.
    + split; [discriminate|intros [[=] _]].
    + rewrite IH. tauto.
Qed.

Lemma first_failing_perm (cs cs' : list (bool * rejection)) :
  Permutation cs cs' ->
  (first_failing cs = None <-> first_failing cs' = None).
Proof.
  intros Hperm. rewrite !first_failing_none.
  split; intros H; [rewrite <- Hperm|rewrite Hperm]; exact H.
Qed.

Lemma check_is_first_failing (ctx : @context role) (m me : @member role) :
  guild_me ctx = Some me ->
  _check_moderation_permissions role_le ctx m
  = first_failing (listed_checks role_le ctx m me).
Proof.
  intros Hme.
  unfold _check_moderation_permissions, listed_checks, rank_gt,
    actor_owns_guild, is_owner, author_is_not_owner, member_eqb.
  rewrite Hme. cbn [first_failing].
  destruct (member_id m =? member_id (author ctx)); [reflexivity|].
  destruct (bool_decide (member_id m ∈ bot_owner_ids ctx)); [reflexivity|].
  rewrite !negb_involutive.
  destruct (role_le (top_role me) (top_role m)); [reflexivity|].
  destruct (guild_owner ctx) as [o|];
    [destruct (member_id (author ctx) =? member_id o)|];
    destruct (role_le (top_role (author ctx)) (top_role m)); reflexivity.
Qed.

End Order.

Lemma quotes_a_name_app (s t : string) :
  quotes_a_name (s +:+ t) = quotes_a_name s || quotes_a_name t.
Proof.
  induction s as [|c r IH]; [reflexivity|]. simpl. rewrite IH.
  apply orb_assoc.
Qed.

Lemma moderator_hierarchy_text_quotes (a b c : string) :
  quotes_a_name (rejection_text ModeratorHierarchy a b c) = true.
Proof.
  unfold rejection_text. rewrite !quotes_a_name_app.
  change (quotes_a_name " because their role (`") with true.
  cbn [orb]. rewrite !orb_true_r. reflexivity.
Qed.

(** Two refusals with the same text are the same refusal, whatever names
    the texts quote. *)
Lemma rejection_text_inj (r1 r2 : rejection) (a1 b1 c1 a2 b2 c2 : string) :
  rejection_text r1 a1 b1 c1 = rejection_text r2 a2 b2 c2 -> r1 = r2.
Proof.
  intros H.
  destruct r1, r2; try reflexivity; try (simpl in H; discriminate H);
    exfalso.
  all: apply (f_equal quotes_a_name) in H;
    rewrite moderator_hierarchy_text_quotes in H;
    vm_compute in H; discriminate H.
Qed.

(** C8.  When the bot's own member is known, the eligibility check returns
    the first rejection that applies among the four the specification
    lists, in its order: the target is the actor; the target is the owner
    of the bot; the rank of the bot is not strictly greater than the
    target's; the rank of the actor is not strictly greater than the
    target's, unless the actor owns the guild.  Refusals of two different
    kinds never have the same text.  A member who targets themself is
    refused for self-moderation whoever they are.  Running the four checks
    in any other order accepts exactly the same requests. *)
Theorem check_moderation_permissions_order
    {role : Type} (role_le : role -> role -> bool)
    (ctx : @context role) (m me : @member role) :
  guild_me ctx = Some me ->
  _check_moderation_permissions role_le ctx m
  = first_failing (listed_checks role_le ctx m me)
  /\ map snd (listed_checks role_le ctx m me)
     = [SelfModeration; BotOwner; BotHierarchy; ModeratorHierarchy]
  /\ (forall (r1 r2 : rejection) (a1 b1 c1 a2 b2 c2 : string),
        rejection_text r1 a1 b1 c1 = rejection_text r2 a2 b2 c2 -> r1 = r2)
  /\ (member_id m = member_id (author ctx) ->
      _check_moderation_permissions role_le ctx m = Some SelfModeration)
  /\ (forall cs : list (bool * rejection),
        Permutation (listed_checks role_le ctx m me) cs ->
        (first_failing cs = None
         <-> _check_moderation_permissions role_le ctx m = None)).
Proof.
  intros Hme. split; [apply check_is_first_failing, Hme|].
  split; [reflexivity|].
  split; [exact rejection_text_inj|].
  split.
  { intros Hself. unfold _check_moderation_permissions, member_eqb.
    apply Z.eqb_eq in Hself. rewrite Hself. reflexivity. }
  intros cs Hperm. rewrite (check_is_first_failing role_le ctx m me Hme).
  symmetry. apply first_failing_perm, Hperm.
Qed.

(** One request for each outcome.  The owner of the guild targets themself:
    self-moderation.  The target owns the bot: refused for that.  The target
    is ranked as high as the bot: bot hierarchy.  A helper targets a senior
    member: moderator hierarchy.  The owner of the guild, ranked below the
    senior member, targets them: accepted, the rank comparison is waived. *)
Lemma check_moderation_permissions_order_witness :
  let p := Permissions true true true in
  let me := Member 1 100 p in
  let owner := Member 2 50 p in
  let helper := Member 4 20 p in
  let senior := Member 5 60 p in
  let peer := Member 6 100 p in
  let developer := Member 99 10 p in
  let as_owner := Context owner 7 (Some owner) (Some me) [99] in
  let as_helper := Context helper 7 (Some owner) (Some me) [99] in
  _check_moderation_permissions Z.leb as_owner owner = Some SelfModeration
  /\ _check_moderation_permissions Z.leb as_owner developer = Some BotOwner
  /\ _check_moderation_permissions Z.leb as_owner peer = Some BotHierarchy
  /\ _check_moderation_permissions Z.leb as_helper senior
     = Some ModeratorHierarchy
  /\ _check_moderation_permissions Z.leb as_owner senior = None.
Proof.
  intros p me owner helper senior peer developer as_owner as_helper.
  split; [|split; [|split; [|split]]].
  - exact (eq_trans
             (proj1 (check_moderation_permissions_order Z.leb as_owner owner me
                       eq_refl)) eq_refl).
  - exact (eq_trans
             (proj1 (check_moderation_permissions_order Z.leb as_owner developer
                       me eq_refl)) eq_refl).
  - exact (eq_trans
             (proj1 (check_moderation_permissions_order Z.leb as_owner peer me
                       eq_refl)) eq_refl).
  - exact (eq_trans
             (proj1 (check_moderation_permissions_order Z.leb as_helper senior
                       me eq_refl)) eq_refl).
  - exact (eq_trans
             (proj1 (check_moderation_permissions_order Z.leb as_owner senior me
                       eq_refl)) eq_refl).
Defined.

End EligibilityFacts.

(** ** Guild configuration store *)

Module ConfigFacts.
Import Py ConfigManager Props.

(** C6.  [get_config] answers a missing file and a file whose text is not
    JSON with the default document, the same one in both cases.  A corrupted
    file whose bytes are not UTF-8 is not covered: there [get_config] raises
    [UnicodeDecodeError] instead of returning the default document. *)
Theorem get_config_undecodable_file_raises (files : store) (guild_id : Z) :
  get_config (delete guild_id files) guild_id = Ok default_config
  /\ get_config (<[guild_id := Malformed]> files) guild_id = Ok default_config
  /\ get_config (<[guild_id := NotUtf8]> files) guild_id
     = Raise UnicodeDecodeError.
Proof.
  unfold get_config, load.
  rewrite lookup_delete_eq, !lookup_insert_eq. auto.
Qed.

Lemma get_config_missing (files : store) (guild_id : Z) :
  files !! guild_id = None -> get_config files guild_id = Ok default_config.
Proof. unfold get_config, load. intros ->. reflexivity. Qed.

(** A stored document is returned as it is. *)
Lemma get_config_stored (files : store) (guild_id : Z) (c : config) :
  files !! guild_id = Some (Json c) -> get_config files guild_id = Ok c.
Proof. unfold get_config, load. intros ->. reflexivity. Qed.

(** Only the two exceptions named in the [except] clause are turned into the
    default: a file that cannot be decoded or opened makes [get_config]
    raise. *)
Lemma get_config_other_errors_escape (files : store) (guild_id : Z) :
  (files !! guild_id = Some NotUtf8 ->
   get_config files guild_id = Raise UnicodeDecodeError)
  /\ (files !! guild_id = Some Unreadable ->
      get_config files guild_id = Raise PermissionError).
Proof. unfold get_config, load. split; intros ->; reflexivity. Qed.

(** A successful [save_config] followed by [get_config] gives the document
    back, and leaves other guilds alone. *)
Lemma get_config_after_save (files : store) (guild_id : Z) (c : config) :
  get_config (save_config Written files guild_id c) guild_id = Ok c.
Proof.
  apply get_config_stored. unfold save_config. apply lookup_insert_eq.
Qed.

Lemma save_config_other_guild (io : write_outcome) (files : store)
    (g g' : Z) (c : config) :
  g <> g' -> save_config io files g c !! g' = files !! g'.
Proof.
  intros Hne. destruct io; simpl; [|reflexivity|];
    apply lookup_insert_ne; exact Hne.
Qed.

End ConfigFacts.

(** ** The warning ledger: [warn] *)

Module WarnFacts.
Import Py ConfigManager DurationParser Moderation Props.
Import DurationParserFacts ConfigFacts.

Section Warn.
Context {role : Type}.
Variable role_le : role -> role -> bool.
Variable lim : int_max_str_digits.

Lemma user_warnings_add_warning (c : config) (u : string) (e : warning) :
  user_warnings (add_warning c u e) u = user_warnings c u ++ [e].
Proof.
  unfold user_warnings at 1, add_warning. simpl.
  rewrite lookup_insert_eq. reflexivity.
Qed.

Lemma settings_add_warning (c : config) (u : string) (e : warning) :
  warn_threshold (add_warning c u e) = warn_threshold c
  /\ warn_action (add_warning c u e) = warn_action c
  /\ warn_timeout_duration (add_warning c u e) = warn_timeout_duration c.
Proof. repeat split. Qed.

(** What an accepted [warn] does before the auto-action block. *)
Lemma run_warn_accepted (io : write_outcome) (now : Z) (ctx : @context role)
    (m : @member role) (reason : string) (files : store) (c : config) :
  reason <> EmptyString ->
  _check_moderation_permissions role_le ctx m = None ->
  get_config files (guild_id ctx) = Ok c ->
  let u := str (member_id m) in
  let c' := add_warning c u (new_entry (member_id (author ctx)) reason now) in
  let n := S (length (user_warnings c u)) in
  run (warn role_le lim io now ctx m (Some reason)) files
  = auto_action lim (bot_permissions ctx) m c' n
      (World (save_config io files (guild_id ctx) c')
             [SaveConfig (guild_id ctx) c'; Send (Warned n)]).
Proof.
  intros Hreason Hcheck Hget u c' n.
  unfold run, warn. destruct reason as [|a s]; [congruence|].
  rewrite Hcheck.
  unfold seq, await_get_config, await_save_config, emit. simpl. rewrite Hget.
  replace (length _) with n; [reflexivity|].
  subst n u. rewrite length_app. simpl. unfold user_warnings. lia.
Qed.

Lemma auto_action_not_triggered (me : permissions) (m : @member role)
    (c : config) (n : nat) (w : world) :
  auto_action_triggers c n = false ->
  auto_action lim me m c n w = (w, Ok tt).
Proof. unfold auto_action. intros ->. reflexivity. Qed.

(** Once the condition holds, the block is entered: the first thing it does
    is announce the action on the console. *)
Lemma auto_action_triggered (me : permissions) (m : @member role)
    (c : config) (n : nat) (w : world) :
  auto_action_triggers c n = true ->
  exists (evs : list event) (r : result unit),
    auto_action lim me m c n w
    = (World (fs w)
             (trace w
              ++ PrintTriggering n (default 0 (warn_threshold c))
                   (lower (default "none" (warn_action c))) :: evs), r).
Proof.
  unfold auto_action. intros ->.
  unfold seq, emit, lift, ret. simpl.
  repeat
    (match goal with
     | |- context [if ?b then _ else _] => destruct b
     | |- context [match parse_duration ?l ?s with _ => _ end] =>
         destruct (parse_duration l s) as [[d|]|e]
     end; simpl);
  eexists _, _; rewrite <- ?app_assoc; simpl; reflexivity.
Qed.

(** A configured timeout whose duration parses is requested. *)
Lemma auto_action_timeout (me : permissions) (m : @member role)
    (c : config) (n : nat) (w : world) (d : timedelta) :
  auto_action_triggers c n = true ->
  lower (default "none" (warn_action c)) = "timeout" ->
  moderate_members me = true ->
  parse_duration lim (default "1h" (warn_timeout_duration c)) = Ok (Some d) ->
  auto_action lim me m c n w
  = (World (fs w)
           (trace w
            ++ [PrintTriggering n (default 0 (warn_threshold c)) "timeout";
                MemberTimeout (member_id m) d;
                Send (AutoActionDone n)]), Ok tt).
Proof.
  intros Htrig Hact Hperm Hparse.
  pose proof (parse_duration_bounded _ _ _ Hparse) as [Hlo Hhi].
  unfold auto_action. rewrite Htrig, Hact, Hperm, Hparse.
  unfold seq, emit, lift, ret. simpl.
  assert (Hok : td_truthy d && td_gt d (Timedelta 0) && td_le d days28 = true).
  { unfold td_truthy, td_gt, td_le, days28. simpl.
    rewrite !andb_true_iff, negb_true_iff, Z.eqb_neq, Z.gtb_ltb, Z.ltb_lt,
      Z.leb_le. lia. }
  rewrite Hok. simpl. rewrite <- !app_assoc. reflexivity.
Qed.

(** Every way through the auto-action block: what it adds to the trace. *)
Lemma auto_action_cases (me : permissions) (m : @member role)
    (c : config) (n : nat) (w : world) :
  let threshold := default 0 (warn_threshold c) in
  let action := lower (default "none" (warn_action c)) in
  let dur := default "1h" (warn_timeout_duration c) in
  exists (evs : list event) (r : result unit),
    auto_action lim me m c n w = (World (fs w) (trace w ++ evs), r)
    /\ ((auto_action_triggers c n = false /\ evs = [])
        \/ (auto_action_triggers c n = true
            /\ exists rest : list event,
                 evs = PrintTriggering n threshold action :: rest
                 /\ ((action = "timeout" /\ moderate_members me = true
                      /\ exists d, parse_duration lim dur = Ok (Some d)
                                   /\ rest = [MemberTimeout (member_id m) d;
                                              Send (AutoActionDone n)])
                     \/ (action = "timeout" /\ moderate_members me = true
                         /\ parse_duration lim dur = Ok None
                         /\ rest = [LogConfigError dur])
                     \/ (action = "timeout" /\ moderate_members me = true
                         /\ (exists e, parse_duration lim dur = Raise e)
                         /\ rest = [])
                     \/ (action = "kick" /\ kick_members me = true
                         /\ rest = [MemberKick (member_id m);
                                    Send (AutoActionDone n)])
                     \/ (action = "ban" /\ ban_members me = true
                         /\ rest = [MemberBan (member_id m);
                                    Send (AutoActionDone n)])
                     \/ (rest = []
                         /\ (action = "timeout" -> moderate_members me = false)
                         /\ (action = "kick" -> kick_members me = false)
                         /\ (action = "ban" -> ban_members me = false))))).
Proof.
  intros threshold action dur.
  destruct (auto_action_triggers c n) eqn:Htrig.
  2: { exists [], (Ok tt). rewrite app_nil_r.
       rewrite (auto_action_not_triggered me m c n w Htrig).
       destruct w. split; [reflexivity|]. left. auto. }
  destruct (String.eqb action "timeout" && moderate_members me) eqn:Ht.
  { apply andb_prop in Ht as [Hact Hperm]. apply String.eqb_eq in Hact.
    destruct (parse_duration lim dur) as [[d|]|e] eqn:Hparse.
    - eexists _, _. split;
        [apply (auto_action_timeout me m c n w d Htrig Hact Hperm Hparse)|].
      right. split; [reflexivity|]. eexists. fold action. rewrite Hact.
      split; [reflexivity|]. left. eauto 10.
    - eexists _, _. split.
      + unfold auto_action. rewrite Htrig. fold action dur.
        rewrite Hact, Hperm. unfold seq, emit, lift, ret. cbn.
        fold dur. rewrite Hparse. cbn. rewrite <- !app_assoc. reflexivity.
      + right. split; [reflexivity|]. eexists. fold action. rewrite Hact.
        split; [reflexivity|]. right. left. auto.
    - eexists _, _. split.
      + unfold auto_action. rewrite Htrig. fold action dur.
        rewrite Hact, Hperm. unfold seq, emit, lift, ret. cbn.
        fold dur. rewrite Hparse. cbn. reflexivity.
      + right. split; [reflexivity|]. eexists. fold action. rewrite Hact.
        split; [reflexivity|]. right. right. left. eauto 10. }
  destruct (String.eqb action "kick" && kick_members me) eqn:Hk.
  { apply andb_prop in Hk as [Hact Hperm]. apply String.eqb_eq in Hact.
    eexists _, _. split.
    - unfold auto_action. rewrite Htrig. fold action dur.
      rewrite Hact in *. rewrite Hperm. unfold seq, emit, lift, ret. cbn.
      rewrite <- !app_assoc. reflexivity.
    - right. split; [reflexivity|]. eexists. fold action. rewrite Hact.
      split; [reflexivity|]. do 3 right. left. auto. }
  destruct (String.eqb action "ban" && ban_members me) eqn:Hb.
  { apply andb_prop in Hb as [Hact Hperm]. apply String.eqb_eq in Hact.
    eexists _, _. split.
    - unfold auto_action. rewrite Htrig. fold action dur.
      rewrite Hact in *. rewrite Hperm. unfold seq, emit, lift, ret. cbn.
      rewrite <- !app_assoc. reflexivity.
    - right. split; [reflexivity|]. eexists. fold action. rewrite Hact.
      split; [reflexivity|]. do 4 right. left. auto. }
  eexists _, _. split.
  - unfold auto_action. rewrite Htrig. fold action dur.
    rewrite Ht, Hk, Hb. unfold seq, emit, ret. cbn. reflexivity.
  - right. split; [reflexivity|]. eexists. split; [reflexivity|].
    do 5 right. split; [reflexivity|].
    split; [|split]; intros Hact; rewrite Hact in *; cbn in *;
      congruence.
Qed.

End Warn.

End WarnFacts.

Module AutoActionFacts.
Import Py ConfigManager DurationParser Moderation Props.
Import DurationParserFacts ConfigFacts WarnFacts.

Section AutoAction.
Context {role : Type}.
Variable role_le : role -> role -> bool.
Variable lim : int_max_str_digits.

Lemma auto_action_triggers_spec (c : config) (n : nat) :
  auto_action_triggers c n = true <->
  default 0 (warn_threshold c) > 0
  /\ Z.of_nat n >= default 0 (warn_threshold c)
  /\ lower (default "none" (warn_action c)) <> "none".
Proof.
  unfold auto_action_triggers.
  rewrite !andb_true_iff, negb_true_iff, Z.gtb_ltb, Z.geb_leb, Z.ltb_lt,
    Z.leb_le, String.eqb_neq.
  intuition lia.
Qed.

Lemma auto_action_triggers_add_warning (c : config) (u : string) (e : warning)
    (n : nat) :
  auto_action_triggers (add_warning c u e) n = auto_action_triggers c n.
Proof. reflexivity. Qed.

Lemma parse_one_hour : parse_duration lim "1h" = Ok (Some (Timedelta 3600)).
Proof. destruct lim; vm_compute; reflexivity. Qed.

End AutoAction.

(** C4.  For every accepted [warn], with [n] the user's warning count once
    the new warning is recorded, the automatic action is decided on exactly
    when the threshold is positive, [n] has reached it and the configured
    action, lower-cased, is not "none": then, and only then, the command
    announces the action on the console, with that count, threshold and
    action.  A timeout, kick or ban is requested only after that decision
    and only as the configured action.  Once decided, a kick or a ban is
    requested for the warned member when the bot holds the matching
    permission, and a timeout of the configured duration when the bot may
    moderate members and the duration parses.  With threshold 3, action
    "timeout" and duration "1h", and the bot allowed to moderate members,
    no timeout is requested below three warnings, and a one-hour timeout is
    requested at the third warning and again at every later one. *)
Theorem auto_action_trigger_condition
    {role : Type} (role_le : role -> role -> bool) (lim : int_max_str_digits)
    (io : write_outcome) (now : Z) (ctx : @context role) (m : @member role)
    (reason : string) (files : store) (c : config) :
  reason <> EmptyString ->
  _check_moderation_permissions role_le ctx m = None ->
  get_config files (guild_id ctx) = Ok c ->
  let n := S (length (user_warnings c (str (member_id m)))) in
  let threshold := default 0 (warn_threshold c) in
  let action := lower (default "none" (warn_action c)) in
  let me := bot_permissions ctx in
  let decided := threshold > 0 /\ Z.of_nat n >= threshold /\ action <> "none" in
  let tr := trace (fst (run (warn role_le lim io now ctx m (Some reason)) files)) in
  (PrintTriggering n threshold action ∈ tr <-> decided)
  /\ (forall k t a, PrintTriggering k t a ∈ tr ->
        k = n /\ t = threshold /\ a = action)
  /\ (forall u d, MemberTimeout u d ∈ tr -> decided /\ action = "timeout")
  /\ (forall u, MemberKick u ∈ tr -> decided /\ action = "kick")
  /\ (forall u, MemberBan u ∈ tr -> decided /\ action = "ban")
  /\ (decided ->
      (action = "timeout" -> moderate_members me = true ->
       forall d,
         parse_duration lim (default "1h" (warn_timeout_duration c))
         = Ok (Some d) ->
         MemberTimeout (member_id m) d ∈ tr)
      /\ (action = "kick" -> kick_members me = true ->
          MemberKick (member_id m) ∈ tr)
      /\ (action = "ban" -> ban_members me = true ->
          MemberBan (member_id m) ∈ tr))
  /\ (warn_threshold c = Some 3 ->
      warn_action c = Some "timeout" ->
      warn_timeout_duration c = Some "1h" ->
      moderate_members me = true ->
      ((n < 3)%nat -> forall u d, MemberTimeout u d ∉ tr)
      /\ ((3 <= n)%nat ->
          MemberTimeout (member_id m) (Timedelta 3600) ∈ tr)).
Proof.
  intros Hreason Hcheck Hget n threshold action me decided tr.
  subst tr. rewrite (run_warn_accepted role_le lim io now ctx m reason files c)
    by assumption.
  fold n.
  set (c' := add_warning c _ _).
  set (w := World _ _).
  assert (Hsame : auto_action_triggers c' n = auto_action_triggers c n)
    by reflexivity.
  pose proof (auto_action_triggers_spec c n) as Hspec.
  fold threshold action decided in Hspec.
  clearbody n.
  assert (Hexample :
            warn_threshold c = Some 3 ->
            warn_action c = Some "timeout" ->
            warn_timeout_duration c = Some "1h" ->
            moderate_members me = true ->
            ((n < 3)%nat ->
             forall u d,
               MemberTimeout u d
               ∉ trace (fst (auto_action lim (bot_permissions ctx) m c' n w)))
            /\ ((3 <= n)%nat ->
                MemberTimeout (member_id m) (Timedelta 3600)
                ∈ trace (fst (auto_action lim (bot_permissions ctx) m c' n w)))).
  { intros Hth Hact Hdur Hperm.
    assert (Htrig : auto_action_triggers c' n = (3 <=? n)%nat).
    { rewrite Hsame. apply eq_true_iff_eq.
      rewrite (auto_action_triggers_spec c n), Nat.leb_le, Hth, Hact.
      change (lower (default "none" (Some "timeout"))) with "timeout".
      change (default 0 (Some 3)) with 3.
      split; [lia|]. intros Hn. split; [lia|split; [lia|discriminate]]. }
    split.
    + intros Hn. apply Nat.leb_gt in Hn. rewrite Hn in Htrig.
      rewrite (auto_action_not_triggered lim _ _ _ _ _ Htrig). simpl.
      intros u d Hin. rewrite !elem_of_cons, elem_of_nil in Hin.
      intuition discriminate.
    + intros Hn. apply Nat.leb_le in Hn. rewrite Hn in Htrig.
      rewrite (auto_action_timeout lim (bot_permissions ctx) m c' n w
                 (Timedelta 3600) Htrig).
      * simpl. rewrite !elem_of_cons. do 3 right. left. reflexivity.
      * change (lower (default "none" (warn_action c)) = "timeout").
        rewrite Hact. reflexivity.
      * exact Hperm.
      * change (parse_duration lim (default "1h" (warn_timeout_duration c))
                = Ok (Some (Timedelta 3600))).
        rewrite Hdur. apply parse_one_hour. }
  destruct (auto_action_cases lim (bot_permissions ctx) m c' n w)
    as (evs & r & Hrun & Hcases).
  change (default 0 (warn_threshold c')) with threshold in Hcases.
  change (lower (default "none" (warn_action c'))) with action in Hcases.
  change (default "1h" (warn_timeout_duration c'))
    with (default "1h" (warn_timeout_duration c)) in Hcases.
  rewrite Hsame in Hcases. fold me in Hcases.
  rewrite Hrun in *. cbn [fst trace] in *. subst w. cbn [trace] in *.
  clear Hrun Hsame.
  assert (Hno : auto_action_triggers c n = false -> ~ decided).
  { intros Hf Hd. apply Hspec in Hd. congruence. }
  repeat match goal with |- _ /\ _ => split end; try exact Hexample;
    destruct Hcases as [[Hf ->] | (Htrig & rest & -> & Hrest)];
    try (pose proof (Hno Hf));
    try (pose proof (proj1 Hspec Htrig));
    try (destruct Hrest
           as [(Hact & Hperm & d0 & Hparse & ->)
              |[(Hact & Hperm & Hparse & ->)
               |[(Hact & Hperm & (e0 & Hparse) & ->)
                |[(Hact & Hperm & ->)
                 |[(Hact & Hperm & ->)
                  |(-> & Hnt & Hnk & Hnb)]]]]]);
    intros;
    repeat match goal with |- _ /\ _ => split end; intros;
    repeat match goal with
           | H : _ ∈ _ |- _ =>
               rewrite ?elem_of_app, ?elem_of_cons, ?elem_of_nil in H
           end;
    rewrite ?elem_of_app, ?elem_of_cons, ?elem_of_nil;
    intuition congruence.
Qed.

End AutoActionFacts.

Module AutoActionExamples.
Import Py ConfigManager DurationParser Moderation Props Sample Sample2.
Import DurationParserFacts ConfigFacts WarnFacts AutoActionFacts.

(** A third warning under the default settings is followed by a one-hour
    timeout; a second warning on a guild set to kick at two, by a kick; a
    first warning on a guild set to ban at one, by a ban. *)
Lemma auto_action_trigger_condition_witness :
  MemberTimeout 3 (Timedelta 3600)
  ∈ trace (fst (run (warn Z.leb NoLimit Written 1002 ctx target (Some "again"))
                    files_two_warnings))
  /\ MemberKick 3
     ∈ trace (fst (run (warn Z.leb NoLimit Written 1002 ctx target
                          (Some "again")) files_kick_at_two))
  /\ MemberBan 3
     ∈ trace (fst (run (warn Z.leb NoLimit Written 1002 ctx target
                          (Some "again")) files_ban_at_one)).
Proof.
  assert (Hreason : "again" <> EmptyString) by discriminate.
  assert (Hcheck : _check_moderation_permissions Z.leb ctx target = None)
    by reflexivity.
  split; [|split].
  - assert (Hget : get_config files_two_warnings (guild_id ctx)
                   = Ok two_warnings) by reflexivity.
    destruct (auto_action_trigger_condition Z.leb NoLimit Written 1002 ctx
                target "again" files_two_warnings two_warnings
                Hreason Hcheck Hget)
      as (_ & _ & _ & _ & _ & _ & Hexample).
    destruct (Hexample eq_refl eq_refl eq_refl eq_refl) as [_ Hthird].
    apply Hthird. vm_compute. lia.
  - assert (Hget : get_config files_kick_at_two (guild_id ctx)
                   = Ok kick_at_two) by reflexivity.
    destruct (auto_action_trigger_condition Z.leb NoLimit Written 1002 ctx
                target "again" files_kick_at_two kick_at_two
                Hreason Hcheck Hget)
      as (_ & _ & _ & _ & _ & Hrequest & _).
    assert (Hdecided :
              default 0 (warn_threshold kick_at_two) > 0
              /\ Z.of_nat (S (length (user_warnings kick_at_two
                                        (str (member_id target)))))
                 >= default 0 (warn_threshold kick_at_two)
              /\ lower (default "none" (warn_action kick_at_two)) <> "none").
    { vm_compute. repeat split; discriminate. }
    exact (proj1 (proj2 (Hrequest Hdecided)) eq_refl eq_refl).
  - assert (Hget : get_config files_ban_at_one (guild_id ctx)
                   = Ok ban_at_one) by reflexivity.
    destruct (auto_action_trigger_condition Z.leb NoLimit Written 1002 ctx
                target "again" files_ban_at_one ban_at_one
                Hreason Hcheck Hget)
      as (_ & _ & _ & _ & _ & Hrequest & _).
    assert (Hdecided :
              default 0 (warn_threshold ban_at_one) > 0
              /\ Z.of_nat (S (length (user_warnings ban_at_one
                                        (str (member_id target)))))
                 >= default 0 (warn_threshold ban_at_one)
              /\ lower (default "none" (warn_action ban_at_one)) <> "none").
    { vm_compute. repeat split; discriminate. }
    exact (proj2 (proj2 (Hrequest Hdecided)) eq_refl eq_refl).
Defined.

(** C10.  A guild without a file gets the default document: no channel or
    role is set, the two templates are the default ones, no warning is
    recorded, and the auto-action settings are threshold 3, action
    "timeout", duration "1h".  Starting there, with every write succeeding
    and the bot allowed to moderate members, the first two accepted warnings
    against a member request no timeout and the third requests a timeout of
    one hour. *)
Theorem default_config_auto_moderation
    {role : Type} (role_le : role -> role -> bool) (lim : int_max_str_digits)
    (ctx : @context role) (m : @member role) (r1 r2 r3 : string)
    (t1 t2 t3 : Z) (files : store) :
  files !! guild_id ctx = None ->
  r1 <> EmptyString -> r2 <> EmptyString -> r3 <> EmptyString ->
  _check_moderation_permissions role_le ctx m = None ->
  moderate_members (bot_permissions ctx) = true ->
  let w1 := run (warn role_le lim Written t1 ctx m (Some r1)) files in
  let w2 := run (warn role_le lim Written t2 ctx m (Some r2)) (fs (fst w1)) in
  let w3 := run (warn role_le lim Written t3 ctx m (Some r3)) (fs (fst w2)) in
  get_config files (guild_id ctx)
  = Ok (Config None None None None None
          (Some "Welcome {user.mention} to {server.name}!")
          (Some "{user.name} has left {server.name}.")
          (Some ∅) (Some 3) (Some "timeout") (Some "1h"))
  /\ (forall u d, MemberTimeout u d ∉ trace (fst w1))
  /\ (forall u d, MemberTimeout u d ∉ trace (fst w2))
  /\ Send (Warned 3) ∈ trace (fst w3)
  /\ MemberTimeout (member_id m) (Timedelta 3600) ∈ trace (fst w3).
Proof.
  intros Hnone Hr1 Hr2 Hr3 Hcheck Hperm w1 w2 w3.
  assert (Hget0 : get_config files (guild_id ctx) = Ok default_config)
    by (apply get_config_missing; exact Hnone).
  split; [exact Hget0|].
  set (u := str (member_id m)).
  set (a := member_id (author ctx)).
  set (c1 := add_warning default_config u (new_entry a r1 t1)).
  set (c2 := add_warning c1 u (new_entry a r2 t2)).
  set (c3 := add_warning c2 u (new_entry a r3 t3)).
  assert (Hw1 : w1 = (World (save_config Written files (guild_id ctx) c1)
                            [SaveConfig (guild_id ctx) c1; Send (Warned 1)],
                      Ok tt)).
  { subst w1.
    rewrite (run_warn_accepted role_le lim Written t1 ctx m r1 files
               default_config Hr1 Hcheck Hget0).
    apply auto_action_not_triggered. reflexivity. }
  assert (Hw2 : w2 = (World (save_config Written (fs (fst w1)) (guild_id ctx) c2)
                            [SaveConfig (guild_id ctx) c2; Send (Warned 2)],
                      Ok tt)).
  { subst w2.
    rewrite (run_warn_accepted role_le lim Written t2 ctx m r2 (fs (fst w1))
               c1 Hr2 Hcheck)
      by (rewrite Hw1; apply get_config_after_save).
    fold u a c2.
    replace (length (user_warnings c1 u)) with 1%nat
      by (unfold c1; rewrite user_warnings_add_warning; reflexivity).
    apply auto_action_not_triggered. reflexivity. }
  assert (Hw3 : w3 = (World (save_config Written (fs (fst w2)) (guild_id ctx) c3)
                            [SaveConfig (guild_id ctx) c3; Send (Warned 3);
                             PrintTriggering 3 3 "timeout";
                             MemberTimeout (member_id m) (Timedelta 3600);
                             Send (AutoActionDone 3)],
                      Ok tt)).
  { subst w3.
    rewrite (run_warn_accepted role_le lim Written t3 ctx m r3 (fs (fst w2))
               c2 Hr3 Hcheck)
      by (rewrite Hw2; apply get_config_after_save).
    fold u a c3.
    replace (length (user_warnings c2 u)) with 2%nat
      by (unfold c2, c1; rewrite !user_warnings_add_warning; reflexivity).
    rewrite (auto_action_timeout lim (bot_permissions ctx) m c3 3 _
               (Timedelta 3600));
      [reflexivity|reflexivity|reflexivity|exact Hperm|apply parse_one_hour]. }
  rewrite Hw1, Hw2, Hw3. simpl.
  repeat split.
  - intros u' d Hin. rewrite !elem_of_cons, elem_of_nil in Hin.
    intuition discriminate.
  - intros u' d Hin. rewrite !elem_of_cons, elem_of_nil in Hin.
    intuition discriminate.
  - rewrite !elem_of_cons. right. left. reflexivity.
  - rewrite !elem_of_cons. do 3 right. left. reflexivity.
Qed.

Lemma default_config_auto_moderation_witness :
  let w1 := run (warn Z.leb NoLimit Written 1000 ctx target (Some "spam")) ∅ in
  let w2 := run (warn Z.leb NoLimit Written 1000 ctx target (Some "more spam"))
                (fs (fst w1)) in
  let w3 := run (warn Z.leb NoLimit Written 1001 ctx target (Some "still spam"))
                (fs (fst w2)) in
  MemberTimeout 3 (Timedelta 3600) ∈ trace (fst w3).
Proof.
  assert (Hnone : (∅ : store) !! guild_id ctx = None) by reflexivity.
  assert (Hr1 : "spam" <> EmptyString) by discriminate.
  assert (Hr2 : "more spam" <> EmptyString) by discriminate.
  assert (Hr3 : "still spam" <> EmptyString) by discriminate.
  assert (Hcheck : _check_moderation_permissions Z.leb ctx target = None)
    by reflexivity.
  assert (Hperm : moderate_members (bot_permissions ctx) = true)
    by reflexivity.
  exact (proj2 (proj2 (proj2 (proj2
    (default_config_auto_moderation Z.leb NoLimit ctx target
       "spam" "more spam" "still spam" 1000 1000 1001 ∅
       Hnone Hr1 Hr2 Hr3 Hcheck Hperm))))).
Defined.

End AutoActionExamples.

(** ** The warning ledger: [clearwarns] *)

Module ClearFacts.
Import Py ConfigManager DurationParser Moderation Props.
Import ConfigFacts.

Section Lists.
Variable t : Z.

Lemma filter_keeps_all (l : list warning) :
  Forall (fun w => warning_key w <> t) l ->
  filter (fun w => warning_key w <> t) l = l.
Proof.
  induction 1 as [|w l Hw _ IH]; [reflexivity|].
  rewrite filter_cons_True by exact Hw. rewrite IH. reflexivity.
Qed.

Lemma filter_split_length (l : list warning) :
  (length (filter (fun w => warning_key w <> t) l)
   + length (filter (fun w => warning_key w = t) l) = length l)%nat.
Proof.
  induction l as [|w l IH]; [reflexivity|].
  rewrite !filter_cons. destruct (decide (warning_key w = t)) as [Heq|Hne].
  - rewrite decide_False by (intros Hn; exact (Hn Heq)). simpl. lia.
  - rewrite decide_True by exact Hne. simpl. lia.
Qed.

Lemma removed_is_matching (l : list warning) :
  (length l - length (filter (fun w => warning_key w <> t) l))%nat
  = length (filter (fun w => warning_key w = t) l).
Proof. pose proof (filter_split_length l). lia. Qed.

Lemma nothing_removed_iff (l : list warning) :
  Nat.ltb 0 (length l - length (filter (fun w => warning_key w <> t) l)) = false
  <-> Forall (fun w => warning_key w <> t) l.
Proof.
  rewrite Nat.ltb_ge, removed_is_matching. split.
  - intros Hlen. apply Forall_forall. intros w Hin Heq.
    assert (Hw : w ∈ filter (fun w => warning_key w = t) l)
      by (apply list_elem_of_filter; auto).
    destruct (filter _ l); [inversion Hw|simpl in Hlen; lia].
  - intros Hall. induction Hall as [|w l Hw _ IH]; [reflexivity|].
    rewrite filter_cons_False by exact Hw. exact IH.
Qed.

Lemma matching_at_most_one (l : list warning) :
  NoDup (map warning_key l) ->
  (length (filter (fun w => warning_key w = t) l) <= 1)%nat.
Proof.
  induction l as [|w l IH]; simpl; [lia|].
  rewrite NoDup_cons. intros [Hnotin Hnodup].
  rewrite filter_cons. destruct (decide (warning_key w = t)) as [Heq|Hne].
  - assert (Hnil : filter (fun w => warning_key w = t) l = []).
    { destruct (filter _ l) as [|w' l'] eqn:Hf; [reflexivity|].
      assert (Hw' : w' ∈ filter (fun w => warning_key w = t) l)
        by (rewrite Hf; left).
      apply list_elem_of_filter in Hw' as [Hkey Hin].
      exfalso. apply Hnotin. rewrite Heq, <- Hkey.
      apply list_elem_of_fmap. exists w'. auto. }
    rewrite Hnil. simpl. lia.
  - apply IH, Hnodup.
Qed.

End Lists.

Lemma user_warnings_put_warnings (c : config) (u : string) (l : list warning) :
  user_warnings (put_warnings c u l) u = l.
Proof.
  unfold user_warnings, put_warnings. destruct l; simpl.
  - rewrite lookup_delete_eq. reflexivity.
  - rewrite lookup_insert_eq. reflexivity.
Qed.

Section Clear.
Context {role : Type}.
Variable lim : int_max_str_digits.

Lemma run_clearwarns_raises (io : write_outcome) (ctx : @context role)
    (m : @member role) (ref : string) (files : store) (e : exn) :
  get_config files (guild_id ctx) = Raise e ->
  run (clearwarns lim io ctx m ref) files = (World files [], Raise e).
Proof.
  intros Hget. unfold run, clearwarns, seq, await_get_config. simpl.
  rewrite Hget. reflexivity.
Qed.

Lemma run_clearwarns_none (io : write_outcome) (ctx : @context role)
    (m : @member role) (ref : string) (files : store) (c : config) :
  get_config files (guild_id ctx) = Ok c ->
  user_warnings c (str (member_id m)) = [] ->
  run (clearwarns lim io ctx m ref) files
  = (World files [Send NoWarningsToClear], Ok tt).
Proof.
  intros Hget Huw. unfold run, clearwarns, seq, await_get_config. simpl.
  rewrite Hget. unfold user_warnings in Huw. rewrite Huw. reflexivity.
Qed.

Lemma run_clearwarns_all (io : write_outcome) (ctx : @context role)
    (m : @member role) (ref : string) (files : store) (c : config) :
  get_config files (guild_id ctx) = Ok c ->
  user_warnings c (str (member_id m)) <> [] ->
  lower ref = "all" ->
  let d := ClearedAll (length (user_warnings c (str (member_id m)))) in
  let c' := put_warnings c (str (member_id m)) [] in
  run (clearwarns lim io ctx m ref) files
  = (World (save_config io files (guild_id ctx) c')
           [SaveConfig (guild_id ctx) c'; Send (Cleared d); LogCleared d],
     Ok tt).
Proof.
  intros Hget Huw Hall. unfold run, clearwarns, seq, await_get_config. simpl.
  rewrite Hget, Hall. unfold user_warnings in *.
  destruct (default [] _) as [|w l]; [congruence|]. reflexivity.
Qed.

Lemma run_clearwarns_invalid (io : write_outcome) (ctx : @context role)
    (m : @member role) (ref : string) (files : store) (c : config) :
  get_config files (guild_id ctx) = Ok c ->
  user_warnings c (str (member_id m)) <> [] ->
  lower ref <> "all" ->
  int lim ref = None ->
  run (clearwarns lim io ctx m ref) files
  = (World files [Send (InvalidInput ref)], Ok tt).
Proof.
  intros Hget Huw Hall Hint. unfold run, clearwarns, seq, await_get_config.
  simpl. rewrite Hget, Hint. apply String.eqb_neq in Hall. rewrite Hall.
  unfold user_warnings in *.
  destruct (default [] _) as [|w l]; [congruence|]. reflexivity.
Qed.

Lemma run_clearwarns_id (io : write_outcome) (ctx : @context role)
    (m : @member role) (ref : string) (files : store) (c : config) (t : Z) :
  get_config files (guild_id ctx) = Ok c ->
  user_warnings c (str (member_id m)) <> [] ->
  lower ref <> "all" ->
  int lim ref = Some t ->
  let uw := user_warnings c (str (member_id m)) in
  let new_warnings := filter (fun w => warning_key w <> t) uw in
  let c' := put_warnings c (str (member_id m)) new_warnings in
  run (clearwarns lim io ctx m ref) files
  = if Nat.ltb 0 (length uw - length new_warnings)
    then (World (save_config io files (guild_id ctx) c')
                [SaveConfig (guild_id ctx) c'; Send (Cleared (ClearedId t));
                 LogCleared (ClearedId t)], Ok tt)
    else (World files [Send (WarningIdNotFound t)], Ok tt).
Proof.
  intros Hget Huw Hall Hint uw new_warnings c'.
  unfold run, clearwarns, seq, await_get_config.
  simpl. rewrite Hget, Hint. apply String.eqb_neq in Hall. rewrite Hall.
  subst c' new_warnings uw. unfold put_warnings, user_warnings in *.
  destruct (default [] _) as [|w l] eqn:Hl; [congruence|].
  destruct (Nat.ltb 0 _) eqn:Hpos; reflexivity.
Qed.

End Clear.

End ClearFacts.

Module LedgerFacts.
Import Py ConfigManager DurationParser Moderation Props Sample Sample2.
Import ConfigFacts WarnFacts ClearFacts.

Lemma lower_char_a (c : ascii) :
  lower_char c = "a"%char -> c = "a"%char \/ c = "A"%char.
Proof.
  destruct c as [[] [] [] [] [] [] [] []]; vm_compute; intros H;
    try discriminate H; auto.
Qed.

Lemma lower_char_l (c : ascii) :
  lower_char c = "l"%char -> c = "l"%char \/ c = "L"%char.
Proof.
  destruct c as [[] [] [] [] [] [] [] []]; vm_compute; intros H;
    try discriminate H; auto.
Qed.

(** A reference that reads "all" in any letter case is not a number, so the
    numeric branch of [clearwarns] is the one a numeric reference takes. *)
Lemma numeric_is_not_all (lim : int_max_str_digits) (ref : string) (t : Z) :
  int lim ref = Some t -> lower ref <> "all".
Proof.
  intros Hint Hall.
  destruct ref as [|c1 [|c2 [|c3 [|c4 r]]]]; try discriminate Hall.
  simpl in Hall. injection Hall as H1 H2 H3.
  apply lower_char_a in H1. apply lower_char_l in H2. apply lower_char_l in H3.
  destruct H1 as [-> | ->], H2 as [-> | ->], H3 as [-> | ->];
    destruct lim; vm_compute in Hint; discriminate Hint.
Qed.

(** [int] does not skip the separators U+001C..U+001F, which [str.strip]
    would: a reference that starts or ends with one is not a number. *)
Lemma int_rejects_separators (lim : int_max_str_digits) :
  int lim (String "028" "1001") = None
  /\ int lim (String "029" "1001") = None
  /\ int lim (String "030" "1001") = None
  /\ int lim (String "031" "1001") = None
  /\ int lim ("1001" +:+ String "028" EmptyString) = None
  /\ int lim (String "009" " 1_001" +:+ String "160" EmptyString) = Some 1001.
Proof. destruct lim; vm_compute; auto 10. Qed.

Lemma stored_warnings_get_config (files : store) (g : Z) (u : string)
    (c : config) :
  get_config files g = Ok c -> stored_warnings files g u = user_warnings c u.
Proof.
  unfold get_config, load, stored_warnings.
  destruct (files !! g) as [[c0| | |]|]; intros [= <-]; try reflexivity.
Qed.

Lemma stored_warnings_raise (files : store) (g : Z) (u : string) (e : exn) :
  get_config files g = Raise e -> stored_warnings files g u = [].
Proof.
  unfold get_config, load, stored_warnings.
  destruct (files !! g) as [[c0| | |]|]; intros [=]; reflexivity.
Qed.

Lemma stored_warnings_after_save (files : store) (g : Z) (u : string)
    (c : config) :
  stored_warnings (save_config Written files g c) g u = user_warnings c u.
Proof.
  apply stored_warnings_get_config, get_config_after_save.
Qed.

(** C2 (as amended).  A successful [clearwarns] with a numeric reference
    removes from the user's stored list every record whose id is the given
    one and keeps the others in order; the number of records removed is the
    number of records with that id, which is at most one when the ids of the
    user's records are pairwise distinct. *)
Theorem clearwarns_by_id_removes_every_match
    {role : Type} (lim : int_max_str_digits) (ctx : @context role)
    (m : @member role) (ref : string) (t : Z) (files : store) :
  int lim ref = Some t ->
  let u := str (member_id m) in
  let before := stored_warnings files (guild_id ctx) u in
  let after :=
    stored_warnings (fs (fst (run (clearwarns lim Written ctx m ref) files)))
                    (guild_id ctx) u in
  after = filter (fun w => warning_key w <> t) before
  /\ (length before - length after)%nat
     = length (filter (fun w => warning_key w = t) before)
  /\ (NoDup (map warning_key before) ->
      (length before - length after <= 1)%nat).
Proof.
  intros Hint u before after.
  assert (Hall : lower ref <> "all") by exact (numeric_is_not_all lim ref t Hint).
  assert (Hafter : after = filter (fun w => warning_key w <> t) before).
  { subst after before.
    destruct (get_config files (guild_id ctx)) as [c|e] eqn:Hget.
    - rewrite (stored_warnings_get_config files _ u c Hget).
      destruct (user_warnings c u) as [|w l] eqn:Huw.
      + rewrite (run_clearwarns_none lim Written ctx m ref files c Hget Huw).
        simpl. rewrite (stored_warnings_get_config files _ u c Hget).
        exact Huw.
      + assert (Hne : user_warnings c u <> []) by (rewrite Huw; discriminate).
        rewrite (run_clearwarns_id lim Written ctx m ref files c t
                   Hget Hne Hall Hint).
        fold u. rewrite Huw.
        destruct (Nat.ltb 0 _) eqn:Hpos; simpl.
        * change (stored_warnings
                    (save_config Written files (guild_id ctx)
                       (put_warnings c u
                          (filter (fun w => warning_key w <> t) (w :: l))))
                    (guild_id ctx) u
                  = filter (fun w => warning_key w <> t) (w :: l)).
          rewrite stored_warnings_after_save.
          apply user_warnings_put_warnings.
        * rewrite (stored_warnings_get_config files _ u c Hget), Huw.
          apply nothing_removed_iff in Hpos.
          symmetry. apply filter_keeps_all, Hpos.
    - rewrite (run_clearwarns_raises lim Written ctx m ref files e Hget).
      simpl. rewrite (stored_warnings_raise files _ u e Hget). reflexivity. }
  split; [exact Hafter|].
  rewrite Hafter, removed_is_matching.
  split; [reflexivity|]. apply matching_at_most_one.
Qed.

(** Of three records, the two recorded in the same second carry the id
    1000: clearing it removes both and keeps the third. *)
Lemma clearwarns_by_id_removes_every_match_witness :
  let before := stored_warnings files_three_warnings 7 "3" in
  let after :=
    stored_warnings
      (fs (fst (run (clearwarns NoLimit Written ctx target "1000")
                    files_three_warnings))) 7 "3" in
  before = [first_warning; second_warning; third_warning]
  /\ after = [third_warning]
  /\ (length before - length after)%nat = 2%nat.
Proof.
  assert (Hint : int NoLimit "1000" = Some 1000) by reflexivity.
  destruct (clearwarns_by_id_removes_every_match NoLimit ctx target "1000"
              1000 files_three_warnings Hint) as (Hafter & Hcount & _).
  split; [reflexivity|].
  split; [exact (eq_trans Hafter eq_refl)|exact (eq_trans Hcount eq_refl)].
Defined.

(** C2 (as stated) fails.  Two warnings recorded in the same second carry
    the same id; clearing that id removes both records. *)
Lemma clearwarns_by_id_removes_two :
  let w1 := run (warn Z.leb NoLimit Written 1000 ctx target (Some "spam")) ∅ in
  let w2 := run (warn Z.leb NoLimit Written 1000 ctx target (Some "more spam"))
                (fs (fst w1)) in
  let files := fs (fst w2) in
  let before := stored_warnings files 7 "3" in
  let after :=
    stored_warnings (fs (fst (run (clearwarns NoLimit Written ctx target "1000")
                                  files))) 7 "3" in
  files = files_two_warnings
  /\ before = [first_warning; second_warning]
  /\ after = []
  /\ (length before - length after)%nat = 2%nat
  /\ ~ ((length before - length after)%nat = 0%nat
        \/ (length before - length after)%nat = 1%nat).
Proof.
  vm_compute. repeat split; try reflexivity. intros [H|H]; discriminate H.
Qed.

(** C9.  A [clearwarns] with a numeric reference that matches none of the
    user's records is a no-op with an answer of its own: no file changes,
    nothing is saved, and the only effect is one message, which is never
    the "cleared" one.  The message is the "not found" one when the user has
    warnings; for a user without any warning it says that there are no
    warnings to clear. *)
Theorem clearwarns_unknown_id
    {role : Type} (lim : int_max_str_digits) (io : write_outcome)
    (ctx : @context role) (m : @member role) (ref : string) (t : Z)
    (files : store) (c : config) :
  get_config files (guild_id ctx) = Ok c ->
  int lim ref = Some t ->
  Forall (fun w => warning_key w <> t) (user_warnings c (str (member_id m))) ->
  let w := run (clearwarns lim io ctx m ref) files in
  w = (World files
             [Send (match user_warnings c (str (member_id m)) with
                    | [] => NoWarningsToClear
                    | _ :: _ => WarningIdNotFound t
                    end)],
       Ok tt)
  /\ fs (fst w) = files
  /\ (forall (g : Z) (c' : config), SaveConfig g c' ∉ trace (fst w))
  /\ (forall d : action_desc, Send (Cleared d) ∉ trace (fst w)).
Proof.
  intros Hget Hint Hnone w.
  assert (Hall : lower ref <> "all") by exact (numeric_is_not_all lim ref t Hint).
  assert (Hw : w = (World files
                      [Send (match user_warnings c (str (member_id m)) with
                             | [] => NoWarningsToClear
                             | _ :: _ => WarningIdNotFound t
                             end)],
                    Ok tt)).
  { subst w.
    destruct (user_warnings c (str (member_id m))) as [|x l] eqn:Huw.
    - apply (run_clearwarns_none lim io ctx m ref files c Hget Huw).
    - assert (Hne : user_warnings c (str (member_id m)) <> [])
        by (rewrite Huw; discriminate).
      rewrite (run_clearwarns_id lim io ctx m ref files c t Hget Hne Hall Hint).
      rewrite Huw. apply nothing_removed_iff in Hnone. rewrite Hnone.
      reflexivity. }
  split; [exact Hw|]. rewrite Hw. cbn [fst fs trace].
  split; [reflexivity|].
  split.
  - intros g c' Hin. apply list_elem_of_singleton in Hin. discriminate Hin.
  - intros d Hin. apply list_elem_of_singleton in Hin.
    destruct (user_warnings c (str (member_id m))); discriminate Hin.
Qed.

(** An id that is not on file: "not found" for a member with a warning, "no
    warnings to clear" for a guild without any file. *)
Lemma clearwarns_unknown_id_witness :
  run (clearwarns NoLimit Written ctx target "1000") files_one_warning
  = (World files_one_warning [Send (WarningIdNotFound 1000)], Ok tt)
  /\ run (clearwarns NoLimit Written ctx target "1000") ∅
     = (World ∅ [Send NoWarningsToClear], Ok tt).
Proof.
  assert (Hint : int NoLimit "1000" = Some 1000) by reflexivity.
  split.
  - assert (Hget : get_config files_one_warning (guild_id ctx) = Ok one_warning)
      by reflexivity.
    assert (Hnone : Forall (fun w => warning_key w <> 1000)
                           (user_warnings one_warning (str (member_id target)))).
    { repeat constructor. discriminate. }
    exact (proj1 (clearwarns_unknown_id NoLimit Written ctx target "1000" 1000
                    files_one_warning one_warning Hget Hint Hnone)).
  - assert (Hget : get_config (∅ : store) (guild_id ctx) = Ok default_config)
      by reflexivity.
    assert (Hnone : Forall (fun w => warning_key w <> 1000)
                           (user_warnings default_config
                              (str (member_id target)))).
    { constructor. }
    exact (proj1 (clearwarns_unknown_id NoLimit Written ctx target "1000" 1000
                    ∅ default_config Hget Hint Hnone)).
Defined.

(** [clearwarns] saves only configurations in which the member is absent or
    has at least one warning. *)
Lemma clearwarns_saved_entry
    {role : Type} (lim : int_max_str_digits) (io : write_outcome)
    (ctx : @context role) (m : @member role) (ref : string) (files : store)
    (g : Z) (c' : config) :
  SaveConfig g c' ∈ trace (fst (run (clearwarns lim io ctx m ref) files)) ->
  exists (c : config) (l : list warning),
    get_config files (guild_id ctx) = Ok c
    /\ g = guild_id ctx
    /\ c' = put_warnings c (str (member_id m)) l.
Proof.
  destruct (get_config files (guild_id ctx)) as [c|e] eqn:Hget.
  2: { rewrite (run_clearwarns_raises lim io ctx m ref files e Hget). simpl.
       intros Hin. inversion Hin. }
  destruct (user_warnings c (str (member_id m))) as [|w l] eqn:Huw.
  { rewrite (run_clearwarns_none lim io ctx m ref files c Hget Huw). simpl.
    intros Hin. apply list_elem_of_singleton in Hin. discriminate Hin. }
  assert (Hne : user_warnings c (str (member_id m)) <> [])
    by (rewrite Huw; discriminate).
  destruct (String.eqb (lower ref) "all") eqn:Hall.
  { apply String.eqb_eq in Hall.
    rewrite (run_clearwarns_all lim io ctx m ref files c Hget Hne Hall). simpl.
    rewrite !elem_of_cons, elem_of_nil.
    intros [[= -> ->]|[[=]|[[=]|[]]]].
    exists c, []. repeat split; reflexivity. }
  apply String.eqb_neq in Hall.
  destruct (int lim ref) as [t|] eqn:Hint.
  - rewrite (run_clearwarns_id lim io ctx m ref files c t Hget Hne Hall Hint).
    destruct (Nat.ltb 0 _); simpl; rewrite !elem_of_cons, elem_of_nil.
    + intros [[= -> ->]|[[=]|[[=]|[]]]].
      exists c, (filter (fun w => warning_key w <> t)
                        (user_warnings c (str (member_id m)))).
      repeat split; reflexivity.
    + intros [[=]|[]].
  - rewrite (run_clearwarns_invalid lim io ctx m ref files c Hget Hne Hall Hint).
    simpl. rewrite !elem_of_cons, elem_of_nil. intros [[=]|[]].
Qed.

Lemma clearwarns_final_store
    {role : Type} (lim : int_max_str_digits) (io : write_outcome)
    (ctx : @context role) (m : @member role) (ref : string) (files : store) :
  let w := run (clearwarns lim io ctx m ref) files in
  fs (fst w) = files
  \/ exists c', SaveConfig (guild_id ctx) c' ∈ trace (fst w)
               /\ fs (fst w) = save_config io files (guild_id ctx) c'.
Proof.
  simpl.
  destruct (get_config files (guild_id ctx)) as [c|e] eqn:Hget.
  2: { rewrite (run_clearwarns_raises lim io ctx m ref files e Hget). auto. }
  destruct (user_warnings c (str (member_id m))) as [|w l] eqn:Huw.
  { rewrite (run_clearwarns_none lim io ctx m ref files c Hget Huw). auto. }
  assert (Hne : user_warnings c (str (member_id m)) <> [])
    by (rewrite Huw; discriminate).
  destruct (String.eqb (lower ref) "all") eqn:Hall.
  { apply String.eqb_eq in Hall.
    rewrite (run_clearwarns_all lim io ctx m ref files c Hget Hne Hall). simpl.
    right. eexists. split; [left|reflexivity]. }
  apply String.eqb_neq in Hall.
  destruct (int lim ref) as [t|] eqn:Hint.
  - rewrite (run_clearwarns_id lim io ctx m ref files c t Hget Hne Hall Hint).
    destruct (Nat.ltb 0 _); simpl; [|auto].
    right. eexists. split; [left|reflexivity].
  - rewrite (run_clearwarns_invalid lim io ctx m ref files c Hget Hne Hall Hint).
    auto.
Qed.

Lemma no_empty_entry_default : no_empty_entry default_config.
Proof.
  intros ws u l [= <-] Hl. rewrite lookup_empty in Hl. discriminate Hl.
Qed.

Lemma no_empty_entry_get_config (files : store) (g : Z) (c : config) :
  store_no_empty_entry files -> get_config files g = Ok c -> no_empty_entry c.
Proof.
  intros Hinv. unfold get_config, load.
  destruct (files !! g) as [[c0| | |]|] eqn:Hg; intros [= <-];
    [exact (Hinv g c0 Hg)|apply no_empty_entry_default..].
Qed.

Lemma no_empty_entry_put_warnings (c : config) (u : string) (l : list warning) :
  no_empty_entry c -> no_empty_entry (put_warnings c u l).
Proof.
  intros Hinv ws u' l' Hws Hl'.
  assert (Hold : forall k, default ∅ (warnings c) !! u' = Some k -> k <> []).
  { intros k Hk. destruct (warnings c) as [ws0|] eqn:Hc; simpl in Hk.
    - exact (Hinv ws0 u' k Hc Hk).
    - rewrite lookup_empty in Hk. discriminate Hk. }
  destruct l as [|w l]; simpl in Hws; injection Hws as <-.
  - destruct (decide (u = u')) as [<-|Hne].
    + rewrite lookup_delete_eq in Hl'. discriminate Hl'.
    + rewrite lookup_delete_ne in Hl' by exact Hne. exact (Hold l' Hl').
  - destruct (decide (u = u')) as [<-|Hne].
    + rewrite lookup_insert_eq in Hl'. injection Hl' as <-. discriminate.
    + rewrite lookup_insert_ne in Hl' by exact Hne. exact (Hold l' Hl').
Qed.

Lemma store_no_empty_entry_save (io : write_outcome) (files : store) (g : Z)
    (c : config) :
  store_no_empty_entry files -> no_empty_entry c ->
  store_no_empty_entry (save_config io files g c).
Proof.
  intros Hfiles Hc g' c0. unfold save_config. destruct io.
  - destruct (decide (g = g')) as [<-|Hne].
    + rewrite lookup_insert_eq. intros [= <-]. exact Hc.
    + rewrite lookup_insert_ne by exact Hne. apply Hfiles.
  - apply Hfiles.
  - destruct (decide (g = g')) as [<-|Hne].
    + rewrite lookup_insert_eq. discriminate.
    + rewrite lookup_insert_ne by exact Hne. apply Hfiles.
Qed.

(** C7.  If no stored configuration lists a user with an empty sequence of
    warnings, none does after [clearwarns], whichever way the reference reads
    and however the write goes; and a configuration that [clearwarns] saves
    never lists the cleared member with an empty sequence: when the clear
    (of one id or of all) leaves the member without warnings, the member's
    key is absent. *)
Theorem clearwarns_keeps_absent_key
    {role : Type} (lim : int_max_str_digits) (io : write_outcome)
    (ctx : @context role) (m : @member role) (ref : string) (files : store) :
  store_no_empty_entry files ->
  let w := run (clearwarns lim io ctx m ref) files in
  store_no_empty_entry (fs (fst w))
  /\ (forall g c', SaveConfig g c' ∈ trace (fst w) ->
      no_empty_entry c'
      /\ (user_warnings c' (str (member_id m)) = [] ->
          ~ has_key c' (str (member_id m)))).
Proof.
  intros Hinv w.
  assert (Hsaved : forall g c', SaveConfig g c' ∈ trace (fst w) ->
                                no_empty_entry c').
  { intros g c' Hin.
    destruct (clearwarns_saved_entry lim io ctx m ref files g c' Hin)
      as (c & l & Hget & _ & ->).
    apply no_empty_entry_put_warnings.
    exact (no_empty_entry_get_config files _ c Hinv Hget). }
  split.
  - destruct (clearwarns_final_store lim io ctx m ref files)
      as [Hsame | (c' & Hin & Hfs)]; fold w in Hsame || fold w in Hin, Hfs.
    + rewrite Hsame. exact Hinv.
    + rewrite Hfs. apply store_no_empty_entry_save; [exact Hinv|].
      exact (Hsaved _ c' Hin).
  - intros g c' Hin. split; [exact (Hsaved g c' Hin)|].
    intros Hempty (ws & l & Hws & Hl).
    assert (Hl0 : l = []).
    { unfold user_warnings in Hempty. rewrite Hws in Hempty. simpl in Hempty.
      rewrite Hl in Hempty. exact Hempty. }
    subst l. exact (Hsaved g c' Hin ws _ [] Hws Hl eq_refl).
Qed.

Lemma clearwarns_keeps_absent_key_witness :
  let w := run (clearwarns NoLimit Written ctx target "1001") files_one_warning in
  store_no_empty_entry (fs (fst w)).
Proof.
  assert (Hinv : store_no_empty_entry files_one_warning).
  { intros g c Hg. unfold files_one_warning in Hg.
    apply lookup_insert_Some in Hg as [[_ [= <-]]|[_ Hg]];
      [|rewrite lookup_empty in Hg; discriminate Hg].
    apply (no_empty_entry_put_warnings default_config "3" [third_warning]).
    apply no_empty_entry_default. }
  exact (proj1 (clearwarns_keeps_absent_key NoLimit Written ctx target "1001"
                  files_one_warning Hinv)).
Defined.

End LedgerFacts.

(** * Further properties *)

(** ** Duration parser: every outcome *)

Module ParserOutcomeFacts.
Import Py DurationParser Props ParserSpec.
Import DurationParserFacts GrammarFacts.

Lemma decimal_not_space (c : ascii) :
  is_decimal c = true -> is_int_space c = false.
Proof.
  unfold is_decimal, is_int_space. generalize (code c). intros n H.
  cbv zeta. apply andb_prop in H as [H1 H2].
  apply N.leb_le in H1. apply N.leb_le in H2.
  repeat rewrite orb_false_iff. repeat split.
  - apply andb_false_iff. right. apply N.leb_gt. lia.
  - apply N.eqb_neq. lia.
  - apply N.eqb_neq. lia.
  - apply N.eqb_neq. lia.
Qed.

Lemma skip_trailing_space_decimal (s : string) :
  all_decimal s = true -> skip_trailing_space s = s.
Proof.
  induction s as [|c r IH]; [reflexivity|]. simpl.
  intros H. apply andb_prop in H as [Hc Hr]. rewrite (IH Hr).
  destruct r; [|reflexivity]. rewrite (decimal_not_space c Hc). reflexivity.
Qed.

Lemma strip_decimal (s : string) :
  all_decimal s = true -> skip_trailing_space (skip_leading_space s) = s.
Proof.
  intros H.
  assert (Hl : skip_leading_space s = s).
  { destruct s as [|c r]; [reflexivity|]. simpl in *.
    apply andb_prop in H as [Hc _]. rewrite (decimal_not_space c Hc).
    reflexivity. }
  rewrite Hl. apply skip_trailing_space_decimal, H.
Qed.

Lemma int_digits_decimal (s : string) (acc : Z) (n : nat) :
  all_decimal s = true ->
  int_digits acc n true s = Some (decimal_value acc s, (n + String.length s)%nat).
Proof.
  revert acc n. induction s as [|c r IH]; intros acc n H; simpl.
  - rewrite Nat.add_0_r. reflexivity.
  - simpl in H. apply andb_prop in H as [Hc Hr]. rewrite Hc.
    rewrite (IH _ _ Hr). f_equal. f_equal. lia.
Qed.

(** [int] on a non-empty run of ASCII digits: its value, unless the run is
    longer than the interpreter allows. *)
Lemma int_decimal (lim : int_max_str_digits) (s : string) :
  s <> EmptyString -> all_decimal s = true ->
  int lim s
  = if exceeds lim (String.length s) then None else Some (decimal_value 0 s).
Proof.
  intros Hne Hs. unfold int. rewrite (strip_decimal s Hs).
  destruct s as [|c r]; [congruence|].
  pose proof Hs as Hs'. simpl in Hs'. apply andb_prop in Hs' as [Hc Hr].
  assert (Hbody : match String c r with
                  | String "-" r0 => (-1, r0)
                  | String "+" r0 => (1, r0)
                  | _ => (1, String c r)
                  end = (1, String c r)).
  { destruct c as [[] [] [] [] [] [] [] []]; try reflexivity;
      vm_compute in Hc; discriminate Hc. }
  rewrite Hbody. simpl. rewrite Hc.
  rewrite (int_digits_decimal r _ _ Hr). simpl.
  destruct (exceeds lim (S (String.length r))); [reflexivity|].
  f_equal. destruct (decimal_value _ r); reflexivity.
Qed.

Lemma unit_delta (u : ascii) (v : Z) :
  (if Ascii.eqb u "s" then seconds v
   else if Ascii.eqb u "m" then minutes v
   else if Ascii.eqb u "h" then hours v
   else days v)
  = timedelta_of_seconds (v * unit_seconds u).
Proof.
  unfold unit_seconds, seconds, minutes, hours, days.
  destruct (Ascii.eqb u "s"); [f_equal; lia|].
  destruct (Ascii.eqb u "m"); [f_equal; lia|].
  destruct (Ascii.eqb u "h"); f_equal; lia.
Qed.

Lemma unit_seconds_pos (u : ascii) : 1 <= unit_seconds u <= 86400.
Proof.
  unfold unit_seconds.
  destruct (Ascii.eqb u "s"); [lia|].
  destruct (Ascii.eqb u "m"); [lia|].
  destruct (Ascii.eqb u "h"); lia.
Qed.

(** What [parse_duration] does once the pattern has matched. *)
Lemma parse_duration_matched (lim : int_max_str_digits) (s g1 : string)
    (u : ascii) :
  re_match (lower s) = Some (g1, u) ->
  parse_duration lim s
  = if exceeds lim (String.length g1) then Ok None
    else
      let secs := decimal_value 0 g1 * unit_seconds u in
      if decimal_value 0 g1 <=? 0 then Ok None
      else if secs / 86400 >? 999999999 then Raise OverflowError
      else if secs >? 2419200 then Ok None
      else Ok (Some (Timedelta secs)).
Proof.
  intros Hm. unfold parse_duration. rewrite Hm.
  apply re_match_spec in Hm as (Hne & Hds & _ & _).
  rewrite (int_decimal lim g1 Hne Hds).
  destruct (exceeds lim (String.length g1)); [reflexivity|].
  cbv zeta. destruct (decimal_value 0 g1 <=? 0) eqn:Hpos; [reflexivity|].
  rewrite unit_delta. unfold timedelta_of_seconds, timedelta_max_days.
  apply Z.leb_gt in Hpos. pose proof (unit_seconds_pos u) as Hu.
  assert (Hnn : 0 <= decimal_value 0 g1 * unit_seconds u / 86400)
    by (apply Z.div_pos; nia).
  rewrite (Z.abs_eq _ Hnn).
  destruct (_ / 86400 >? 999999999); reflexivity.
Qed.

(** X1.  Among inputs whose characters all lie below U+0100,
    [parse_duration] returns a duration exactly for those that, once
    lower-cased, are a run of ASCII digits and one unit letter (possibly
    followed by one final line feed), whose number of digits the
    interpreter accepts, whose magnitude is positive and whose length is at
    most 28 days; the duration returned is the magnitude times the unit,
    never a clamped value.  (Digits of other scripts, which the pattern
    also takes, lie beyond U+00FF.) *)
Theorem parse_duration_some_iff (lim : int_max_str_digits) (s : string)
    (d : timedelta) :
  parse_duration lim s = Ok (Some d) <->
  exists (g1 : string) (u : ascii),
    duration_token (lower s) g1 u
    /\ exceeds lim (String.length g1) = false
    /\ 0 < decimal_value 0 g1
    /\ decimal_value 0 g1 * unit_seconds u <= 2419200
    /\ d = Timedelta (decimal_value 0 g1 * unit_seconds u).
Proof.
  split.
  - intros Hp. destruct (re_match (lower s)) as [[g1 u]|] eqn:Hm.
    + rewrite (parse_duration_matched lim s g1 u Hm) in Hp.
      exists g1, u. split; [apply re_match_spec, Hm|].
      destruct (exceeds lim _) eqn:Hlim; [discriminate Hp|]. cbv zeta in Hp.
      destruct (_ <=? 0) eqn:Hpos; [discriminate Hp|].
      destruct (_ / 86400 >? _); [discriminate Hp|].
      destruct (_ >? 2419200) eqn:Hgt; [discriminate Hp|].
      injection Hp as <-. apply Z.leb_gt in Hpos.
      rewrite Z.gtb_ltb in Hgt. apply Z.ltb_ge in Hgt. auto.
    + unfold parse_duration in Hp. rewrite Hm in Hp. discriminate Hp.
  - intros (g1 & u & Htok & Hlim & Hpos & Hmax & ->).
    apply re_match_spec in Htok.
    rewrite (parse_duration_matched lim s g1 u Htok), Hlim. cbv zeta.
    apply Z.leb_gt in Hpos. rewrite Hpos.
    assert (Hdiv : decimal_value 0 g1 * unit_seconds u / 86400 <= 28)
      by (apply Z.div_le_upper_bound; lia).
    destruct (_ / 86400 >? _) eqn:Hov.
    { rewrite Z.gtb_ltb in Hov. apply Z.ltb_lt in Hov. lia. }
    destruct (_ >? 2419200) eqn:Hgt; [|reflexivity].
    rewrite Z.gtb_ltb in Hgt. apply Z.ltb_lt in Hgt. lia.
Qed.

(** X2.  Among inputs whose characters all lie below U+0100,
    [parse_duration] raises exactly for the well-formed ones whose length
    reaches one thousand million days, and then the exception is
    [OverflowError]; every other such input gets a duration or [None]. *)
Theorem parse_duration_raise_iff (lim : int_max_str_digits) (s : string)
    (e : exn) :
  parse_duration lim s = Raise e <->
  e = OverflowError
  /\ exists (g1 : string) (u : ascii),
       duration_token (lower s) g1 u
       /\ exceeds lim (String.length g1) = false
       /\ 86400 * 1000000000 <= decimal_value 0 g1 * unit_seconds u.
Proof.
  split.
  - intros Hp. destruct (re_match (lower s)) as [[g1 u]|] eqn:Hm.
    + rewrite (parse_duration_matched lim s g1 u Hm) in Hp.
      destruct (exceeds lim _) eqn:Hlim; [discriminate Hp|]. cbv zeta in Hp.
      destruct (_ <=? 0) eqn:Hpos; [discriminate Hp|].
      destruct (_ / 86400 >? _) eqn:Hov.
      * injection Hp as <-. split; [reflexivity|]. exists g1, u.
        split; [apply re_match_spec, Hm|]. split; [exact Hlim|].
        rewrite Z.gtb_ltb in Hov. apply Z.ltb_lt in Hov.
        pose proof (Z.mul_div_le (decimal_value 0 g1 * unit_seconds u) 86400).
        lia.
      * destruct (_ >? 2419200); discriminate Hp.
    + unfold parse_duration in Hp. rewrite Hm in Hp. discriminate Hp.
  - intros (-> & g1 & u & Htok & Hlim & Hbig).
    apply re_match_spec in Htok.
    rewrite (parse_duration_matched lim s g1 u Htok), Hlim. cbv zeta.
    pose proof (unit_seconds_pos u) as Hu.
    assert (Hpos : (decimal_value 0 g1 <=? 0) = false) by (apply Z.leb_gt; nia).
    rewrite Hpos.
    assert (Hdiv : 1000000000 <= decimal_value 0 g1 * unit_seconds u / 86400)
      by (apply Z.div_le_lower_bound; lia).
    destruct (_ / 86400 >? _) eqn:Hov; [reflexivity|].
    rewrite Z.gtb_ltb in Hov. apply Z.ltb_ge in Hov. lia.
Qed.

End ParserOutcomeFacts.

(** ** Configuration store: writing and reading back *)

Module StoreFacts.
Import Py ConfigManager Props.
Import ConfigFacts.

(** X3.  Reading a guild after [save_config]: the saved document when the
    write succeeded, what was there before when the file could not be
    opened, and the default document when the dump failed half-way; the
    files of other guilds read as before. *)
Theorem save_config_then_get_config (io : write_outcome) (files : store)
    (g g' : Z) (c : config) :
  g' <> g ->
  get_config (save_config io files g c) g
  = match io with
    | Written => Ok c
    | OpenFailed => get_config files g
    | DumpFailed => Ok default_config
    end
  /\ get_config (save_config io files g c) g' = get_config files g'.
Proof.
  intros Hne. split.
  - destruct io; simpl; [apply get_config_after_save|reflexivity|].
    unfold get_config, load. rewrite lookup_insert_eq. reflexivity.
  - unfold get_config, load.
    rewrite (save_config_other_guild io files g g' c) by congruence.
    reflexivity.
Qed.

Lemma save_config_then_get_config_witness :
  get_config (save_config Written ∅ 7 Sample.one_warning) 7
  = Ok Sample.one_warning
  /\ get_config (save_config Written ∅ 7 Sample.one_warning) 8
     = get_config ∅ 8.
Proof.
  assert (Hne : 8 <> 7) by discriminate.
  exact (save_config_then_get_config Written ∅ 7 8 Sample.one_warning Hne).
Defined.

End StoreFacts.

(** ** [warn]: what is written and what is not *)

Module WarnLedgerFacts.
Import Py ConfigManager DurationParser Moderation Props Sample.
Import DurationParserFacts ConfigFacts WarnFacts ClearFacts LedgerFacts.

Section Frames.
Context {role : Type}.
Variable role_le : role -> role -> bool.
Variable lim : int_max_str_digits.

(** The auto-action block leaves the files alone and only adds events, none
    of which is a write. *)
Lemma auto_action_frame (me : permissions) (m : @member role) (c : config)
    (n : nat) (w : world) :
  fs (fst (auto_action lim me m c n w)) = fs w
  /\ exists evs : list event,
       trace (fst (auto_action lim me m c n w)) = trace w ++ evs
       /\ forall g c', SaveConfig g c' ∉ evs.
Proof.
  unfold auto_action.
  destruct (auto_action_triggers c n).
  2: { split; [reflexivity|]. exists []. rewrite app_nil_r.
       split; [reflexivity|]. intros g c' Hin. inversion Hin. }
  unfold seq, emit, lift, ret. simpl.
  repeat
    (match goal with
     | |- context [if ?b then _ else _] => destruct b
     | |- context [match parse_duration ?l ?s with _ => _ end] =>
         destruct (parse_duration l s) as [[d|]|e]
     end; simpl);
  (split; [reflexivity|]);
  rewrite <- ?app_assoc; simpl; eexists; (split; [reflexivity|]);
  intros g c' Hin; rewrite ?elem_of_cons, elem_of_nil in Hin;
  intuition discriminate.
Qed.

Lemma user_warnings_add_warning_other (c : config) (u u' : string)
    (e : warning) :
  u' <> u -> user_warnings (add_warning c u e) u' = user_warnings c u'.
Proof.
  intros Hne. unfold user_warnings, add_warning. simpl.
  rewrite lookup_insert_ne by congruence. reflexivity.
Qed.

Lemma run_warn_raises (io : write_outcome) (now : Z) (ctx : @context role)
    (m : @member role) (reason : string) (files : store) (e : exn) :
  reason <> EmptyString ->
  _check_moderation_permissions role_le ctx m = None ->
  get_config files (guild_id ctx) = Raise e ->
  run (warn role_le lim io now ctx m (Some reason)) files
  = (World files [], Raise e).
Proof.
  intros Hreason Hcheck Hget. unfold run, warn.
  destruct reason as [|a s]; [congruence|]. rewrite Hcheck.
  unfold seq, await_get_config. simpl. rewrite Hget. reflexivity.
Qed.

End Frames.

(** X4.  An accepted [warn] whose write succeeds appends exactly one record
    to the member's stored list (moderator, reason, and the current time as
    both timestamp and id), leaves every other user's list as it was, keeps
    the three auto-action settings, and reports the new length. *)
Theorem warn_appends_one_record
    {role : Type} (role_le : role -> role -> bool) (lim : int_max_str_digits)
    (now : Z) (ctx : @context role) (m : @member role) (reason : string)
    (files : store) (c : config) (u' : string) :
  reason <> EmptyString ->
  _check_moderation_permissions role_le ctx m = None ->
  get_config files (guild_id ctx) = Ok c ->
  u' <> str (member_id m) ->
  let u := str (member_id m) in
  let e := Warning (Some (member_id (author ctx))) (Some reason)
                   (Some now) (Some now) in
  let w := run (warn role_le lim Written now ctx m (Some reason)) files in
  stored_warnings (fs (fst w)) (guild_id ctx) u = user_warnings c u ++ [e]
  /\ stored_warnings (fs (fst w)) (guild_id ctx) u' = user_warnings c u'
  /\ (exists c', get_config (fs (fst w)) (guild_id ctx) = Ok c'
                 /\ warn_threshold c' = warn_threshold c
                 /\ warn_action c' = warn_action c
                 /\ warn_timeout_duration c' = warn_timeout_duration c)
  /\ Send (Warned (S (length (user_warnings c u)))) ∈ trace (fst w).
Proof.
  intros Hreason Hcheck Hget Hne u e w. subst w.
  rewrite (run_warn_accepted role_le lim Written now ctx m reason files c
             Hreason Hcheck Hget).
  fold u. change (new_entry (member_id (author ctx)) reason now) with e.
  set (c' := add_warning c u e).
  set (w0 := World _ _).
  destruct (auto_action_frame lim (bot_permissions ctx) m c'
              (S (length (user_warnings c u))) w0)
    as (Hfs & evs & Htr & _).
  rewrite Hfs, Htr. subst w0. cbn [fs trace].
  rewrite !stored_warnings_after_save.
  split; [apply user_warnings_add_warning|].
  split; [apply user_warnings_add_warning_other, Hne|].
  split.
  - exists c'. split; [apply get_config_after_save|]. repeat split.
  - simpl. rewrite !elem_of_cons. right. left. reflexivity.
Qed.

Lemma warn_appends_one_record_witness :
  stored_warnings
    (fs (fst (run (warn Z.leb NoLimit Written 1001 ctx target (Some "again"))
                  files_two_warnings))) 7 "3"
  = [first_warning; second_warning; new_entry 2 "again" 1001].
Proof.
  assert (Hreason : "again" <> EmptyString) by discriminate.
  assert (Hcheck : _check_moderation_permissions Z.leb ctx target = None)
    by reflexivity.
  assert (Hget : get_config files_two_warnings (guild_id ctx) = Ok two_warnings)
    by reflexivity.
  assert (Hne : "4" <> str (member_id target)) by discriminate.
  exact (proj1 (warn_appends_one_record Z.leb NoLimit 1001 ctx target "again"
                  files_two_warnings two_warnings "4"
                  Hreason Hcheck Hget Hne)).
Defined.

(** X5.  When the file cannot be opened for writing, an accepted [warn]
    still answers with the count it computed in memory: the stored list
    keeps its length [n] while the message says [n + 1]. *)
Theorem warn_reports_unsaved_count
    {role : Type} (role_le : role -> role -> bool) (lim : int_max_str_digits)
    (now : Z) (ctx : @context role) (m : @member role) (reason : string)
    (files : store) (c : config) :
  reason <> EmptyString ->
  _check_moderation_permissions role_le ctx m = None ->
  get_config files (guild_id ctx) = Ok c ->
  let u := str (member_id m) in
  let w := run (warn role_le lim OpenFailed now ctx m (Some reason)) files in
  fs (fst w) = files
  /\ stored_warnings (fs (fst w)) (guild_id ctx) u = user_warnings c u
  /\ Send (Warned (S (length (user_warnings c u)))) ∈ trace (fst w).
Proof.
  intros Hreason Hcheck Hget u w. subst w.
  rewrite (run_warn_accepted role_le lim OpenFailed now ctx m reason files c
             Hreason Hcheck Hget).
  fold u. set (c' := add_warning c u _). set (w0 := World _ _).
  destruct (auto_action_frame lim (bot_permissions ctx) m c'
              (S (length (user_warnings c u))) w0)
    as (Hfs & evs & Htr & _).
  rewrite Hfs, Htr. subst w0. simpl.
  split; [reflexivity|].
  split; [apply stored_warnings_get_config, Hget|].
  rewrite !elem_of_cons. right. left. reflexivity.
Qed.

Lemma warn_reports_unsaved_count_witness :
  let w := run (warn Z.leb NoLimit OpenFailed 1001 ctx target (Some "again"))
               files_two_warnings in
  fs (fst w) = files_two_warnings /\ Send (Warned 3) ∈ trace (fst w).
Proof.
  assert (Hreason : "again" <> EmptyString) by discriminate.
  assert (Hcheck : _check_moderation_permissions Z.leb ctx target = None)
    by reflexivity.
  assert (Hget : get_config files_two_warnings (guild_id ctx) = Ok two_warnings)
    by reflexivity.
  destruct (warn_reports_unsaved_count Z.leb NoLimit 1001 ctx target "again"
              files_two_warnings two_warnings Hreason Hcheck Hget)
    as (Hfs & _ & Hsend).
  split; [exact Hfs|exact Hsend].
Defined.

End WarnLedgerFacts.

(** ** [warn]: scope of its effects *)

Module WarnScopeFacts.
Import Py ConfigManager DurationParser Moderation Props Sample.
Import DurationParserFacts ConfigFacts WarnFacts ClearFacts LedgerFacts
       WarnLedgerFacts.

Section Scope.
Context {role : Type}.
Variable role_le : role -> role -> bool.
Variable lim : int_max_str_digits.

(** The four ways a run of [warn] can go. *)
Lemma run_warn_cases (io : write_outcome) (now : Z) (ctx : @context role)
    (m : @member role) (reason : option string) (files : store) :
  let w := run (warn role_le lim io now ctx m reason) files in
  (exists r, w = (World files [Send r], Ok tt))
  \/ (exists e, w = (World files [], Raise e))
  \/ (exists (text : string) (c : config),
        reason = Some text /\ text <> EmptyString
        /\ _check_moderation_permissions role_le ctx m = None
        /\ get_config files (guild_id ctx) = Ok c
        /\ let c' := add_warning c (str (member_id m))
                       (new_entry (member_id (author ctx)) text now) in
           let n := S (length (user_warnings c (str (member_id m)))) in
           w = auto_action lim (bot_permissions ctx) m c' n
                 (World (save_config io files (guild_id ctx) c')
                        [SaveConfig (guild_id ctx) c'; Send (Warned n)])).
Proof.
  intros w. subst w.
  destruct reason as [[|a s]|]; [left; eexists; reflexivity| |
                                 left; eexists; reflexivity].
  destruct (_check_moderation_permissions role_le ctx m) as [r|] eqn:Hcheck.
  { left. exists (Rejected r). unfold run, warn. rewrite Hcheck. reflexivity. }
  assert (Hreason : String a s <> EmptyString) by discriminate.
  destruct (get_config files (guild_id ctx)) as [c|e] eqn:Hget.
  - right. right. exists (String a s), c.
    repeat split; try assumption.
    apply (run_warn_accepted role_le lim io now ctx m (String a s) files c
             Hreason Hcheck Hget).
  - right. left. exists e.
    apply (run_warn_raises role_le lim io now ctx m (String a s) files e
             Hreason Hcheck Hget).
Qed.

Lemma no_empty_entry_add_warning (c : config) (u : string) (e : warning) :
  no_empty_entry c -> no_empty_entry (add_warning c u e).
Proof.
  intros Hinv ws u' l Hws Hl. simpl in Hws. injection Hws as <-.
  destruct (decide (u = u')) as [<-|Hne].
  - rewrite lookup_insert_eq in Hl. injection Hl as <-.
    intros Hnil. apply app_eq_nil in Hnil as [_ Hnil]. discriminate Hnil.
  - rewrite lookup_insert_ne in Hl by exact Hne.
    destruct (warnings c) as [ws0|] eqn:Hc; simpl in Hl.
    + exact (Hinv ws0 u' l Hc Hl).
    + rewrite lookup_empty in Hl. discriminate Hl.
Qed.

End Scope.

(** X6.  [warn] calls [save_config] only for an accepted request (a
    non-empty reason and a passed eligibility check) and only for the guild
    of the invocation; whatever its arguments and however the write goes,
    the files of other guilds are the same afterwards. *)
Theorem warn_writes_only_when_accepted
    {role : Type} (role_le : role -> role -> bool) (lim : int_max_str_digits)
    (io : write_outcome) (now : Z) (ctx : @context role) (m : @member role)
    (reason : option string) (files : store) (g : Z) (c' : config) (g' : Z) :
  let w := run (warn role_le lim io now ctx m reason) files in
  g' <> guild_id ctx ->
  fs (fst w) !! g' = files !! g'
  /\ (SaveConfig g c' ∈ trace (fst w) ->
      g = guild_id ctx
      /\ _check_moderation_permissions role_le ctx m = None
      /\ exists text, reason = Some text /\ text <> EmptyString).
Proof.
  intros w Hne.
  destruct (run_warn_cases role_le lim io now ctx m reason files)
    as [(r & Hw) | [(e & Hw) | (text & c & Hr & Htext & Hcheck & Hget & Hw)]];
    fold w in Hw.
  - rewrite Hw. simpl. split; [reflexivity|].
    intros Hin. apply list_elem_of_singleton in Hin. discriminate Hin.
  - rewrite Hw. simpl. split; [reflexivity|]. intros Hin. inversion Hin.
  - cbv zeta in Hw. rewrite Hw.
    set (c1 := add_warning c _ _) in *.
    set (n := S _) in *.
    set (w0 := World _ _) in *.
    destruct (auto_action_frame lim (bot_permissions ctx) m c1 n w0)
      as (Hfs & evs & Htr & Hnosave).
    rewrite Hfs, Htr. subst w0. cbn [fs trace]. split.
    + apply save_config_other_guild. congruence.
    + intros Hin. rewrite elem_of_app, !elem_of_cons, elem_of_nil in Hin.
      destruct Hin as [[Heq|[Heq|[]]]|Hin].
      * injection Heq as -> _. eauto.
      * discriminate Heq.
      * exfalso. exact (Hnosave g c' Hin).
Qed.

Lemma warn_writes_only_when_accepted_witness :
  fs (fst (run (warn Z.leb NoLimit Written 1001 ctx target (Some "again"))
               files_two_warnings)) !! 8
  = files_two_warnings !! 8.
Proof.
  assert (Hne : 8 <> guild_id ctx) by discriminate.
  exact (proj1 (warn_writes_only_when_accepted Z.leb NoLimit Written 1001 ctx
                  target (Some "again") files_two_warnings 7 two_warnings 8
                  Hne)).
Defined.

(** X7.  [warn] keeps the stored configurations free of users listed with an
    empty sequence of warnings, whatever its arguments and however the
    write goes. *)
Theorem warn_keeps_no_empty_entry
    {role : Type} (role_le : role -> role -> bool) (lim : int_max_str_digits)
    (io : write_outcome) (now : Z) (ctx : @context role) (m : @member role)
    (reason : option string) (files : store) :
  store_no_empty_entry files ->
  store_no_empty_entry
    (fs (fst (run (warn role_le lim io now ctx m reason) files))).
Proof.
  intros Hinv.
  destruct (run_warn_cases role_le lim io now ctx m reason files)
    as [(r & Hw) | [(e & Hw) | (text & c & Hr & Htext & Hcheck & Hget & Hw)]].
  - rewrite Hw. exact Hinv.
  - rewrite Hw. exact Hinv.
  - cbv zeta in Hw. rewrite Hw.
    rewrite (proj1 (auto_action_frame lim _ _ _ _ _)). cbn [fs].
    apply store_no_empty_entry_save; [exact Hinv|].
    apply no_empty_entry_add_warning.
    exact (no_empty_entry_get_config files _ c Hinv Hget).
Qed.

Lemma warn_keeps_no_empty_entry_witness :
  store_no_empty_entry
    (fs (fst (run (warn Z.leb NoLimit Written 1001 ctx target (Some "again"))
                  ∅))).
Proof.
  assert (Hinv : store_no_empty_entry (∅ : store)).
  { intros g c Hg. rewrite lookup_empty in Hg. discriminate Hg. }
  exact (warn_keeps_no_empty_entry Z.leb NoLimit Written 1001 ctx target
           (Some "again") ∅ Hinv).
Defined.

End WarnScopeFacts.

(** ** [warn]: what the auto-action may request *)

Module EnforcementFacts.
Import Py ConfigManager DurationParser Moderation Props Sample Sample2.
Import Enforcement.
Import DurationParserFacts ConfigFacts WarnFacts WarnLedgerFacts WarnScopeFacts.

Section Guarded.
Context {role : Type}.
Variable lim : int_max_str_digits.

Lemma guarded_nil (me : permissions) (uid : Z) : guarded me uid [].
Proof. intros e Hin. inversion Hin. Qed.

Lemma guarded_cons (me : permissions) (uid : Z) (e : event) (evs : list event) :
  match e with
  | MemberTimeout u d =>
      u = uid /\ moderate_members me = true /\ 0 < total_seconds d <= 2419200
  | MemberKick u => u = uid /\ kick_members me = true
  | MemberBan u => u = uid /\ ban_members me = true
  | _ => True
  end ->
  guarded me uid evs -> guarded me uid (e :: evs).
Proof.
  intros He Hevs e' Hin. apply elem_of_cons in Hin as [-> | Hin];
    [exact He|exact (Hevs e' Hin)].
Qed.

Lemma auto_action_guarded (me : permissions) (m : @member role) (c : config)
    (n : nat) (w : world) :
  exists evs : list event,
    trace (fst (auto_action lim me m c n w)) = trace w ++ evs
    /\ guarded me (member_id m) evs.
Proof.
  unfold auto_action.
  destruct (auto_action_triggers c n).
  2: { exists []. rewrite app_nil_r. split; [reflexivity|apply guarded_nil]. }
  unfold seq, emit, lift, ret. cbn [fst snd trace fs].
  destruct (String.eqb _ "timeout" && moderate_members me) eqn:Htimeout.
  { apply andb_prop in Htimeout as [_ Hperm].
    destruct (parse_duration lim _) as [[d|]|e] eqn:Hparse; cbn.
    - pose proof (parse_duration_bounded _ _ _ Hparse) as Hd.
      destruct (td_truthy d && td_gt d (Timedelta 0) && td_le d days28); cbn;
        rewrite <- ?app_assoc; eexists; (split; [reflexivity|]);
        repeat (apply guarded_cons; [try exact I; auto|]); apply guarded_nil.
    - rewrite <- ?app_assoc; eexists; (split; [reflexivity|]).
      repeat (apply guarded_cons; [exact I|]); apply guarded_nil.
    - eexists; (split; [reflexivity|]).
      repeat (apply guarded_cons; [exact I|]); apply guarded_nil. }
  destruct (String.eqb _ "kick" && kick_members me) eqn:Hkick.
  { apply andb_prop in Hkick as [_ Hperm]. cbn.
    rewrite <- ?app_assoc; eexists; (split; [reflexivity|]).
    repeat (apply guarded_cons; [try exact I; auto|]); apply guarded_nil. }
  destruct (String.eqb _ "ban" && ban_members me) eqn:Hban.
  { apply andb_prop in Hban as [_ Hperm]. cbn.
    rewrite <- ?app_assoc; eexists; (split; [reflexivity|]).
    repeat (apply guarded_cons; [try exact I; auto|]); apply guarded_nil. }
  cbn. eexists; (split; [reflexivity|]).
  repeat (apply guarded_cons; [exact I|]); apply guarded_nil.
Qed.

End Guarded.

(** X8.  Whatever the stored settings hold and whatever the arguments,
    [warn] requests a timeout only when the bot has [moderate_members], and
    then for a duration between one second and 28 days; it requests a kick
    only with [kick_members] and a ban only with [ban_members]; and every
    such request is aimed at the warned member. *)
Theorem warn_requests_are_guarded
    {role : Type} (role_le : role -> role -> bool) (lim : int_max_str_digits)
    (io : write_outcome) (now : Z) (ctx : @context role) (m : @member role)
    (reason : option string) (files : store) :
  guarded (bot_permissions ctx) (member_id m)
    (trace (fst (run (warn role_le lim io now ctx m reason) files))).
Proof.
  destruct (run_warn_cases role_le lim io now ctx m reason files)
    as [(r & Hw) | [(e & Hw) | (text & c & Hr & Htext & Hcheck & Hget & Hw)]].
  - rewrite Hw. apply guarded_cons; [exact I|apply guarded_nil].
  - rewrite Hw. apply guarded_nil.
  - cbv zeta in Hw. rewrite Hw.
    destruct (auto_action_guarded lim (bot_permissions ctx) m
                (add_warning c (str (member_id m))
                   (new_entry (member_id (author ctx)) text now))
                (S (length (user_warnings c (str (member_id m)))))
                (World (save_config io files (guild_id ctx)
                          (add_warning c (str (member_id m))
                             (new_entry (member_id (author ctx)) text now)))
                       [SaveConfig (guild_id ctx)
                          (add_warning c (str (member_id m))
                             (new_entry (member_id (author ctx)) text now));
                        Send (Warned
                                (S (length (user_warnings c
                                              (str (member_id m))))))]))
      as (evs & -> & Hevs).
    cbn [trace]. cbn [app].
    apply guarded_cons; [exact I|]. apply guarded_cons; [exact I|]. exact Hevs.
Qed.

(** A triggered timeout whose stored duration does not parse. *)
Lemma warn_with_unparsable_duration_helper
    {role : Type} (role_le : role -> role -> bool) (lim : int_max_str_digits)
    (io : write_outcome) (now : Z) (ctx : @context role) (m : @member role)
    (reason : string) (files : store) (c : config) :
  reason <> EmptyString ->
  _check_moderation_permissions role_le ctx m = None ->
  get_config files (guild_id ctx) = Ok c ->
  auto_action_triggers c (S (length (user_warnings c (str (member_id m)))))
  = true ->
  lower (default "none" (warn_action c)) = "timeout" ->
  moderate_members (bot_permissions ctx) = true ->
  parse_duration lim (default "1h" (warn_timeout_duration c)) = Ok None ->
  let n := S (length (user_warnings c (str (member_id m)))) in
  let c' := add_warning c (str (member_id m))
              (new_entry (member_id (author ctx)) reason now) in
  run (warn role_le lim io now ctx m (Some reason)) files
  = (World (save_config io files (guild_id ctx) c')
           [SaveConfig (guild_id ctx) c'; Send (Warned n);
            PrintTriggering n (default 0 (warn_threshold c)) "timeout";
            LogConfigError (default "1h" (warn_timeout_duration c))],
     Ok tt).
Proof.
  intros Hreason Hcheck Hget Htrig Hact Hperm Hparse n c'.
  rewrite (run_warn_accepted role_le lim io now ctx m reason files c
             Hreason Hcheck Hget).
  fold n c'. unfold auto_action.
  change (auto_action_triggers c' n) with (auto_action_triggers c n).
  change (warn_action c') with (warn_action c).
  change (warn_timeout_duration c') with (warn_timeout_duration c).
  change (warn_threshold c') with (warn_threshold c).
  subst n. rewrite Htrig, Hact, Hperm, Hparse. reflexivity.
Qed.

(** X9.  When the auto-action is a timeout, the bot may moderate members and
    the stored duration does not parse, a warning that reaches the threshold
    requests nothing: the only effects after the confirmation are the
    console line and one configuration-error entry in the moderation log. *)
Theorem warn_with_unparsable_duration
    {role : Type} (role_le : role -> role -> bool) (lim : int_max_str_digits)
    (io : write_outcome) (now : Z) (ctx : @context role) (m : @member role)
    (reason : string) (files : store) (c : config) :
  reason <> EmptyString ->
  _check_moderation_permissions role_le ctx m = None ->
  get_config files (guild_id ctx) = Ok c ->
  auto_action_triggers c (S (length (user_warnings c (str (member_id m)))))
  = true ->
  lower (default "none" (warn_action c)) = "timeout" ->
  moderate_members (bot_permissions ctx) = true ->
  parse_duration lim (default "1h" (warn_timeout_duration c)) = Ok None ->
  let n := S (length (user_warnings c (str (member_id m)))) in
  let c' := add_warning c (str (member_id m))
              (new_entry (member_id (author ctx)) reason now) in
  run (warn role_le lim io now ctx m (Some reason)) files
  = (World (save_config io files (guild_id ctx) c')
           [SaveConfig (guild_id ctx) c'; Send (Warned n);
            PrintTriggering n (default 0 (warn_threshold c)) "timeout";
            LogConfigError (default "1h" (warn_timeout_duration c))],
     Ok tt).
Proof.
  intros Hreason Hcheck Hget Htrig Hact Hperm Hparse.
  exact (warn_with_unparsable_duration_helper role_le lim io now ctx m reason
           files c Hreason Hcheck Hget Htrig Hact Hperm Hparse).
Qed.

Lemma warn_with_unparsable_duration_witness :
  trace (fst (run (warn Z.leb NoLimit Written 1000 ctx target (Some "spam"))
                  files_edited_by_hand))
  = [SaveConfig 7 (add_warning edited_by_hand "3" first_warning);
     Send (Warned 1); PrintTriggering 1 1 "timeout"; LogConfigError "soon"].
Proof.
  assert (Hreason : "spam" <> EmptyString) by discriminate.
  assert (Hcheck : _check_moderation_permissions Z.leb ctx target = None)
    by reflexivity.
  assert (Hget : get_config files_edited_by_hand (guild_id ctx)
                 = Ok edited_by_hand) by reflexivity.
  assert (Htrig : auto_action_triggers edited_by_hand
                    (S (length (user_warnings edited_by_hand
                                  (str (member_id target))))) = true)
    by reflexivity.
  assert (Hact : lower (default "none" (warn_action edited_by_hand))
                 = "timeout") by reflexivity.
  assert (Hperm : moderate_members (bot_permissions ctx) = true)
    by reflexivity.
  assert (Hparse : parse_duration NoLimit
                     (default "1h" (warn_timeout_duration edited_by_hand))
                   = Ok None) by reflexivity.
  exact (f_equal (fun w => trace (fst w))
           (warn_with_unparsable_duration Z.leb NoLimit Written 1000 ctx target
              "spam" files_edited_by_hand edited_by_hand
              Hreason Hcheck Hget Htrig Hact Hperm Hparse)).
Defined.

End EnforcementFacts.

(** ** [clearwarns]: repetition, [all], other users, bad references *)

Module ClearScopeFacts.
Import Py ConfigManager DurationParser Moderation Props Sample.
Import ConfigFacts WarnFacts ClearFacts LedgerFacts.

Section Scope.
Context {role : Type}.
Variable lim : int_max_str_digits.

(** A numeric reference that matches no record: one message, nothing else. *)
Lemma run_clearwarns_no_match (io : write_outcome) (ctx : @context role)
    (m : @member role) (ref : string) (t : Z) (files : store) (c : config) :
  get_config files (guild_id ctx) = Ok c ->
  int lim ref = Some t ->
  Forall (fun w => warning_key w <> t) (user_warnings c (str (member_id m))) ->
  run (clearwarns lim io ctx m ref) files
  = (World files
           [Send (match user_warnings c (str (member_id m)) with
                  | [] => NoWarningsToClear
                  | _ :: _ => WarningIdNotFound t
                  end)],
     Ok tt).
Proof.
  intros Hget Hint Hnone.
  pose proof (numeric_is_not_all lim ref t Hint) as Hall.
  destruct (user_warnings c (str (member_id m))) as [|w l] eqn:Huw.
  - apply (run_clearwarns_none lim io ctx m ref files c Hget Huw).
  - assert (Hne : user_warnings c (str (member_id m)) <> [])
      by (rewrite Huw; discriminate).
    rewrite (run_clearwarns_id lim io ctx m ref files c t Hget Hne Hall Hint).
    rewrite Huw. apply nothing_removed_iff in Hnone. rewrite Hnone.
    reflexivity.
Qed.

Lemma user_warnings_put_warnings_other (c : config) (u u' : string)
    (l : list warning) :
  u' <> u -> user_warnings (put_warnings c u l) u' = user_warnings c u'.
Proof.
  intros Hne. unfold user_warnings, put_warnings. destruct l; simpl.
  - rewrite lookup_delete_ne by congruence. reflexivity.
  - rewrite lookup_insert_ne by congruence. reflexivity.
Qed.

Lemma filter_none_left (t : Z) (l : list warning) :
  Forall (fun w => warning_key w <> t)
         (filter (fun w => warning_key w <> t) l).
Proof.
  apply Forall_forall. intros w Hin.
  apply list_elem_of_filter in Hin as [Hw _]. exact Hw.
Qed.

End Scope.

(** X10.  Clearing the same numeric id twice: after a first [clearwarns]
    whose write succeeded, a second one with the same reference finds
    nothing to remove; it leaves the files as they are and only answers
    that the id was not found or that the member has no warnings. *)
Theorem clearwarns_twice
    {role : Type} (lim : int_max_str_digits) (io : write_outcome)
    (ctx : @context role) (m : @member role) (ref : string) (t : Z)
    (files : store) (c : config) :
  get_config files (guild_id ctx) = Ok c ->
  int lim ref = Some t ->
  let w1 := run (clearwarns lim Written ctx m ref) files in
  let w2 := run (clearwarns lim io ctx m ref) (fs (fst w1)) in
  fs (fst w2) = fs (fst w1)
  /\ snd w2 = Ok tt
  /\ (trace (fst w2) = [Send NoWarningsToClear]
      \/ trace (fst w2) = [Send (WarningIdNotFound t)]).
Proof.
  intros Hget Hint w1 w2.
  pose proof (numeric_is_not_all lim ref t Hint) as Hall.
  set (u := str (member_id m)).
  assert (Hafter : exists c1,
             get_config (fs (fst w1)) (guild_id ctx) = Ok c1
             /\ Forall (fun w => warning_key w <> t) (user_warnings c1 u)).
  { subst w1. destruct (user_warnings c u) as [|x l] eqn:Huw.
    - rewrite (run_clearwarns_none lim Written ctx m ref files c Hget Huw).
      exists c. split; [exact Hget|]. fold u in Huw. rewrite Huw. constructor.
    - assert (Hne : user_warnings c u <> []) by (rewrite Huw; discriminate).
      rewrite (run_clearwarns_id lim Written ctx m ref files c t
                 Hget Hne Hall Hint).
      fold u. destruct (Nat.ltb 0 _) eqn:Hpos.
      + eexists. split; [apply get_config_after_save|].
        rewrite user_warnings_put_warnings. apply filter_none_left.
      + exists c. split; [exact Hget|].
        apply nothing_removed_iff in Hpos. exact Hpos. }
  destruct Hafter as (c1 & Hget1 & Hnone).
  subst w2.
  rewrite (run_clearwarns_no_match lim io ctx m ref t (fs (fst w1)) c1
             Hget1 Hint Hnone).
  cbn [fst snd fs trace]. split; [reflexivity|]. split; [reflexivity|].
  destruct (user_warnings c1 (str (member_id m))); auto.
Qed.

Lemma clearwarns_twice_witness :
  let w1 := run (clearwarns NoLimit Written ctx target "1000")
                files_two_warnings in
  let w2 := run (clearwarns NoLimit Written ctx target "1000") (fs (fst w1)) in
  fs (fst w2) = fs (fst w1).
Proof.
  assert (Hget : get_config files_two_warnings (guild_id ctx) = Ok two_warnings)
    by reflexivity.
  assert (Hint : int NoLimit "1000" = Some 1000) by reflexivity.
  exact (proj1 (clearwarns_twice NoLimit Written ctx target "1000" 1000
                  files_two_warnings two_warnings Hget Hint)).
Defined.

(** X11.  [clearwarns] with the reference "all" (in any letter case) and a
    successful write leaves the member without stored warnings and without
    a key, and the confirmation carries the number of warnings the member
    had; for a member without warnings nothing is written. *)
Theorem clearwarns_all
    {role : Type} (lim : int_max_str_digits) (ctx : @context role)
    (m : @member role) (ref : string) (files : store) (c : config) :
  get_config files (guild_id ctx) = Ok c ->
  lower ref = "all" ->
  let u := str (member_id m) in
  let n := length (user_warnings c u) in
  let w := run (clearwarns lim Written ctx m ref) files in
  stored_warnings (fs (fst w)) (guild_id ctx) u = []
  /\ (n = 0%nat -> w = (World files [Send NoWarningsToClear], Ok tt))
  /\ (n <> 0%nat ->
      Send (Cleared (ClearedAll n)) ∈ trace (fst w)
      /\ exists c', get_config (fs (fst w)) (guild_id ctx) = Ok c'
                    /\ ~ has_key c' u).
Proof.
  intros Hget Hall u n w. subst w n.
  destruct (user_warnings c u) as [|x l] eqn:Huw.
  - rewrite (run_clearwarns_none lim Written ctx m ref files c Hget Huw).
    cbn [fst fs]. split.
    + rewrite (stored_warnings_get_config files _ u c Hget). exact Huw.
    + split; [reflexivity|]. intros Hn. exfalso. apply Hn. reflexivity.
  - assert (Hne : user_warnings c u <> []) by (rewrite Huw; discriminate).
    rewrite (run_clearwarns_all lim Written ctx m ref files c Hget Hne Hall).
    fold u. rewrite Huw. cbn [fst fs trace]. split.
    + rewrite stored_warnings_after_save. apply user_warnings_put_warnings.
    + split; [intros Hn; discriminate Hn|]. intros _. split.
      * rewrite !elem_of_cons. right. left. reflexivity.
      * eexists. split; [apply get_config_after_save|].
        intros (ws & l' & Hws & Hl). simpl in Hws. injection Hws as <-.
        rewrite lookup_delete_eq in Hl. discriminate Hl.
Qed.

Lemma clearwarns_all_witness :
  let w := run (clearwarns NoLimit Written ctx target "ALL")
               files_two_warnings in
  stored_warnings (fs (fst w)) 7 "3" = []
  /\ Send (Cleared (ClearedAll 2)) ∈ trace (fst w).
Proof.
  assert (Hget : get_config files_two_warnings (guild_id ctx) = Ok two_warnings)
    by reflexivity.
  assert (Hall : lower "ALL" = "all") by reflexivity.
  assert (Hn : length (user_warnings two_warnings (str (member_id target)))
               <> 0%nat) by discriminate.
  destruct (clearwarns_all NoLimit ctx target "ALL" files_two_warnings
              two_warnings Hget Hall) as (Hstored & _ & Hsome).
  split; [exact Hstored|exact (proj1 (Hsome Hn))].
Defined.

(** X12.  Unless the dump fails half-way, [clearwarns] leaves the stored
    warnings of every other user, and the files of every other guild, as
    they were. *)
Theorem clearwarns_other_users
    {role : Type} (lim : int_max_str_digits) (io : write_outcome)
    (ctx : @context role) (m : @member role) (ref : string) (files : store)
    (u' : string) (g' : Z) :
  io <> DumpFailed ->
  u' <> str (member_id m) ->
  g' <> guild_id ctx ->
  let w := run (clearwarns lim io ctx m ref) files in
  stored_warnings (fs (fst w)) (guild_id ctx) u'
  = stored_warnings files (guild_id ctx) u'
  /\ fs (fst w) !! g' = files !! g'.
Proof.
  intros Hio Hu Hg w.
  destruct (clearwarns_final_store lim io ctx m ref files)
    as [Hsame | (c' & Hin & Hfs)]; fold w in Hsame || fold w in Hin, Hfs.
  - rewrite Hsame. auto.
  - rewrite Hfs. split; [|apply save_config_other_guild; congruence].
    destruct (clearwarns_saved_entry lim io ctx m ref files _ c' Hin)
      as (c & l & Hget & _ & ->).
    rewrite (stored_warnings_get_config files _ u' c Hget).
    destruct io; [|apply stored_warnings_get_config, Hget|congruence].
    rewrite stored_warnings_after_save.
    apply user_warnings_put_warnings_other, Hu.
Qed.

Lemma clearwarns_other_users_witness :
  stored_warnings
    (fs (fst (run (clearwarns NoLimit Written ctx target "all")
                  files_two_warnings))) 7 "4"
  = stored_warnings files_two_warnings 7 "4".
Proof.
  assert (Hio : Written <> DumpFailed) by discriminate.
  assert (Hu : "4" <> str (member_id target)) by discriminate.
  assert (Hg : 8 <> guild_id ctx) by discriminate.
  exact (proj1 (clearwarns_other_users NoLimit Written ctx target "all"
                  files_two_warnings "4" 8 Hio Hu Hg)).
Defined.

(** X13.  A reference that is neither "all" nor a number changes nothing:
    the only effect is one message, the invalid-input one when the member
    has warnings and the no-warnings one when the member has none. *)
Theorem clearwarns_bad_reference
    {role : Type} (lim : int_max_str_digits) (io : write_outcome)
    (ctx : @context role) (m : @member role) (ref : string) (files : store)
    (c : config) :
  get_config files (guild_id ctx) = Ok c ->
  lower ref <> "all" ->
  int lim ref = None ->
  run (clearwarns lim io ctx m ref) files
  = (World files
           [Send (match user_warnings c (str (member_id m)) with
                  | [] => NoWarningsToClear
                  | _ :: _ => InvalidInput ref
                  end)],
     Ok tt).
Proof.
  intros Hget Hall Hint.
  destruct (user_warnings c (str (member_id m))) as [|x l] eqn:Huw.
  - apply (run_clearwarns_none lim io ctx m ref files c Hget Huw).
  - assert (Hne : user_warnings c (str (member_id m)) <> [])
      by (rewrite Huw; discriminate).
    apply (run_clearwarns_invalid lim io ctx m ref files c Hget Hne Hall Hint).
Qed.

(** A word, and an id on file that is preceded by the separator U+001C:
    neither is a number for [int], so both get the invalid-input answer and
    the record stays. *)
Lemma clearwarns_bad_reference_witness :
  run (clearwarns NoLimit Written ctx target "first") files_two_warnings
  = (World files_two_warnings [Send (InvalidInput "first")], Ok tt)
  /\ run (clearwarns NoLimit Written ctx target (String "028" "1001"))
         files_one_warning
     = (World files_one_warning
              [Send (InvalidInput (String "028" "1001"))], Ok tt).
Proof.
  split.
  - assert (Hget : get_config files_two_warnings (guild_id ctx)
                   = Ok two_warnings) by reflexivity.
    assert (Hall : lower "first" <> "all") by discriminate.
    assert (Hint : int NoLimit "first" = None) by reflexivity.
    exact (clearwarns_bad_reference NoLimit Written ctx target "first"
             files_two_warnings two_warnings Hget Hall Hint).
  - assert (Hget : get_config files_one_warning (guild_id ctx)
                   = Ok one_warning) by reflexivity.
    assert (Hall : lower (String "028" "1001") <> "all") by discriminate.
    assert (Hint : int NoLimit (String "028" "1001") = None) by reflexivity.
    exact (clearwarns_bad_reference NoLimit Written ctx target
             (String "028" "1001") files_one_warning one_warning
             Hget Hall Hint).
Defined.

End ClearScopeFacts.

(** ** The [warnconfig] group *)

Module WarnConfigFacts.
Import Py ConfigManager DurationParser Moderation Props Sample Sample2.
Import WarnConfig.
Import DurationParserFacts ConfigFacts WarnFacts AutoActionFacts.

Section Settings.
Variable lim : int_max_str_digits.

Lemma valid_settings_default : valid_settings lim default_config.
Proof.
  split; [simpl; lia|]. split.
  - simpl. unfold valid_actions. rewrite !elem_of_cons. auto.
  - exists (Timedelta 3600). apply parse_one_hour.
Qed.

Lemma valid_settings_get_config (files : store) (g : Z) (c : config) :
  store_valid_settings lim files -> get_config files g = Ok c ->
  valid_settings lim c.
Proof.
  intros Hinv. unfold get_config, load.
  destruct (files !! g) as [[c0| | |]|] eqn:Hg; intros [= <-];
    [exact (Hinv g c0 Hg)|apply valid_settings_default..].
Qed.

Lemma store_valid_settings_save (io : write_outcome) (files : store) (g : Z)
    (c : config) :
  store_valid_settings lim files -> valid_settings lim c ->
  store_valid_settings lim (save_config io files g c).
Proof.
  intros Hfiles Hc g' c0. unfold save_config. destruct io.
  - destruct (decide (g = g')) as [<-|Hne].
    + rewrite lookup_insert_eq. intros [= <-]. exact Hc.
    + rewrite lookup_insert_ne by exact Hne. apply Hfiles.
  - apply Hfiles.
  - destruct (decide (g = g')) as [<-|Hne].
    + rewrite lookup_insert_eq. discriminate.
    + rewrite lookup_insert_ne by exact Hne. apply Hfiles.
Qed.

End Settings.

(** X14.  The three setters never store an unusable setting.  If every
    stored configuration has a non-negative threshold, one of the four
    actions and a duration that parses, the same holds after
    [warnconfig threshold], [warnconfig action] and [warnconfig duration],
    whatever the argument and however the write goes. *)
Theorem warnconfig_keeps_valid_settings (lim : int_max_str_digits)
    (io : write_outcome) (files : store) (g : Z) (count : Z)
    (action_type duration_str : string) :
  store_valid_settings lim files ->
  (forall files' out, warnconfig_threshold io files g count = Ok (files', out) ->
                      store_valid_settings lim files')
  /\ (forall files' out, warnconfig_action io files g action_type
                         = Ok (files', out) ->
                         store_valid_settings lim files')
  /\ (forall files' out, warnconfig_duration lim io files g duration_str
                         = Ok (files', out) ->
                         store_valid_settings lim files').
Proof.
  intros Hinv. split; [|split]; intros files' out.
  - unfold warnconfig_threshold.
    destruct (count <? 0) eqn:Hneg; [intros [= <- _]; exact Hinv|].
    destruct (get_config files g) as [c|e] eqn:Hget; [|discriminate].
    simpl. intros [= <- _].
    apply store_valid_settings_save; [exact Hinv|].
    destruct (valid_settings_get_config lim files g c Hinv Hget)
      as (_ & Hact & Hdur).
    split; [simpl; apply Z.ltb_ge in Hneg; exact Hneg|]. split; assumption.
  - unfold warnconfig_action.
    destruct (bool_decide (lower action_type ∈ valid_actions)) eqn:Hvalid;
      simpl; [|intros [= <- _]; exact Hinv].
    destruct (get_config files g) as [c|e] eqn:Hget; [|discriminate].
    simpl. intros [= <- _].
    apply store_valid_settings_save; [exact Hinv|].
    destruct (valid_settings_get_config lim files g c Hinv Hget)
      as (Hth & _ & Hdur).
    split; [exact Hth|]. split; [|exact Hdur].
    simpl. apply bool_decide_eq_true in Hvalid. exact Hvalid.
  - unfold warnconfig_duration.
    destruct (parse_duration lim duration_str) as [[d|]|e] eqn:Hparse;
      simpl; [|intros [= <- _]; exact Hinv|discriminate].
    destruct (td_le d (Timedelta 0)); [intros [= <- _]; exact Hinv|].
    destruct (get_config files g) as [c|e] eqn:Hget; [|discriminate].
    simpl. intros [= <- _].
    apply store_valid_settings_save; [exact Hinv|].
    destruct (valid_settings_get_config lim files g c Hinv Hget)
      as (Hth & Hact & _).
    split; [exact Hth|]. split; [exact Hact|].
    exists d. exact Hparse.
Qed.

Lemma warnconfig_keeps_valid_settings_witness :
  store_valid_settings NoLimit
    (<[7 := Json (set_warn_action default_config "kick")]> ∅).
Proof.
  assert (Hinv : store_valid_settings NoLimit (∅ : store)).
  { intros g c Hg. rewrite lookup_empty in Hg. discriminate Hg. }
  destruct (warnconfig_keeps_valid_settings NoLimit Written ∅ 7 0 "Kick" "1h"
              Hinv) as (_ & Haction & _).
  exact (Haction _ [ActionSet "kick"] eq_refl).
Defined.

(** X15.  A setting that a setter accepts is the one read back after a
    successful write, and the rest of the document, the warnings included,
    is as before; a negative threshold, a word that is not one of the four
    actions, and a duration that does not parse are turned down without a
    write. *)
Theorem warnconfig_round_trip (lim : int_max_str_digits) (files : store)
    (g : Z) (c : config) (count : Z) (action_type duration_str : string)
    (d : timedelta) :
  get_config files g = Ok c ->
  (count < 0 ->
   warnconfig_threshold Written files g count = Ok (files, [ThresholdNegative]))
  /\ (0 <= count ->
      exists files',
        warnconfig_threshold Written files g count
        = Ok (files', [ThresholdSet count])
        /\ get_config files' g = Ok (set_warn_threshold c count))
  /\ (lower action_type ∉ valid_actions ->
      warnconfig_action Written files g action_type
      = Ok (files, [InvalidActionType]))
  /\ (lower action_type ∈ valid_actions ->
      exists files',
        warnconfig_action Written files g action_type
        = Ok (files', [ActionSet (lower action_type)])
        /\ get_config files' g = Ok (set_warn_action c (lower action_type)))
  /\ (parse_duration lim duration_str = Ok None ->
      warnconfig_duration lim Written files g duration_str
      = Ok (files, [InvalidDuration duration_str]))
  /\ (parse_duration lim duration_str = Ok (Some d) ->
      exists files',
        warnconfig_duration lim Written files g duration_str
        = Ok (files', [DurationSet duration_str])
        /\ get_config files' g
           = Ok (set_warn_timeout_duration c duration_str)).
Proof.
  intros Hget. split; [|split; [|split; [|split; [|split]]]].
  - intros Hneg. unfold warnconfig_threshold.
    apply Z.ltb_lt in Hneg. rewrite Hneg. reflexivity.
  - intros Hpos. unfold warnconfig_threshold.
    apply Z.ltb_ge in Hpos. rewrite Hpos, Hget. simpl.
    eexists. split; [reflexivity|apply get_config_after_save].
  - intros Hbad. unfold warnconfig_action.
    rewrite bool_decide_eq_false_2 by exact Hbad. reflexivity.
  - intros Hgood. unfold warnconfig_action.
    rewrite bool_decide_eq_true_2 by exact Hgood. rewrite Hget. simpl.
    eexists. split; [reflexivity|apply get_config_after_save].
  - intros Hparse. unfold warnconfig_duration. rewrite Hparse. reflexivity.
  - intros Hparse. unfold warnconfig_duration. rewrite Hparse. simpl.
    pose proof (parse_duration_bounded _ _ _ Hparse) as [Hlo _].
    assert (Hle : td_le d (Timedelta 0) = false)
      by (unfold td_le; simpl; apply Z.leb_gt; exact Hlo).
    rewrite Hle, Hget. simpl.
    eexists. split; [reflexivity|apply get_config_after_save].
Qed.

Lemma warnconfig_round_trip_witness :
  exists files',
    warnconfig_action Written files_two_warnings 7 "BAN"
    = Ok (files', [ActionSet "ban"])
    /\ get_config files' 7 = Ok (set_warn_action two_warnings "ban").
Proof.
  assert (Hget : get_config files_two_warnings 7 = Ok two_warnings)
    by reflexivity.
  assert (Hin : lower "BAN" ∈ valid_actions).
  { unfold valid_actions. rewrite !elem_of_cons. auto. }
  destruct (warnconfig_round_trip NoLimit files_two_warnings 7 two_warnings 3
              "BAN" "1h" (Timedelta 3600) Hget) as (_ & _ & _ & Haction & _).
  exact (Haction Hin).
Defined.

End WarnConfigFacts.

(** ** The [warnings] command *)

Module WarningsListFacts.
Import Py ConfigManager Moderation Props Sample Sample2.
Import WarningsList.
Import ConfigFacts ClearFacts LedgerFacts.

Lemma insert_desc_perm (w : warning) (l : list warning) :
  Permutation (insert_desc w l) (w :: l).
Proof.
  induction l as [|y r IH]; simpl; [reflexivity|].
  destruct (timestamp_key y <=? timestamp_key w); [reflexivity|].
  rewrite IH. apply perm_swap.
Qed.

Lemma sorted_desc_perm (l : list warning) : Permutation (sorted_desc l) l.
Proof.
  induction l as [|w l IH]; simpl; [reflexivity|].
  rewrite insert_desc_perm, IH. reflexivity.
Qed.

Lemma insert_desc_sorted (w : warning) (l : list warning) :
  StronglySorted newer_first l -> StronglySorted newer_first (insert_desc w l).
Proof.
  induction 1 as [|y r Hr IH Hy]; simpl.
  - repeat constructor.
  - destruct (timestamp_key y <=? timestamp_key w) eqn:Hle.
    + apply Z.leb_le in Hle. constructor; [constructor; assumption|].
      constructor; [exact Hle|].
      eapply Forall_impl; [exact Hy|]. unfold newer_first. intros; lia.
    + apply Z.leb_gt in Hle. constructor; [exact IH|].
      assert (Hperm := insert_desc_perm w r).
      rewrite Hperm. constructor; [unfold newer_first; lia|exact Hy].
Qed.

Lemma sorted_desc_sorted (l : list warning) :
  StronglySorted newer_first (sorted_desc l).
Proof.
  induction l as [|w l IH]; simpl; [constructor|].
  apply insert_desc_sorted, IH.
Qed.

Lemma slice_to_length (n : nat) (s : string) :
  String.length (slice_to n s) = Nat.min n (String.length s).
Proof.
  revert s. induction n as [|n IH]; intros [|c r]; simpl; try reflexivity.
  rewrite IH. reflexivity.
Qed.

Lemma append_length (a b : string) :
  String.length (a +:+ b) = (String.length a + String.length b)%nat.
Proof. induction a as [|c a IH]; simpl; [reflexivity|]. rewrite IH. reflexivity. Qed.

Lemma display_reason_length (w : warning) :
  (String.length (display_reason w) <= 150)%nat.
Proof.
  unfold display_reason. cbv zeta.
  destruct (Nat.ltb 150 _) eqn:Hlong.
  - rewrite append_length, slice_to_length.
    change (String.length "...") with 3%nat.
    pose proof (Nat.le_min_l 147
                  (String.length (default "No reason recorded." (w_reason w)))).
    lia.
  - apply Nat.ltb_ge in Hlong. exact Hlong.
Qed.

Lemma sorted_split (l : list warning) (n : nat) :
  StronglySorted newer_first l ->
  forall a b, a ∈ take n l -> b ∈ drop n l -> newer_first a b.
Proof.
  intros Hs. revert n. induction Hs as [|y r Hr IH Hy]; intros n a b Ha Hb.
  - rewrite take_nil in Ha. inversion Ha.
  - destruct n as [|n]; [inversion Ha|]. simpl in Ha, Hb.
    apply elem_of_cons in Ha as [-> | Ha].
    + rewrite Forall_forall in Hy. apply Hy.
      exact (subseteq_drop n r b Hb).
    + exact (IH n a b Ha Hb).
Qed.

Lemma take_sorted (l : list warning) (n : nat) :
  StronglySorted newer_first l -> StronglySorted newer_first (take n l).
Proof.
  intros Hs. revert n. induction Hs as [|y r Hr IH Hy]; intros [|n]; simpl;
    try constructor.
  - apply IH.
  - rewrite Forall_forall in *. intros b Hb. apply Hy.
    exact (subseteq_take n r b Hb).
Qed.

Lemma insert_desc_oldest (w : warning) (l : list warning) :
  Forall (older w) l -> insert_desc w l = l ++ [w].
Proof.
  induction 1 as [|y r Hy _ IH]; simpl; [reflexivity|].
  unfold older in Hy. apply Z.leb_gt in Hy. rewrite Hy, IH. reflexivity.
Qed.

Lemma sorted_desc_reverse (l : list warning) :
  StronglySorted older l -> sorted_desc l = reverse l.
Proof.
  induction 1 as [|w l _ IH Hw]; simpl; [reflexivity|].
  rewrite reverse_cons, IH. apply insert_desc_oldest.
  rewrite Forall_forall in *. intros y Hy. apply Hw.
  rewrite elem_of_reverse in Hy. exact Hy.
Qed.

(** The id shown for a record is the key [clearwarns] compares. *)
Lemma shown_id_is_warning_key (total i : nat) (w : warning) :
  shown_id (make_field total i w) = warning_key w.
Proof.
  unfold make_field, warning_key. simpl. destruct (w_id w); reflexivity.
Qed.

Lemma warnings_nonempty (files : store) (g : Z) (u : string) (c : config) :
  get_config files g = Ok c ->
  user_warnings c u <> [] ->
  warnings files g u
  = Ok (Listing (length (user_warnings c u))
          (imap (make_field (length (user_warnings c u)))
                (take 10 (sorted_desc (user_warnings c u))))
          (Nat.ltb 10 (length (user_warnings c u)))).
Proof.
  intros Hget Hne. unfold warnings. rewrite Hget. simpl.
  unfold user_warnings in *.
  destruct (default [] _) as [|w l]; [congruence|]. reflexivity.
Qed.

(** X17.  For a member without warnings [warnings] answers that none is
    recorded.  Otherwise it shows the total and at most ten records: the
    ten newest by timestamp, newest first (every record left out is at
    least as old as every record shown), each with a reason of at most 150
    characters, and the footer says so when records were left out. *)
Theorem warnings_shows_the_newest (files : store) (g : Z) (u : string)
    (c : config) :
  get_config files g = Ok c ->
  (user_warnings c u = [] /\ warnings files g u = Ok NoRecordedWarnings)
  \/ exists shown rest : list warning,
       let total := length (user_warnings c u) in
       warnings files g u
       = Ok (Listing total (imap (make_field total) shown)
                     (Nat.ltb 10 total))
       /\ Permutation (shown ++ rest) (user_warnings c u)
       /\ length shown = Nat.min 10 total
       /\ StronglySorted newer_first shown
       /\ (forall a b, a ∈ shown -> b ∈ rest -> newer_first a b)
       /\ Forall (fun f => (String.length (shown_reason f) <= 150)%nat)
                 (imap (make_field total) shown).
Proof.
  intros Hget.
  destruct (user_warnings c u) as [|w l] eqn:Huw.
  { left. split; [reflexivity|]. unfold warnings. rewrite Hget. simpl.
    unfold user_warnings in Huw. rewrite Huw. reflexivity. }
  right. rewrite <- Huw.
  assert (Hne : user_warnings c u <> []) by (rewrite Huw; discriminate).
  exists (take 10 (sorted_desc (user_warnings c u))),
         (drop 10 (sorted_desc (user_warnings c u))).
  cbv zeta. split; [apply warnings_nonempty; assumption|].
  split; [rewrite take_drop; apply sorted_desc_perm|].
  split.
  { rewrite length_take. f_equal.
    apply Permutation_length, sorted_desc_perm. }
  split; [apply take_sorted, sorted_desc_sorted|].
  split; [apply sorted_split, sorted_desc_sorted|].
  apply Forall_forall. intros f Hf.
  apply elem_of_lookup_imap_1 in Hf as (i & x & -> & _).
  apply display_reason_length.
Qed.

Lemma warnings_shows_the_newest_witness :
  warnings files_two_warnings 7 "3"
  = Ok (Listing 2 [Field 2 1000 (Some 2) "spam" 1000;
                   Field 1 1000 (Some 2) "more spam" 1000] false).
Proof.
  assert (Hget : get_config files_two_warnings 7 = Ok two_warnings)
    by reflexivity.
  destruct (warnings_shows_the_newest files_two_warnings 7 "3" two_warnings
              Hget) as [[Hnil _] | _]; [discriminate Hnil|].
  reflexivity.
Defined.

(** X18.  When the member's records are stored with strictly increasing
    timestamps, the listing is the stored list read backwards, cut after
    ten, and the record shown under [#k] is the [k]-th one recorded. *)
Theorem warnings_numbering (files : store) (g : Z) (u : string) (c : config)
    (i : nat) (f : field) (fields : list field) (total : nat)
    (shortened : bool) :
  get_config files g = Ok c ->
  StronglySorted older (user_warnings c u) ->
  warnings files g u = Ok (Listing total fields shortened) ->
  fields !! i = Some f ->
  total = length (user_warnings c u)
  /\ fields = imap (make_field total) (take 10 (reverse (user_warnings c u)))
  /\ exists (k : nat) (w : warning),
       number f = Z.of_nat (S k)
       /\ user_warnings c u !! k = Some w
       /\ f = make_field total i w.
Proof.
  intros Hget Hsorted Hshow Hf.
  destruct (user_warnings c u) as [|x l] eqn:Huw.
  { unfold warnings in Hshow. rewrite Hget in Hshow. simpl in Hshow.
    unfold user_warnings in Huw. rewrite Huw in Hshow. discriminate Hshow. }
  rewrite <- Huw in *.
  assert (Hne : user_warnings c u <> []) by (rewrite Huw; discriminate).
  rewrite (warnings_nonempty files g u c Hget Hne) in Hshow.
  injection Hshow as <- <- <-.
  rewrite (sorted_desc_reverse _ Hsorted) in *.
  split; [reflexivity|]. split; [reflexivity|].
  rewrite list_lookup_imap in Hf.
  destruct (take 10 (reverse (user_warnings c u)) !! i) as [w|] eqn:Hw;
    [|discriminate Hf].
  injection Hf as <-.
  apply lookup_take_Some in Hw as [Hw _].
  apply reverse_lookup_Some in Hw as [Hw Hi].
  exists (length (user_warnings c u) - S i)%nat, w.
  split; [simpl; lia|]. split; [exact Hw|reflexivity].
Qed.

(** Two records stored one second apart: the listing shows the later one
    first, under [#2], and the earlier one under [#1]. *)
Lemma warnings_numbering_witness :
  let earlier := Field 1 1000 (Some 2) "spam" 1000 in
  let later := Field 2 1001 (Some 2) "still spam" 1001 in
  warnings files_spaced_warnings 7 "3" = Ok (Listing 2 [later; earlier] false)
  /\ user_warnings spaced_warnings "3" = [first_warning; third_warning]
  /\ (exists (k : nat) (w : warning),
        number earlier = Z.of_nat (S k)
        /\ user_warnings spaced_warnings "3" !! k = Some w
        /\ earlier = make_field 2 1 w)
  /\ (exists (k : nat) (w : warning),
        number later = Z.of_nat (S k)
        /\ user_warnings spaced_warnings "3" !! k = Some w
        /\ later = make_field 2 0 w).
Proof.
  intros earlier later.
  assert (Hget : get_config files_spaced_warnings 7 = Ok spaced_warnings)
    by reflexivity.
  assert (Hsorted : StronglySorted older (user_warnings spaced_warnings "3")).
  { repeat constructor. }
  assert (Hshow : warnings files_spaced_warnings 7 "3"
                  = Ok (Listing 2 [later; earlier] false)) by reflexivity.
  split; [exact Hshow|]. split; [reflexivity|]. split.
  - exact (proj2 (proj2 (warnings_numbering files_spaced_warnings 7 "3"
                           spaced_warnings 1 earlier [later; earlier] 2 false
                           Hget Hsorted Hshow eq_refl))).
  - exact (proj2 (proj2 (warnings_numbering files_spaced_warnings 7 "3"
                           spaced_warnings 0 later [later; earlier] 2 false
                           Hget Hsorted Hshow eq_refl))).
Defined.

(** X19.  An id that [warnings] shows for a member can be handed to
    [clearwarns]: the reference is found, the clear is confirmed, and the
    configuration is saved. *)
Theorem shown_id_can_be_cleared
    {role : Type} (lim : int_max_str_digits) (io : write_outcome)
    (ctx : @context role) (m : @member role) (ref : string) (files : store)
    (total : nat) (fields : list field) (shortened : bool) (f : field) :
  warnings files (guild_id ctx) (str (member_id m))
  = Ok (Listing total fields shortened) ->
  f ∈ fields ->
  int lim ref = Some (shown_id f) ->
  let w := run (clearwarns lim io ctx m ref) files in
  Send (Cleared (ClearedId (shown_id f))) ∈ trace (fst w)
  /\ (exists c', SaveConfig (guild_id ctx) c' ∈ trace (fst w))
  /\ snd w = Ok tt.
Proof.
  intros Hshow Hf Hint w. subst w.
  destruct (get_config files (guild_id ctx)) as [c|e] eqn:Hget.
  2: { unfold warnings in Hshow. rewrite Hget in Hshow. discriminate Hshow. }
  set (u := str (member_id m)) in *.
  destruct (user_warnings c u) as [|x l] eqn:Huw.
  { unfold warnings in Hshow. rewrite Hget in Hshow. simpl in Hshow.
    unfold user_warnings in Huw. rewrite Huw in Hshow. discriminate Hshow. }
  assert (Hne : user_warnings c u <> []) by (rewrite Huw; discriminate).
  rewrite (warnings_nonempty files _ u c Hget Hne) in Hshow.
  injection Hshow as <- <- <-.
  apply elem_of_lookup_imap_1 in Hf as (i & rec & -> & Hrec).
  rewrite shown_id_is_warning_key in *.
  assert (Hin : rec ∈ user_warnings c u).
  { apply list_elem_of_lookup_2 in Hrec.
    apply (subseteq_take 10) in Hrec.
    rewrite <- (sorted_desc_perm (user_warnings c u)). exact Hrec. }
  pose proof (numeric_is_not_all lim ref _ Hint) as Hall.
  rewrite (run_clearwarns_id lim io ctx m ref files c (warning_key rec)
             Hget Hne Hall Hint).
  fold u.
  destruct (Nat.ltb 0 _) eqn:Hpos.
  - cbn [fst snd trace]. split; [|split; [eexists; left|reflexivity]].
    rewrite !elem_of_cons. right. left. reflexivity.
  - exfalso. apply nothing_removed_iff in Hpos.
    rewrite Forall_forall in Hpos. exact (Hpos rec Hin eq_refl).
Qed.

Lemma shown_id_can_be_cleared_witness :
  Send (Cleared (ClearedId 1001))
  ∈ trace (fst (run (clearwarns NoLimit Written ctx target "1001")
                    files_one_warning)).
Proof.
  assert (Hshow : warnings files_one_warning (guild_id ctx)
                    (str (member_id target))
                  = Ok (Listing 1 [Field 1 1001 (Some 2) "still spam" 1001]
                                false)) by reflexivity.
  assert (Hf : Field 1 1001 (Some 2) "still spam" 1001
               ∈ [Field 1 1001 (Some 2) "still spam" 1001]) by left.
  assert (Hint : int NoLimit "1001"
                 = Some (shown_id (Field 1 1001 (Some 2) "still spam" 1001)))
    by reflexivity.
  exact (proj1 (shown_id_can_be_cleared NoLimit Written ctx target "1001"
                  files_one_warning 1 _ false _ Hshow Hf Hint)).
Defined.

End WarningsListFacts.

(** ** cogs/logging.py *)

Module LoggingFacts.
Import Py ConfigManager Props Sample.
Import LoggingCog.
Import ConfigFacts.

(** X20.  Where [log_event] sends.  An embed is sent only to a channel that
    exists and in which the bot may send messages and embed links.  For the
    type "log" it is the general log channel; for "mod_log" it is the
    moderation log channel when one is configured and the general log
    channel only when none is; any other type sends nothing. *)
Theorem log_event_routing (files : store) (g : guild) (log_type : string)
    (c : config) (n : Z) :
  get_config files (id g) = Ok c ->
  log_event files (Some g) log_type = Ok (SentTo n) ->
  n <> 0
  /\ (exists ch, channels g !! n = Some ch
                 /\ send_messages ch = true /\ embed_links ch = true)
  /\ ((log_type = "log" /\ log_channel c = Some n)
      \/ (log_type = "mod_log" /\ mod_log_channel c = Some n)
      \/ (log_type = "mod_log" /\ is_set (mod_log_channel c) = false
          /\ log_channel c = Some n)).
Proof.
  intros Hget. unfold log_event. rewrite Hget. simpl.
  set (channel_id := if String.eqb log_type "log" then _ else _).
  assert (Hroute : channel_id = Some n ->
            (log_type = "log" /\ log_channel c = Some n)
            \/ (log_type = "mod_log" /\ mod_log_channel c = Some n)
            \/ (log_type = "mod_log" /\ is_set (mod_log_channel c) = false
                /\ log_channel c = Some n)).
  { subst channel_id.
    destruct (String.eqb log_type "log") eqn:Hlog.
    { apply String.eqb_eq in Hlog. auto. }
    destruct (String.eqb log_type "mod_log") eqn:Hmod; [|discriminate].
    apply String.eqb_eq in Hmod.
    destruct (is_set (mod_log_channel c)); auto. }
  destruct channel_id as [k|]; [|discriminate].
  destruct (is_set (Some k)) eqn:Hset; [|discriminate].
  destruct (channels g !! k) as [ch|] eqn:Hch; [|discriminate].
  destruct (send_messages ch && embed_links ch) eqn:Hperm; [|discriminate].
  intros [= <-]. apply andb_prop in Hperm as [Hsend Hembed].
  split.
  - simpl in Hset. apply negb_true_iff, Z.eqb_neq in Hset. exact Hset.
  - split; [exists ch; auto|]. apply Hroute. reflexivity.
Qed.

Lemma log_event_routing_witness :
  let g := Guild 7 (<[55 := Channel true true]> ∅) in
  let files : store :=
    <[7 := Json (set_channel default_config LogChannel (Some 55))]> ∅ in
  exists ch, channels g !! 55 = Some ch
             /\ send_messages ch = true /\ embed_links ch = true.
Proof.
  assert (Hget : get_config
                   (<[7 := Json (set_channel default_config LogChannel
                                   (Some 55))]> ∅)
                   (id (Guild 7 (<[55 := Channel true true]> ∅)))
                 = Ok (set_channel default_config LogChannel (Some 55)))
    by reflexivity.
  assert (Hsent : log_event
                    (<[7 := Json (set_channel default_config LogChannel
                                    (Some 55))]> ∅)
                    (Some (Guild 7 (<[55 := Channel true true]> ∅))) "mod_log"
                  = Ok (SentTo 55)) by reflexivity.
  exact (proj1 (proj2 (log_event_routing _ _ "mod_log" _ 55 Hget Hsent))).
Defined.



Lemma valid_message_defaults :
  valid_message default_welcome /\ valid_message default_leave.
Proof.
  split; (split; [vm_compute; lia|]);
    unfold reset_words; rewrite !elem_of_cons, elem_of_nil;
    vm_compute; intuition discriminate.
Qed.

(** X22.  What [_set_message_helper] stores, a successful write assumed.
    A message that is missing, empty or one of "none", "clear", "reset" in
    any letter case resets the template: the default one is read back.
    Any other message of more than 1500 characters is refused, without a
    write, whatever would become of the write.  Any other message is stored
    as it is and read back unchanged.  So whatever the helper stores has at
    most 1500 characters and is none of the three words. *)
Theorem set_message_stores_valid (files : store) (g : Z) (c : config)
    (ty : message_type) (message : option string) :
  get_config files g = Ok c ->
  let text := default "" message in
  let default_msg :=
    match ty with Welcome => default_welcome | Leave => default_leave end in
  let resets := text = "" \/ lower text ∈ reset_words in
  (resets ->
   exists files',
     _set_message_helper Written files g ty message
     = Ok (files', [MessageReset ty default_msg])
     /\ get_config files' g = Ok (set_message c ty default_msg))
  /\ (~ resets -> (max_len < String.length text)%nat ->
      forall io,
        _set_message_helper io files g ty message
        = Ok (files, [MessageTooLong ty]))
  /\ (~ resets -> (String.length text <= max_len)%nat ->
      exists files',
        _set_message_helper Written files g ty message
        = Ok (files', [MessageSet ty text])
        /\ get_config files' g = Ok (set_message c ty text))
  /\ (forall files' out,
        _set_message_helper Written files g ty message = Ok (files', out) ->
        files' = files
        \/ exists stored,
             get_config files' g = Ok (set_message c ty stored)
             /\ valid_message stored).
Proof.
  intros Hget text default_msg resets.
  assert (Hdefault : valid_message default_msg)
    by (subst default_msg; destruct ty; apply valid_message_defaults).
  assert (Hreset : resets ->
            _set_message_helper Written files g ty message
            = Ok (save_config Written files g (set_message c ty default_msg),
                  [MessageReset ty default_msg])).
  { intros Hr. unfold _set_message_helper. rewrite Hget. cbn [bind].
    destruct message as [[|a s]|]; try reflexivity.
    destruct Hr as [Hr|Hr]; [discriminate Hr|].
    cbn [default] in text. subst text.
    rewrite (bool_decide_eq_true_2 _ Hr). reflexivity. }
  assert (Hkeep : ~ resets ->
            forall io,
              _set_message_helper io files g ty message
              = if Nat.ltb max_len (String.length text)
                then Ok (files, [MessageTooLong ty])
                else Ok (save_config io files g (set_message c ty text),
                         [MessageSet ty text])).
  { intros Hr io. unfold _set_message_helper. rewrite Hget. cbn [bind].
    destruct message as [[|a s]|].
    - exfalso. apply Hr. left. reflexivity.
    - cbn [default] in text. subst text.
      rewrite bool_decide_eq_false_2 by (intros Hin; apply Hr; right; exact Hin).
      reflexivity.
    - exfalso. apply Hr. left. reflexivity. }
  split; [|split; [|split]].
  - intros Hr. eexists. split; [apply Hreset, Hr|apply get_config_after_save].
  - intros Hr Hlong io. rewrite (Hkeep Hr io).
    apply Nat.ltb_lt in Hlong. rewrite Hlong. reflexivity.
  - intros Hr Hshort. eexists. rewrite (Hkeep Hr Written).
    apply Nat.ltb_ge in Hshort. rewrite Hshort.
    split; [reflexivity|apply get_config_after_save].
  - intros files' out Hrun.
    assert (Hdec : resets \/ ~ resets).
    { subst resets. destruct text as [|a s]; [left; left; reflexivity|].
      destruct (decide (lower (String a s) ∈ reset_words)) as [Hin|Hout].
      - left. right. exact Hin.
      - right. intros [Hr|Hr]; [discriminate Hr|exact (Hout Hr)]. }
    destruct Hdec as [Hr|Hr].
    + rewrite (Hreset Hr) in Hrun. injection Hrun as <- <-.
      right. exists default_msg.
      split; [apply get_config_after_save|exact Hdefault].
    + rewrite (Hkeep Hr Written) in Hrun.
      destruct (Nat.ltb max_len (String.length text)) eqn:Hlong;
        injection Hrun as <- <-; [left; reflexivity|].
      right. exists text. split; [apply get_config_after_save|].
      split; [apply Nat.ltb_ge in Hlong; exact Hlong|].
      intros Hin. apply Hr. right. exact Hin.
Qed.

(** A greeting is stored as it is; the word "RESET" brings the default
    template back. *)
Lemma set_message_stores_valid_witness :
  (exists files',
     _set_message_helper Written ∅ 7 Welcome (Some "Hello {user.name}!")
     = Ok (files', [MessageSet Welcome "Hello {user.name}!"])
     /\ get_config files' 7
        = Ok (set_message default_config Welcome "Hello {user.name}!"))
  /\ (exists files',
        _set_message_helper Written ∅ 7 Leave (Some "RESET")
        = Ok (files', [MessageReset Leave default_leave])
        /\ get_config files' 7
           = Ok (set_message default_config Leave default_leave)).
Proof.
  assert (Hget : get_config ∅ 7 = Ok default_config) by reflexivity.
  split.
  - assert (Hkeep : ~ ("Hello {user.name}!" = ""
                       \/ lower "Hello {user.name}!" ∈ reset_words)).
    { intros [H|H]; [discriminate H|].
      unfold reset_words in H. rewrite !elem_of_cons, elem_of_nil in H.
      vm_compute in H. intuition discriminate. }
    assert (Hshort : (String.length "Hello {user.name}!" <= max_len)%nat)
      by (vm_compute; lia).
    exact (proj1 (proj2 (proj2
             (set_message_stores_valid ∅ 7 default_config Welcome
                (Some "Hello {user.name}!") Hget))) Hkeep Hshort).
  - assert (Hreset : "RESET" = "" \/ lower "RESET" ∈ reset_words).
    { right. unfold reset_words. rewrite !elem_of_cons. vm_compute. auto. }
    exact (proj1 (set_message_stores_valid ∅ 7 default_config Leave
                    (Some "RESET") Hget) Hreset).
Defined.

End LoggingFacts.

(** ** Moderation commands *)

Module ModerationCommandFacts.
Import Py ConfigManager DurationParser Moderation Props Sample.
Import WarningsList ModerationCommands.
Import DurationParserFacts WarningsListFacts.

Lemma truncate_value_length (v : string) :
  (String.length (truncate_value v) <= 1024)%nat.
Proof.
  unfold truncate_value. destruct (Nat.ltb 1024 _) eqn:Hlong.
  - rewrite append_length, slice_to_length.
    change (String.length "...") with 3%nat.
    pose proof (Nat.le_min_l 1020 (String.length v)). lia.
  - apply Nat.ltb_ge in Hlong. exact Hlong.
Qed.

Lemma truncate_value_short (v : string) :
  (String.length v <= 1024)%nat -> truncate_value v = v.
Proof.
  intros Hshort. unfold truncate_value.
  apply Nat.ltb_ge in Hshort. rewrite Hshort. reflexivity.
Qed.

Lemma truncate_value_long (v : string) :
  (1024 < String.length v)%nat -> truncate_value v = slice_to 1020 v +:+ "...".
Proof.
  intros Hlong. unfold truncate_value.
  apply Nat.ltb_lt in Hlong. rewrite Hlong. reflexivity.
Qed.

(** X23.  The log embed starts with the "User" and "Moderator" fields,
    followed by a "Duration" field exactly when a non-empty duration is
    given, and then by the "Reason" field.  The reason shown is never empty
    and never longer than 1024 characters: "No reason provided." for an
    empty reason, the reason itself up to 1024 characters, and its first
    1020 characters followed by three dots beyond.  Every additional field
    follows, in order and under its name, with its value treated the same
    way. *)
Theorem mod_log_embed_fields (target moderator reason : string)
    (duration : option string) (additional_fields : list (string * string)) :
  exists (durs extras : list embed_field) (shown : string),
    _create_mod_log_embed target moderator reason duration additional_fields
    = [EmbedField "User" target true; EmbedField "Moderator" moderator true]
      ++ durs ++ [EmbedField "Reason" shown false] ++ extras
    /\ durs = match duration with
              | Some d =>
                  if String.eqb d "" then []
                  else [EmbedField "Duration" d true]
              | None => []
              end
    /\ (1 <= String.length shown <= 1024)%nat
    /\ (reason = "" -> shown = "No reason provided.")
    /\ ((1 <= String.length reason <= 1024)%nat -> shown = reason)
    /\ ((1024 < String.length reason)%nat ->
        shown = slice_to 1020 reason +:+ "...")
    /\ Forall2 (fun (f : embed_field) (nv : string * string) =>
                  name f = fst nv /\ inline f = true
                  /\ (String.length (value f) <= 1024)%nat
                  /\ ((String.length (snd nv) <= 1024)%nat ->
                      value f = snd nv)
                  /\ ((1024 < String.length (snd nv))%nat ->
                      value f = slice_to 1020 (snd nv) +:+ "..."))
               extras additional_fields.
Proof.
  unfold _create_mod_log_embed.
  eexists _, _, _.
  split; [reflexivity|].
  split; [destruct duration as [[|a s]|]; reflexivity|].
  split.
  { split; [|apply truncate_value_length].
    destruct reason as [|a s]; [vm_compute; lia|].
    unfold truncate_value. destruct (Nat.ltb 1024 _).
    - rewrite append_length. change (String.length "...") with 3%nat. lia.
    - simpl. lia. }
  split; [intros ->; reflexivity|].
  split.
  { intros [Hlo Hhi]. destruct reason as [|a s]; [simpl in Hlo; lia|].
    apply truncate_value_short, Hhi. }
  split.
  { intros Hlong. destruct reason as [|a s]; [simpl in Hlong; lia|].
    apply truncate_value_long, Hlong. }
  induction additional_fields as [|[n v] l IH]; simpl; constructor;
    [|exact IH].
  simpl. split; [reflexivity|]. split; [reflexivity|].
  split; [apply truncate_value_length|].
  split; [apply truncate_value_short|apply truncate_value_long].
Qed.

(** X24.  [timeout] asks the chat library for a timeout only for the member
    named, only when the eligibility check passes and the member is not an
    administrator, and only for a duration between one second and 28 days;
    the answer that the duration is longer than the maximum is never sent,
    because the parser has already turned such strings down. *)
Theorem timeout_requests_are_bounded
    {role : Type} (role_le : role -> role -> bool) (lim : int_max_str_digits)
    (ctx : @context role) (m : @member role) (administrator : bool)
    (duration_str : string) (evs : list timeout_event) :
  timeout role_le lim ctx m administrator duration_str = Ok evs ->
  (SendTooLong duration_str ∉ evs)
  /\ forall u d, RequestTimeout u d ∈ evs ->
       u = member_id m
       /\ _check_moderation_permissions role_le ctx m = None
       /\ administrator = false
       /\ parse_duration lim duration_str = Ok (Some d)
       /\ 0 < total_seconds d <= 2419200.
Proof.
  unfold timeout.
  destruct (_check_moderation_permissions role_le ctx m) as [r|] eqn:Hcheck.
  { intros [= <-]. split.
    - intros Hin. apply list_elem_of_singleton in Hin. discriminate Hin.
    - intros u d Hin. apply list_elem_of_singleton in Hin. discriminate Hin. }
  destruct administrator.
  { intros [= <-]. split.
    - intros Hin. apply list_elem_of_singleton in Hin. discriminate Hin.
    - intros u d Hin. apply list_elem_of_singleton in Hin. discriminate Hin. }
  destruct (parse_duration lim duration_str) as [[d|]|e] eqn:Hparse;
    cbn [bind]; [| |discriminate].
  2: { intros [= <-]. split.
       - intros Hin. apply list_elem_of_singleton in Hin. discriminate Hin.
       - intros u d Hin. apply list_elem_of_singleton in Hin.
         discriminate Hin. }
  pose proof (parse_duration_bounded _ _ _ Hparse) as [Hlo Hhi].
  assert (Hle : td_le d (Timedelta 0) = false)
    by (unfold td_le; simpl; apply Z.leb_gt; exact Hlo).
  assert (Hgt : td_gt d days28 = false).
  { unfold td_gt, days28. simpl. rewrite Z.gtb_ltb. apply Z.ltb_ge. lia. }
  rewrite Hle, Hgt. intros [= <-]. split.
  - intros Hin. rewrite !elem_of_cons, elem_of_nil in Hin.
    intuition discriminate.
  - intros u d' Hin. rewrite !elem_of_cons, elem_of_nil in Hin.
    destruct Hin as [[= -> ->]|[[=]|[]]].
    repeat split; try reflexivity; try assumption; lia.
Qed.

Lemma timeout_requests_are_bounded_witness :
  SendTooLong "29d" ∉ [SendInvalidDuration "29d"].
Proof.
  assert (Hrun : timeout Z.leb NoLimit ctx target false "29d"
                 = Ok [SendInvalidDuration "29d"]) by reflexivity.
  exact (proj1 (timeout_requests_are_bounded Z.leb NoLimit ctx target false
                  "29d" _ Hrun)).
Defined.


Lemma hms_spec (seconds : Z) :
  0 <= seconds <= max_slowmode ->
  let '(h, m, s) := hms seconds in
  seconds = 3600 * h + 60 * m + s
  /\ 0 <= h <= 6 /\ 0 <= m < 60 /\ 0 <= s < 60.
Proof.
  unfold max_slowmode, hms. intros Hrange.
  pose proof (Z.div_mod seconds 60 ltac:(lia)) as H1.
  pose proof (Z.mod_pos_bound seconds 60 ltac:(lia)) as H2.
  pose proof (Z.div_mod (seconds / 60) 60 ltac:(lia)) as H3.
  pose proof (Z.mod_pos_bound (seconds / 60) 60 ltac:(lia)) as H4.
  assert (0 <= seconds / 60 / 60 <= 6).
  { split; [apply Z.div_pos; [apply Z.div_pos|]; lia|].
    apply Z.div_le_upper_bound; [lia|].
    apply Z.div_le_upper_bound; lia. }
  lia.
Qed.

(** X26.  [slowmode] asks for an edit of the channel only for a delay
    between 0 and 21600 seconds, and then with exactly the delay given;
    outside that range its only answer is that the delay is out of range.
    When the edit goes through, a delay of 0 is reported as slowmode
    disabled, and a positive delay is reported with hours, minutes and
    seconds that add up to it, minutes and seconds below 60: all three when
    the hours are not zero, minutes and seconds when only the hours are
    zero, seconds alone otherwise.  When the edit is refused the answer says
    so. *)
Theorem slowmode_range (api_ok : bool) (seconds : Z) :
  (fst (slowmode api_ok seconds) = None
   <-> ~ (0 <= seconds <= max_slowmode))
  /\ (~ (0 <= seconds <= max_slowmode) ->
      snd (slowmode api_ok seconds) = OutOfRange)
  /\ (0 <= seconds <= max_slowmode ->
      fst (slowmode api_ok seconds) = Some seconds
      /\ snd (slowmode false seconds) = SlowmodeForbidden
      /\ (seconds = 0 -> snd (slowmode true seconds) = SlowmodeDisabled)
      /\ (0 < seconds ->
          exists h m s : Z,
            seconds = 3600 * h + 60 * m + s
            /\ 0 <= h <= 6 /\ 0 <= m < 60 /\ 0 <= s < 60
            /\ snd (slowmode true seconds)
               = SlowmodeEnabled seconds
                   (if 0 <? h
                    then str h +:+ "h " +:+ str m +:+ "m " +:+ str s +:+ "s"
                    else if 0 <? m
                    then str m +:+ "m " +:+ str s +:+ "s"
                    else str s +:+ "s"))).
Proof.
  unfold slowmode.
  destruct ((0 <=? seconds) && (seconds <=? max_slowmode)) eqn:Hrange;
    cbn [negb].
  - apply andb_prop in Hrange as [H1 H2].
    apply Z.leb_le in H1. apply Z.leb_le in H2.
    split; [destruct api_ok; cbn [fst]; (split; [discriminate|lia])|].
    split; [intros Hout; lia|].
    intros _. split; [destruct api_ok; reflexivity|].
    split; [reflexivity|].
    split; [intros ->; reflexivity|].
    intros Hpos. cbn [snd].
    assert (Hgt : (seconds >? 0) = true)
      by (rewrite Z.gtb_ltb; apply Z.ltb_lt; exact Hpos).
    rewrite Hgt. unfold slowmode_duration_str.
    pose proof (hms_spec seconds (conj H1 H2)) as Hhms.
    destruct (hms seconds) as [[h m] s].
    destruct Hhms as (Hsum & Hh & Hm & Hs).
    exists h, m, s. repeat (split; [assumption || lia|]).
    f_equal.
    assert (Eh : negb (h =? 0) = (0 <? h)).
    { destruct (Z.eqb_spec h 0), (Z.ltb_spec 0 h); try reflexivity; lia. }
    assert (Em : negb (m =? 0) = (0 <? m)).
    { destruct (Z.eqb_spec m 0), (Z.ltb_spec 0 m); try reflexivity; lia. }
    rewrite Eh, Em. reflexivity.
  - assert (Hout : ~ (0 <= seconds <= max_slowmode)).
    { apply andb_false_iff in Hrange as [H|H]; apply Z.leb_gt in H; lia. }
    split; [split; [intros _; exact Hout|reflexivity]|].
    split; [reflexivity|]. intros Hin. exfalso. exact (Hout Hin).
Qed.

(** A delay of 3725 seconds is requested as such and reported as one hour,
    two minutes and five seconds. *)
Lemma slowmode_range_witness :
  fst (slowmode true 3725) = Some 3725
  /\ snd (slowmode true 3725) = SlowmodeEnabled 3725 "1h 2m 5s"
  /\ exists h m s : Z,
       3725 = 3600 * h + 60 * m + s
       /\ 0 <= h <= 6 /\ 0 <= m < 60 /\ 0 <= s < 60
       /\ snd (slowmode true 3725)
          = SlowmodeEnabled 3725
              (if 0 <? h
               then str h +:+ "h " +:+ str m +:+ "m " +:+ str s +:+ "s"
               else if 0 <? m
               then str m +:+ "m " +:+ str s +:+ "s"
               else str s +:+ "s").
Proof.
  assert (Hrange : 0 <= 3725 <= max_slowmode) by (unfold max_slowmode; lia).
  assert (Hpos : 0 < 3725) by lia.
  destruct (proj2 (proj2 (slowmode_range true 3725)) Hrange)
    as (Hfst & _ & _ & Hshown).
  split; [exact Hfst|]. split; [reflexivity|exact (Hshown Hpos)].
Defined.

End ModerationCommandFacts.

(** ** cogs/verification.py *)

Module VerificationFacts.
Import Py ConfigManager Props Sample.
Import VerificationCog.
Import ConfigFacts.

(** X27.  [set_verified_role] stores a role only when it is neither at or
    above the bot's highest role nor the default role, and then the id read
    back after a successful write is that role's id; a refused role causes
    no write, and calling the command without a role clears the setting. *)
Theorem set_verified_role_stores_assignable
    {role : Type} (role_ge : role -> role -> bool) (role_id : role -> Z)
    (files : store) (g : Z) (c : config) (me_top_role default_role : role)
    (r : option role) (files' : store) (out : list role_reply) :
  get_config files g = Ok c ->
  set_verified_role role_ge role_id Written files g me_top_role default_role r
  = Ok (files', out) ->
  match r with
  | None =>
      out = [RoleCleared]
      /\ get_config files' g = Ok (set_verified_role_id c None)
  | Some x =>
      if role_ge x me_top_role || (role_id x =? role_id default_role)
      then files' = files /\ (out = [RoleTooHigh] \/ out = [RoleIsEveryone])
      else out = [RoleSet (role_id x)]
           /\ get_config files' g
              = Ok (set_verified_role_id c (Some (role_id x)))
  end.
Proof.
  intros Hget. unfold set_verified_role. rewrite Hget. cbn [bind].
  destruct r as [x|].
  - destruct (role_ge x me_top_role); cbn [orb].
    { intros [= <- <-]. auto. }
    destruct (role_id x =? role_id default_role).
    { intros [= <- <-]. auto. }
    intros [= <- <-]. split; [reflexivity|apply get_config_after_save].
  - intros [= <- <-]. split; [reflexivity|apply get_config_after_save].
Qed.

Lemma set_verified_role_stores_assignable_witness :
  get_config (<[7 := Json (set_verified_role_id default_config (Some 40))]> ∅)
             7
  = Ok (set_verified_role_id default_config (Some 40)).
Proof.
  assert (Hget : get_config ∅ 7 = Ok default_config) by reflexivity.
  assert (Hrun : set_verified_role Z.geb (fun r => r) Written ∅ 7 100 0
                   (Some 40)
                 = Ok (<[7 := Json (set_verified_role_id default_config
                                      (Some 40))]> ∅, [RoleSet 40]))
    by reflexivity.
  exact (proj2 (set_verified_role_stores_assignable Z.geb (fun r => r) ∅ 7
                  default_config 100 0 (Some 40) _ _ Hget Hrun)).
Defined.

End VerificationFacts.

(** ** All writing commands together *)

Module SystemFacts.
Import Py ConfigManager DurationParser Props.
Import System.
Import ConfigFacts WarnFacts ClearFacts LedgerFacts WarnLedgerFacts
       WarnScopeFacts WarnConfigFacts LoggingFacts.

Section Invariant.
Context {role : Type}.
Variable role_le : role -> role -> bool.
Variable role_ge : role -> role -> bool.
Variable role_id : role -> Z.
Variable lim : int_max_str_digits.

Lemma well_formed_default : well_formed lim default_config.
Proof.
  split; [apply no_empty_entry_default|].
  split; [apply valid_settings_default|].
  intros [] message [= <-]; apply valid_message_defaults.
Qed.

Lemma well_formed_get_config (files : store) (g : Z) (c : config) :
  well_formed_store lim files -> get_config files g = Ok c ->
  well_formed lim c.
Proof.
  intros Hinv. unfold get_config, load.
  destruct (files !! g) as [[c0| | |]|] eqn:Hg; intros [= <-];
    [exact (Hinv g c0 Hg)|apply well_formed_default..].
Qed.

Lemma well_formed_store_save (io : write_outcome) (files : store) (g : Z)
    (c : config) :
  well_formed_store lim files -> well_formed lim c ->
  well_formed_store lim (save_config io files g c).
Proof.
  intros Hfiles Hc g' c0. unfold save_config. destruct io.
  - destruct (decide (g = g')) as [<-|Hne].
    + rewrite lookup_insert_eq. intros [= <-]. exact Hc.
    + rewrite lookup_insert_ne by exact Hne. apply Hfiles.
  - apply Hfiles.
  - destruct (decide (g = g')) as [<-|Hne].
    + rewrite lookup_insert_eq. discriminate.
    + rewrite lookup_insert_ne by exact Hne. apply Hfiles.
Qed.

(** A command that reads the configuration, changes it into a well-formed
    one and saves it keeps the store well-formed. *)
Lemma well_formed_update (io : write_outcome) (files : store) (g : Z)
    (c c' : config) :
  well_formed_store lim files ->
  get_config files g = Ok c ->
  (well_formed lim c -> well_formed lim c') ->
  well_formed_store lim (save_config io files g c').
Proof.
  intros Hinv Hget Hstep. apply well_formed_store_save; [exact Hinv|].
  apply Hstep. exact (well_formed_get_config files g c Hinv Hget).
Qed.

Lemma step_well_formed (files : store) (cmd : @command role) :
  well_formed_store lim files ->
  well_formed_store lim (step role_le role_ge role_id lim files cmd).
Proof.
  intros Hinv.
  destruct cmd as [io now ctx m reason
                  |io ctx m warning_ref
                  |io guild_id count
                  |io guild_id action_type
                  |io guild_id duration_str
                  |io guild_id ty channel
                  |io guild_id ty message
                  |io guild_id me_top_role default_role r]; cbn [step].
  - (* warn *)
    destruct (run_warn_cases role_le lim io now ctx m reason files)
      as [(r & Hw) | [(e & Hw) | (text & c & Hr & Htext & Hcheck & Hget & Hw)]].
    + rewrite Hw. exact Hinv.
    + rewrite Hw. exact Hinv.
    + cbv zeta in Hw. rewrite Hw.
      rewrite (proj1 (auto_action_frame lim _ _ _ _ _)). cbn [Moderation.fs].
      apply (well_formed_update io files _ c); [exact Hinv|exact Hget|].
      intros (Hne & Hset & Hmsg).
      split; [apply no_empty_entry_add_warning, Hne|].
      split; [exact Hset|exact Hmsg].
  - (* clearwarns *)
    destruct (clearwarns_final_store lim io ctx m warning_ref files)
      as [Hsame | (c' & Hin & Hfs)].
    + rewrite Hsame. exact Hinv.
    + rewrite Hfs.
      destruct (clearwarns_saved_entry lim io ctx m warning_ref files _ c' Hin)
        as (c & l & Hget & _ & ->).
      apply (well_formed_update io files _ c); [exact Hinv|exact Hget|].
      intros (Hne & Hset & Hmsg).
      split; [apply no_empty_entry_put_warnings, Hne|].
      destruct l; (split; [exact Hset|exact Hmsg]).
  - (* warnconfig threshold *)
    unfold WarnConfig.warnconfig_threshold.
    destruct (count <? 0) eqn:Hneg; [exact Hinv|].
    destruct (get_config files guild_id) as [c|e] eqn:Hget; [|exact Hinv].
    cbn [bind files_after].
    apply (well_formed_update io files _ c); [exact Hinv|exact Hget|].
    intros (Hne & (_ & Hact & Hdur) & Hmsg).
    split; [exact Hne|]. split; [|exact Hmsg].
    split; [simpl; apply Z.ltb_ge in Hneg; exact Hneg|]. split; assumption.
  - (* warnconfig action *)
    unfold WarnConfig.warnconfig_action.
    destruct (bool_decide (lower action_type ∈ WarnConfig.valid_actions))
      eqn:Hvalid; cbn [negb]; [|exact Hinv].
    destruct (get_config files guild_id) as [c|e] eqn:Hget; [|exact Hinv].
    cbn [bind files_after].
    apply (well_formed_update io files _ c); [exact Hinv|exact Hget|].
    intros (Hne & (Hth & _ & Hdur) & Hmsg).
    split; [exact Hne|]. split; [|exact Hmsg].
    split; [exact Hth|]. split; [|exact Hdur].
    apply bool_decide_eq_true in Hvalid. exact Hvalid.
  - (* warnconfig duration *)
    unfold WarnConfig.warnconfig_duration.
    destruct (parse_duration lim duration_str) as [[d|]|e] eqn:Hparse;
      cbn [bind]; [|exact Hinv|exact Hinv].
    destruct (td_le d (Timedelta 0)); [exact Hinv|].
    destruct (get_config files guild_id) as [c|e] eqn:Hget; [|exact Hinv].
    cbn [bind files_after].
    apply (well_formed_update io files _ c); [exact Hinv|exact Hget|].
    intros (Hne & (Hth & Hact & _) & Hmsg).
    split; [exact Hne|]. split; [|exact Hmsg].
    split; [exact Hth|]. split; [exact Hact|]. exists d. exact Hparse.
  - (* setchannel *)
    unfold LoggingCog._set_channel_helper.
    destruct (get_config files guild_id) as [c|e] eqn:Hget; [|exact Hinv].
    cbn [bind].
    destruct channel as [[n ch]|]; cbn [files_after];
      (apply (well_formed_update io files _ c); [exact Hinv|exact Hget|]);
      intros (Hne & Hset & Hmsg); destruct ty;
      (split; [exact Hne|]); (split; [exact Hset|exact Hmsg]).
  - (* setmessage *)
    unfold LoggingCog._set_message_helper.
    destruct (get_config files guild_id) as [c|e] eqn:Hget; [|exact Hinv].
    cbn [bind].
    assert (Hstore : forall text,
              LoggingCog.valid_message text ->
              well_formed_store lim
                (save_config io files guild_id
                   (LoggingCog.set_message c ty text))).
    { intros text Htext.
      apply (well_formed_update io files _ c); [exact Hinv|exact Hget|].
      intros (Hne & Hset & Hmsg).
      split; [destruct ty; exact Hne|]. split; [destruct ty; exact Hset|].
      intros ty' message'. specialize (Hmsg ty' message').
      destruct ty, ty'; simpl in *; try exact Hmsg;
        intros [= <-]; exact Htext. }
    assert (Hdefault : LoggingCog.valid_message
                         match ty with
                         | LoggingCog.Welcome => LoggingCog.default_welcome
                         | LoggingCog.Leave => LoggingCog.default_leave
                         end)
      by (destruct ty; apply valid_message_defaults).
    destruct message as [[|a s]|]; cbn [files_after];
      [apply Hstore, Hdefault| |apply Hstore, Hdefault].
    destruct (bool_decide (lower (String a s) ∈ LoggingCog.reset_words))
      eqn:Hword; cbn [negb files_after]; [apply Hstore, Hdefault|].
    destruct (Nat.ltb LoggingCog.max_len _) eqn:Hlong;
      cbn [files_after]; [exact Hinv|].
    apply Hstore. split; [apply Nat.ltb_ge in Hlong; exact Hlong|].
    apply bool_decide_eq_false in Hword. exact Hword.
  - (* setverifiedrole *)
    unfold VerificationCog.set_verified_role.
    destruct (get_config files guild_id) as [c|e] eqn:Hget; [|exact Hinv].
    cbn [bind].
    destruct r as [x|]; cbn [files_after].
    + destruct (role_ge x me_top_role); [exact Hinv|].
      destruct (role_id x =? role_id default_role); [exact Hinv|].
      cbn [files_after].
      apply (well_formed_update io files _ c); [exact Hinv|exact Hget|].
      intros (Hne & Hset & Hmsg). split; [exact Hne|]. split; assumption.
    + apply (well_formed_update io files _ c); [exact Hinv|exact Hget|].
      intros (Hne & Hset & Hmsg). split; [exact Hne|]. split; assumption.
Qed.

End Invariant.

(** X28.  Whatever commands are run, in whatever order, with whatever
    arguments and however each write goes, a well-formed configuration
    directory stays well-formed: every configuration on file lists nobody
    with an empty sequence of warnings, has a non-negative threshold, one of
    the four actions and a duration that parses, and has templates of at
    most 1500 characters that are not a reset word.  The commands are
    [warn], [clearwarns], the three [warnconfig] setters, the channel and
    message setters and [setverifiedrole]; the empty directory is
    well-formed. *)
Theorem commands_keep_stores_well_formed
    {role : Type} (role_le role_ge : role -> role -> bool)
    (role_id : role -> Z) (lim : int_max_str_digits)
    (files : store) (cmds : list (@command role)) :
  well_formed_store lim files ->
  well_formed_store lim (steps role_le role_ge role_id lim files cmds).
Proof.
  unfold steps. revert files.
  induction cmds as [|cmd cmds IH]; intros files Hinv; simpl; [exact Hinv|].
  apply IH. apply step_well_formed. exact Hinv.
Qed.

Lemma commands_keep_stores_well_formed_witness :
  well_formed_store NoLimit
    (steps Z.leb Z.geb (fun r => r) NoLimit ∅
       [WarnconfigAction Written 7 "Kick";
        Warn Written 1000 Sample.ctx Sample.target (Some "spam");
        Clearwarns Written Sample.ctx Sample.target "all";
        SetMessage DumpFailed 7 LoggingCog.Welcome (Some "hello")]).
Proof.
  assert (Hempty : well_formed_store NoLimit (∅ : store)).
  { intros g c Hg. rewrite lookup_empty in Hg. discriminate Hg. }
  exact (commands_keep_stores_well_formed Z.leb Z.geb (fun r => r) NoLimit ∅
           _ Hempty).
Defined.

End SystemFacts.

(** ** The lock table *)

Module LockTableFacts.
Import LockTable.

Lemma consistent_no_locks : consistent no_locks.
Proof.
  split; intros g; intros; simpl in *;
    match goal with H : ∅ !! _ = Some _ |- _ =>
      rewrite lookup_empty in H; discriminate H end.
Qed.

Lemma get_guild_lock_consistent (st : locks) (g : Z) :
  consistent st -> consistent (fst (get_guild_lock st g)).
Proof.
  intros [Hlt Hinj]. unfold get_guild_lock.
  destruct (table st !! g) as [l|] eqn:Hg; cbn [fst table created];
    [split; assumption|].
  split.
  - intros g' l Hl. cbn [table created] in *.
    destruct (decide (g = g')) as [<-|Hne].
    + rewrite lookup_insert_eq in Hl. injection Hl as <-. lia.
    + rewrite lookup_insert_ne in Hl by exact Hne.
      pose proof (Hlt g' l Hl). lia.
  - intros g1 g2 l H1 H2. cbn [table created] in *.
    destruct (decide (g = g1)) as [<-|Hne1], (decide (g = g2)) as [<-|Hne2];
      try reflexivity.
    + rewrite lookup_insert_eq in H1. injection H1 as <-.
      rewrite lookup_insert_ne in H2 by exact Hne2.
      pose proof (Hlt g2 _ H2). lia.
    + rewrite lookup_insert_eq in H2. injection H2 as <-.
      rewrite lookup_insert_ne in H1 by exact Hne1.
      pose proof (Hlt g1 _ H1). lia.
    + rewrite lookup_insert_ne in H1 by exact Hne1.
      rewrite lookup_insert_ne in H2 by exact Hne2.
      exact (Hinj g1 g2 l H1 H2).
Qed.

Lemma after_calls_consistent (st : locks) (gs : list Z) :
  consistent st -> consistent (after_calls st gs).
Proof.
  unfold after_calls. revert st.
  induction gs as [|g gs IH]; intros st Hst; simpl; [exact Hst|].
  apply IH, get_guild_lock_consistent, Hst.
Qed.

Lemma get_guild_lock_recorded (st : locks) (g : Z) :
  table (fst (get_guild_lock st g)) !! g = Some (snd (get_guild_lock st g)).
Proof.
  unfold get_guild_lock.
  destruct (table st !! g) as [l|] eqn:Hg; cbn [fst snd table].
  - exact Hg.
  - apply lookup_insert_eq.
Qed.

Lemma get_guild_lock_keeps (st : locks) (g g' : Z) (l : nat) :
  table st !! g' = Some l -> table (fst (get_guild_lock st g)) !! g' = Some l.
Proof.
  intros Hl. unfold get_guild_lock.
  destruct (table st !! g) as [l0|] eqn:Hg; cbn [fst table]; [exact Hl|].
  rewrite lookup_insert_ne; [exact Hl|]. intros <-. congruence.
Qed.

Lemma after_calls_keeps (st : locks) (gs : list Z) (g : Z) (l : nat) :
  table st !! g = Some l -> table (after_calls st gs) !! g = Some l.
Proof.
  unfold after_calls. revert st.
  induction gs as [|g0 gs IH]; intros st Hl; simpl; [exact Hl|].
  apply IH, get_guild_lock_keeps, Hl.
Qed.

(** X29.  One lock per guild.  Starting from the empty table, after any
    calls of [get_guild_lock]: a guild that asks again, however many other
    calls lie in between, gets the lock it got the first time, and the call
    adds nothing to the table; two different guilds never get the same
    lock. *)
Theorem one_lock_per_guild (before between : list Z) (g g' : Z) :
  let st0 := after_calls no_locks before in
  let '(st1, l1) := get_guild_lock st0 g in
  let st2 := after_calls st1 between in
  get_guild_lock st2 g = (st2, l1)
  /\ (g' <> g -> snd (get_guild_lock st2 g') <> l1).
Proof.
  intros st0.
  destruct (get_guild_lock st0 g) as [st1 l1] eqn:Hfirst.
  intros st2.
  assert (Hst1 : consistent st1).
  { change st1 with (fst (st1, l1)). rewrite <- Hfirst.
    apply get_guild_lock_consistent, after_calls_consistent,
      consistent_no_locks. }
  assert (Hrec1 : table st1 !! g = Some l1).
  { pose proof (get_guild_lock_recorded st0 g) as H.
    rewrite Hfirst in H. exact H. }
  assert (Hrec2 : table st2 !! g = Some l1)
    by (apply after_calls_keeps, Hrec1).
  split.
  - unfold get_guild_lock. rewrite Hrec2. reflexivity.
  - intros Hne Heq.
    assert (Hst3 : consistent (fst (get_guild_lock st2 g')))
      by (apply get_guild_lock_consistent, after_calls_consistent, Hst1).
    pose proof (get_guild_lock_recorded st2 g') as Hrec3.
    rewrite Heq in Hrec3.
    pose proof (get_guild_lock_keeps st2 g' g l1 Hrec2) as Hrec4.
    exact (Hne (proj2 Hst3 g' g l1 Hrec3 Hrec4)).
Qed.

Lemma one_lock_per_guild_witness :
  get_guild_lock (after_calls (fst (get_guild_lock no_locks 7)) [8; 9]) 7
  = (after_calls (fst (get_guild_lock no_locks 7)) [8; 9], 0%nat).
Proof.
  exact (proj1 (one_lock_per_guild [] [8; 9] 7 8)).
Defined.

End LockTableFacts.
